(** * Worker supervisor and live log fan-out: the Python services, embedded

    The development follows the repository's modules:
    - [PyStr], [PySlice]: the Python [str] and list operations the services use;
    - [Regex]: the fragment of Python's [re] the log patterns are written in;
    - [PyDatetime]: [datetime.strptime], [isoformat], [strftime] on the formats used;
    - [LogFile]: the worker's log file as one pass of a reader sees it;
    - [LogMonitor]: [web_manager/backend/services/log_monitor.py];
    - [LogService]: [web_frontend/services/log_service.py];
    - [Exn]: the exceptions of the operating-system calls and [try]/[except];
    - [BackendProcess]: [web_manager/backend/services/process_manager.py];
    - [ProcessApi]: the process routes of [web_manager/backend/app.py];
    - [WebApp]: [web_app.py];
    - [ConnectionManager]: [web_manager/backend/app.py];
    - [Pattern]: [re.match] as a test, for the validators;
    - [PromptManager]: [web_manager/backend/services/prompt_manager.py];
    - [ConfigManager]: [web_manager/backend/services/config_manager.py];
    - [Samples]: data on which the definitions are run.

    Conventions.  A Python [str] is a [string] of bytes holding its UTF-8
    encoding; substring, prefix and equality tests on valid UTF-8 agree with
    the tests on code points.  Character classes ([isspace], [\w], [\d]) and
    case mappings are those of Python on code points below 128; bytes from
    128 up belong to no class and have no case.  Python integers are [Z].
    The clock ([datetime.now()]) is an argument of the functions that read
    it, or part of what the operating system answers.  Coroutines are taken
    one call at a time, but for the two places where a call reads shared
    state again after an [await]: [ConnectionManager.broadcast_log] is given
    what the other tasks do to the list of connections while each send is
    awaited, and an iteration of the tail loop of [LogMonitor] is given the
    file as its read finds it, beside the file whose size it took. *)

From Stdlib Require Import String Ascii List ZArith Lia Bool Arith.
From Stdlib Require Import DecimalString.
Import ListNotations.
Local Open Scope string_scope.
Local Open Scope list_scope.

(** ** Python [str] operations *)

Module PyStr.

Definition code (c : ascii) : nat := nat_of_ascii c.

(** [str.isspace] on one character: code points 9-13, 28-31 and 32. *)
Definition isspace (c : ascii) : bool :=
  let n := code c in
  (((9 <=? n) && (n <=? 13)) || ((28 <=? n) && (n <=? 32)))%nat.

Definition isdigit (c : ascii) : bool :=
  let n := code c in ((48 <=? n) && (n <=? 57))%nat.

Definition isupper (c : ascii) : bool :=
  let n := code c in ((65 <=? n) && (n <=? 90))%nat.

Definition islower (c : ascii) : bool :=
  let n := code c in ((97 <=? n) && (n <=? 122))%nat.

(** The class [\w] of [re]: letters, digits and the underscore. *)
Definition isword (c : ascii) : bool :=
  isdigit c || isupper c || islower c || (code c =? 95)%nat.

Definition upper_char (c : ascii) : ascii :=
  if islower c then ascii_of_nat (code c - 32) else c.

Definition lower_char (c : ascii) : ascii :=
  if isupper c then ascii_of_nat (code c + 32) else c.

Fixpoint map_chars (f : ascii -> ascii) (s : string) : string :=
  match s with
  | EmptyString => EmptyString
  | String c s' => String (f c) (map_chars f s')
  end.

Definition upper : string -> string := map_chars upper_char.
Definition lower : string -> string := map_chars lower_char.

Fixpoint lstrip (s : string) : string :=
  match s with
  | EmptyString => EmptyString
  | String c s' => if isspace c then lstrip s' else s
  end.

Fixpoint rstrip (s : string) : string :=
  match s with
  | EmptyString => EmptyString
  | String c s' =>
      match rstrip s' with
      | EmptyString => if isspace c then EmptyString else String c EmptyString
      | r => String c r
      end
  end.

(** [s.strip()] *)
Definition strip (s : string) : string := rstrip (lstrip s).

(** Whether [s] is empty or made of whitespace only. *)
Fixpoint all_space (s : string) : bool :=
  match s with
  | EmptyString => true
  | String c s' => isspace c && all_space s'
  end.

(** The first character of [s] that is not whitespace. *)
Definition first_nonspace (s : string) : option ascii :=
  match lstrip s with
  | EmptyString => None
  | String c _ => Some c
  end.

(** [s.startswith(p)] *)
Definition startswith (s p : string) : bool := String.prefix p s.

(** [needle in hay] *)
Fixpoint contains (needle hay : string) : bool :=
  String.prefix needle hay ||
  match hay with
  | EmptyString => false
  | String _ hay' => contains needle hay'
  end.

(** [any(k in s for k in keys)] *)
Definition any_in (keys : list string) (s : string) : bool :=
  existsb (fun k => contains k s) keys.

Definition newline : ascii := "010"%char.

(** [s.split('\n')] *)
Fixpoint split_lines (s : string) : list string :=
  match s with
  | EmptyString => [EmptyString]
  | String c s' =>
      if Ascii.eqb c newline then EmptyString :: split_lines s'
      else match split_lines s' with
           | h :: t => String c h :: t
           | [] => [String c EmptyString]
           end
  end.

(** [f.readlines()] on text with ["\n"] line ends: every line keeps its
    terminator, the last one may lack it. *)
Fixpoint readlines (s : string) : list string :=
  match s with
  | EmptyString => []
  | String c s' =>
      if Ascii.eqb c newline then String c EmptyString :: readlines s'
      else match readlines s' with
           | h :: t => String c h :: t
           | [] => [String c EmptyString]
           end
  end.

(** Python truthiness of a [str]. *)
Definition truthy (s : string) : bool :=
  match s with EmptyString => false | _ => true end.

Fixpoint skip (n : nat) (s : string) : string :=
  match n, s with
  | O, _ => s
  | S n', String _ s' => skip n' s'
  | S _, EmptyString => EmptyString
  end.

Fixpoint take (n : nat) (s : string) : string :=
  match n, s with
  | S n', String c s' => String c (take n' s')
  | _, _ => EmptyString
  end.

(** [int(s)] for a run of decimal digits. *)
Fixpoint int_acc (acc : Z) (s : string) : Z :=
  match s with
  | EmptyString => acc
  | String c s' => int_acc (10 * acc + Z.of_nat (code c - 48)) s'
  end.

Definition int_of (s : string) : Z := int_acc 0 s.

(** Whether a byte continues a UTF-8 sequence. *)
Definition is_continuation (c : ascii) : bool :=
  ((128 <=? code c) && (code c <? 192))%nat.

(** [len(s)]: the number of code points, one for every byte that starts a
    sequence. *)
Fixpoint len (s : string) : nat :=
  match s with
  | EmptyString => 0
  | String c s' => ((if is_continuation c then 0 else 1) + len s')%nat
  end.

(** [s[:n]] for [n >= 0]: the first [n] code points. *)
Fixpoint prefix_chars (n : nat) (s : string) : string :=
  match s with
  | EmptyString => EmptyString
  | String c s' =>
      if is_continuation c then String c (prefix_chars n s')
      else match n with
           | O => EmptyString
           | S n' => String c (prefix_chars n' s')
           end
  end.

(** [s.endswith(p)] *)
Fixpoint endswith (s p : string) : bool :=
  String.eqb s p ||
  match s with
  | EmptyString => false
  | String _ s' => endswith s' p
  end.

(** [str(n)] for an integer. *)
Definition str_of_int (n : Z) : string :=
  NilZero.string_of_int (Z.to_int n).

(** ['\n'.join(lines)] *)
Fixpoint join_lines (lines : list string) : string :=
  match lines with
  | [] => EmptyString
  | [l] => l
  | l :: rest => (l ++ String newline (join_lines rest))%string
  end.

(** [s[1:]]: the first code point goes, with the bytes that continue it. *)
Definition tail_chars (s : string) : string :=
  match s with
  | EmptyString => EmptyString
  | String _ s' =>
      (fix continued (r : string) : string :=
         match r with
         | String c r' => if is_continuation c then continued r' else r
         | EmptyString => EmptyString
         end) s'
  end.

(** [s[:-1]]: the last code point goes. *)
Fixpoint init_chars (s : string) : string :=
  match s with
  | EmptyString => EmptyString
  | String c s' =>
      if (len s' =? 0)%nat then EmptyString else String c (init_chars s')
  end.

Definition carriage_return : ascii := "013"%char.

(** Whether the character [x] occurs in [s]. *)
Fixpoint has_char (x : ascii) (s : string) : bool :=
  match s with
  | EmptyString => false
  | String c s' => Ascii.eqb c x || has_char x s'
  end.

(** [all(p(c) for c in s)] *)
Fixpoint all_chars (p : ascii -> bool) (s : string) : bool :=
  match s with
  | EmptyString => true
  | String c s' => p c && all_chars p s'
  end.

(** What a file opened in text mode hands to its reader: each ["\r\n"] and
    each other ["\r"] has become ["\n"]. *)
Fixpoint universal_newlines (s : string) : string :=
  match s with
  | EmptyString => EmptyString
  | String c s' =>
      if Ascii.eqb c carriage_return then
        String newline
          match s' with
          | String c' s'' =>
              if Ascii.eqb c' newline then universal_newlines s''
              else universal_newlines s'
          | EmptyString => EmptyString
          end
      else String c (universal_newlines s')
  end.

(** Whether the byte [c] lies between [lo] and [hi]. *)
Definition between (lo hi : nat) (c : ascii) : bool :=
  ((lo <=? code c) && (code c <=? hi))%nat.

(** The second byte of a sequence of three or four bytes, given the first:
    no overlong form, no surrogate, nothing past U+10FFFF. *)
Definition second_byte (first c : ascii) : bool :=
  match code first with
  | 224 => between 160 191 c
  | 237 => between 128 159 c
  | 240 => between 144 191 c
  | 244 => between 128 143 c
  | _ => between 128 191 c
  end.

(** [bytes.decode('utf-8', errors='ignore')], the text a file opened with
    [encoding='utf-8', errors='ignore'] hands to its reader before line ends
    are translated: well-formed sequences are kept, every other byte is
    dropped. *)
Fixpoint decode_ignore (s : string) : string :=
  match s with
  | EmptyString => EmptyString
  | String a s1 =>
      if (code a <? 128)%nat then String a (decode_ignore s1)
      else if between 194 223 a then
        match s1 with
        | String b s2 =>
            if between 128 191 b then String a (String b (decode_ignore s2))
            else decode_ignore s1
        | EmptyString => EmptyString
        end
      else if between 224 239 a then
        match s1 with
        | String b (String c s3) =>
            if second_byte a b && between 128 191 c
            then String a (String b (String c (decode_ignore s3)))
            else decode_ignore s1
        | _ => decode_ignore s1
        end
      else if between 240 244 a then
        match s1 with
        | String b (String c (String d s4)) =>
            if second_byte a b && between 128 191 c && between 128 191 d
            then String a (String b (String c (String d (decode_ignore s4))))
            else decode_ignore s1
        | _ => decode_ignore s1
        end
      else decode_ignore s1
  end.

(** A text that a reader in text mode is handed byte for byte: well-formed
    UTF-8 without a carriage return. *)
Definition as_written (s : string) : Prop :=
  decode_ignore s = s /\ universal_newlines s = s.

(** The whitespace [int] skips at both ends of its argument: code points
    9-13 and 32. *)
Definition isspace_c (c : ascii) : bool :=
  let n := code c in (((9 <=? n) && (n <=? 13)) || (n =? 32))%nat.

Fixpoint lstrip_c (s : string) : string :=
  match s with
  | EmptyString => EmptyString
  | String c s' => if isspace_c c then lstrip_c s' else s
  end.

Fixpoint rstrip_c (s : string) : string :=
  match s with
  | EmptyString => EmptyString
  | String c s' =>
      match rstrip_c s' with
      | EmptyString => if isspace_c c then EmptyString else String c EmptyString
      | r => String c r
      end
  end.

(** The digits of an integer literal: digits with single underscores
    between them.  [after_digit] tells whether the character before was a
    digit. *)
Fixpoint scan_digits (s : string) (after_digit : bool) : option string :=
  match s with
  | EmptyString => if after_digit then Some EmptyString else None
  | String c s' =>
      if isdigit c then option_map (String c) (scan_digits s' true)
      else if Ascii.eqb c "_" && after_digit then
        match s' with
        | String c' _ => if isdigit c' then scan_digits s' false else None
        | EmptyString => None
        end
      else None
  end.

(** The longest literal [int] converts. *)
Definition max_str_digits : Z := 4300.

Definition digits_value (ds : option string) : option Z :=
  match ds with
  | Some digits =>
      if (Z.of_nat (String.length digits) <=? max_str_digits)%Z
      then Some (int_of digits) else None
  | None => None
  end.

(** [int(s)]; [None] is its [ValueError]. *)
Definition to_int (s : string) : option Z :=
  match rstrip_c (lstrip_c s) with
  | String "+" r => digits_value (scan_digits r false)
  | String "-" r => option_map Z.opp (digits_value (scan_digits r false))
  | r => digits_value (scan_digits r false)
  end.

End PyStr.

(** ** Python list slicing *)

Module PySlice.

Section Slice.
Context {A : Type}.

(** [l[start:]] for any integer [start]: a negative start counts from the
    end and is clamped at the beginning of the list. *)
Definition from (start : Z) (l : list A) : list A :=
  let n := Z.of_nat (List.length l) in
  let i := if (start <? 0)%Z then Z.max (n + start) 0 else Z.min start n in
  skipn (Z.to_nat i) l.

(** [l[-k:] if len(l) > k else l], the idiom the services use to keep the
    most recent [k] elements. *)
Definition last_if_longer (k : Z) (l : list A) : list A :=
  if (k <? Z.of_nat (List.length l))%Z then from (- k) l else l.

(** The [k] last elements of [l]. *)
Definition lastn (k : nat) (l : list A) : list A :=
  skipn (List.length l - k) l.

End Slice.

End PySlice.

(** ** The fragment of [re] used by the log patterns

    A backtracking matcher in continuation style: alternatives are tried in
    the order of [re] (greedy repetitions longest first, lazy ones shortest
    first), and the first complete match is returned. *)

Module Regex.

Inductive cclass : Type :=
| CDigit                (* \d *)
| CWord                 (* \w *)
| CSpace                (* \s *)
| CAny                  (* .  : anything but a newline *)
| CNot (c : ascii)      (* [^c] *)
| CChar (c : ascii).    (* a literal character *)

Definition cmatch (cl : cclass) (c : ascii) : bool :=
  match cl with
  | CDigit => PyStr.isdigit c
  | CWord => PyStr.isword c
  | CSpace => PyStr.isspace c
  | CAny => negb (Ascii.eqb c PyStr.newline)
  | CNot x => negb (Ascii.eqb c x)
  | CChar x => Ascii.eqb c x
  end.

Inductive regex : Type :=
| RLit (s : string)                  (* literal text *)
| ROne (cl : cclass)                 (* one character of the class *)
| RStar (cl : cclass)                (* cl*  *)
| RLazy (cl : cclass)                (* cl*? *)
| RPlus (cl : cclass)                (* cl+  *)
| RRep (n : nat) (cl : cclass)       (* cl{n} *)
| RAlt (words : list string)         (* w1|w2|... *)
| RGroup (name : string) (r : regex) (* a capturing group *)
| RSeq (r1 r2 : regex).

(** Captured groups, most recent first. *)
Definition groups : Type := list (string * string).

Section Match.
Context {R : Type}.

Fixpoint star_greedy (cl : cclass) (s : string) (k : string -> option R)
  : option R :=
  match s with
  | String c s' =>
      if cmatch cl c then
        match star_greedy cl s' k with
        | Some r => Some r
        | None => k s
        end
      else k s
  | EmptyString => k s
  end.

Fixpoint star_lazy (cl : cclass) (s : string) (k : string -> option R)
  : option R :=
  match k s with
  | Some r => Some r
  | None =>
      match s with
      | String c s' => if cmatch cl c then star_lazy cl s' k else None
      | EmptyString => None
      end
  end.

Definition one (cl : cclass) (s : string) (k : string -> option R)
  : option R :=
  match s with
  | String c s' => if cmatch cl c then k s' else None
  | EmptyString => None
  end.

Fixpoint rep (n : nat) (cl : cclass) (s : string) (k : string -> option R)
  : option R :=
  match n with
  | O => k s
  | S n' => one cl s (fun s' => rep n' cl s' k)
  end.

Definition lit (w : string) (s : string) (k : string -> option R)
  : option R :=
  if String.prefix w s then k (PyStr.skip (String.length w) s) else None.

Fixpoint alt (ws : list string) (s : string) (k : string -> option R)
  : option R :=
  match ws with
  | [] => None
  | w :: ws' =>
      match lit w s k with
      | Some r => Some r
      | None => alt ws' s k
      end
  end.

(** The text consumed between [s] and its suffix [s']. *)
Definition consumed (s s' : string) : string :=
  PyStr.take (String.length s - String.length s') s.

Fixpoint run (r : regex) (s : string) (g : groups)
  (k : string -> groups -> option R) : option R :=
  match r with
  | RLit w => lit w s (fun s' => k s' g)
  | ROne cl => one cl s (fun s' => k s' g)
  | RStar cl => star_greedy cl s (fun s' => k s' g)
  | RLazy cl => star_lazy cl s (fun s' => k s' g)
  | RPlus cl => one cl s (fun s1 => star_greedy cl s1 (fun s' => k s' g))
  | RRep n cl => rep n cl s (fun s' => k s' g)
  | RAlt ws => alt ws s (fun s' => k s' g)
  | RGroup name r1 =>
      run r1 s g (fun s' g' => k s' ((name, consumed s s') :: g'))
  | RSeq r1 r2 => run r1 s g (fun s' g' => run r2 s' g' k)
  end.

End Match.

(** [pattern.match(s)]: a match anchored at the start of [s]. *)
Definition rmatch (r : regex) (s : string) : option groups :=
  run r s [] (fun _ g => Some g).

(** [re.search(pattern, s)]: the match at the leftmost start that has one. *)
Fixpoint search (r : regex) (s : string) : option groups :=
  match rmatch r s with
  | Some g => Some g
  | None =>
      match s with
      | String _ s' => search r s'
      | EmptyString => None
      end
  end.

(** [match.groupdict().get(name)] *)
Fixpoint get (name : string) (g : groups) : option string :=
  match g with
  | [] => None
  | (n, v) :: g' => if String.eqb n name then Some v else get name g'
  end.

(** [d.get(name, default)] *)
Definition get_or (name default : string) (g : groups) : string :=
  match get name g with Some v => v | None => default end.

Fixpoint seq (rs : list regex) : regex :=
  match rs with
  | [] => RLit EmptyString
  | [r] => r
  | r :: rs' => RSeq r (seq rs')
  end.

(** Whether the groups named [line] of a pattern capture [\d+]. *)
Fixpoint line_is_digits (r : regex) : bool :=
  match r with
  | RGroup name r1 =>
      if String.eqb name "line"
      then match r1 with RPlus CDigit => true | _ => false end
      else line_is_digits r1
  | RSeq r1 r2 => line_is_digits r1 && line_is_digits r2
  | _ => true
  end.

(** The value of the group [line], when there is one, is a run of at most
    [n] digits. *)
Definition line_within (n : nat) (g : groups) : Prop :=
  match get "line" g with
  | Some v =>
      PyStr.all_chars PyStr.isdigit v = true /\ (String.length v <= n)%nat
  | None => True
  end.

End Regex.

(** ** [datetime]: the formats the services parse and print

    [strptime] is modelled on numeric fields: [%Y] reads four digits, [%m],
    [%d], [%H], [%M], [%S] one or two, [%f] one to six; a blank of the format
    stands for one or more whitespace characters; the whole text must be
    consumed and the result must be a date of the calendar.  A failure
    ([ValueError]) is [None]. *)

Module PyDatetime.

Local Open Scope Z_scope.

Record datetime : Type := mk_datetime {
  year : Z; month : Z; day : Z;
  hour : Z; minute : Z; second : Z; microsecond : Z
}.

Definition is_leap (y : Z) : bool :=
  ((y mod 4 =? 0) && negb (y mod 100 =? 0)) || (y mod 400 =? 0).

Definition days_in_month (y m : Z) : Z :=
  if m =? 2 then (if is_leap y then 29 else 28)
  else if (m =? 4) || (m =? 6) || (m =? 9) || (m =? 11) then 30
  else 31.

(** What the [datetime] constructor accepts. *)
Definition valid (d : datetime) : bool :=
  (1 <=? year d) && (year d <=? 9999) &&
  (1 <=? month d) && (month d <=? 12) &&
  (1 <=? day d) && (day d <=? days_in_month (year d) (month d)) &&
  (0 <=? hour d) && (hour d <=? 23) &&
  (0 <=? minute d) && (minute d <=? 59) &&
  (0 <=? second d) && (second d <=? 59) &&
  (0 <=? microsecond d) && (microsecond d <=? 999999).

Inductive directive : Type :=
| DY | Dm | Dd | DH | DM | DS | Df
| DLit (c : ascii)
| DBlank.

(** The longest run of at most [n] digits at the head of [s]. *)
Fixpoint digits_upto (n : nat) (s : string) : string * string :=
  match n, s with
  | S n', String c s' =>
      if PyStr.isdigit c
      then let (ds, rest) := digits_upto n' s' in (String c ds, rest)
      else (EmptyString, s)
  | _, _ => (EmptyString, s)
  end.

(** A numeric field of [lo..hi] digits. *)
Definition field (lo hi : nat) (s : string) : option (string * string) :=
  let (ds, rest) := digits_upto hi s in
  if (lo <=? String.length ds)%nat then Some (ds, rest) else None.

(** [%f]: the digits are padded on the right to six. *)
Definition micro_of (ds : string) : Z :=
  PyStr.int_of ds * 10 ^ Z.of_nat (6 - String.length ds).

Definition epoch : datetime := mk_datetime 1900 1 1 0 0 0 0.

Definition set_field (dir : directive) (v : string) (d : datetime) : datetime :=
  let n := PyStr.int_of v in
  match dir with
  | DY => mk_datetime n (month d) (day d) (hour d) (minute d) (second d) (microsecond d)
  | Dm => mk_datetime (year d) n (day d) (hour d) (minute d) (second d) (microsecond d)
  | Dd => mk_datetime (year d) (month d) n (hour d) (minute d) (second d) (microsecond d)
  | DH => mk_datetime (year d) (month d) (day d) n (minute d) (second d) (microsecond d)
  | DM => mk_datetime (year d) (month d) (day d) (hour d) n (second d) (microsecond d)
  | DS => mk_datetime (year d) (month d) (day d) (hour d) (minute d) n (microsecond d)
  | Df => mk_datetime (year d) (month d) (day d) (hour d) (minute d) (second d) (micro_of v)
  | _ => d
  end.

Definition width (dir : directive) : nat * nat :=
  match dir with
  | DY => (4, 4)
  | Df => (1, 6)
  | _ => (1, 2)
  end%nat.

Fixpoint parse (fmt : list directive) (s : string) (d : datetime)
  : option datetime :=
  match fmt with
  | [] => match s with EmptyString => Some d | _ => None end
  | DLit c :: fmt' =>
      match s with
      | String c' s' => if Ascii.eqb c c' then parse fmt' s' d else None
      | EmptyString => None
      end
  | DBlank :: fmt' =>
      match s with
      | String c' s' =>
          if PyStr.isspace c' then parse fmt' (PyStr.lstrip s') d else None
      | EmptyString => None
      end
  | dir :: fmt' =>
      match field (fst (width dir)) (snd (width dir)) s with
      | Some (v, rest) => parse fmt' rest (set_field dir v d)
      | None => None
      end
  end.

(** [datetime.strptime(s, fmt)] *)
Definition strptime (s : string) (fmt : list directive) : option datetime :=
  match parse fmt s epoch with
  | Some d => if valid d then Some d else None
  | None => None
  end.

(** ['%Y-%m-%d %H:%M:%S'] *)
Definition fmt_seconds : list directive :=
  [DY; DLit "-"; Dm; DLit "-"; Dd; DBlank; DH; DLit ":"; DM; DLit ":"; DS].

(** ['%Y-%m-%d %H:%M:%S.%f'] *)
Definition fmt_dot : list directive := fmt_seconds ++ [DLit "."; Df].

(** ['%Y-%m-%d %H:%M:%S,%f'] *)
Definition fmt_comma : list directive := fmt_seconds ++ [DLit ","; Df].

Definition digit_char (n : Z) : ascii := ascii_of_nat (48 + Z.to_nat (n mod 10)).

(** [n] printed on exactly [w] digits, zero padded. *)
Fixpoint zfill (w : nat) (n : Z) : string :=
  match w with
  | O => EmptyString
  | S w' => (zfill w' (n / 10) ++ String (digit_char n) EmptyString)%string
  end.

Definition date_part (d : datetime) : string :=
  (zfill 4 (year d) ++ "-" ++ zfill 2 (month d) ++ "-" ++ zfill 2 (day d))%string.

Definition time_part (d : datetime) : string :=
  (zfill 2 (hour d) ++ ":" ++ zfill 2 (minute d) ++ ":" ++ zfill 2 (second d))%string.

(** [d.isoformat()]: the fraction is printed only when it is not zero. *)
Definition isoformat (d : datetime) : string :=
  (date_part d ++ "T" ++ time_part d ++
   (if (microsecond d =? 0)%Z then "" else "." ++ zfill 6 (microsecond d)))%string.

(** Leading zeros dropped, the last digit kept. *)
Fixpoint drop_zeros (s : string) : string :=
  match s with
  | String c (String _ _ as s') => if Ascii.eqb c "0" then drop_zeros s' else s
  | _ => s
  end.

(** [d.strftime('%Y-%m-%d %H:%M:%S')]: the C library prints the year without
    padding, the other fields on two digits. *)
Definition strftime_seconds (d : datetime) : string :=
  (drop_zeros (zfill 4 (year d)) ++ "-" ++ zfill 2 (month d) ++ "-"
   ++ zfill 2 (day d) ++ " " ++ time_part d)%string.

(** Days before the first of January of year [y], as [date.toordinal] counts
    them. *)
Definition days_before_year (y : Z) : Z :=
  let p := y - 1 in p * 365 + p / 4 - p / 100 + p / 400.

Fixpoint days_before_month_nat (y : Z) (m : nat) : Z :=
  match m with
  | O => 0
  | S m' => days_before_month_nat y m' + days_in_month y (Z.of_nat m)
  end.

Definition toordinal (d : datetime) : Z :=
  days_before_year (year d)
  + days_before_month_nat (year d) (Z.to_nat (month d) - 1)
  + day d.

(** Microseconds since the start of the calendar: the order of naive
    [datetime] values is the order of these numbers. *)
Definition to_micros (d : datetime) : Z :=
  (((toordinal d * 24 + hour d) * 60 + minute d) * 60 + second d) * 1000000
  + microsecond d.

End PyDatetime.

(** ** The worker's log file, as a reader sees it *)

Module LogFile.

(** What one pass of a reader sees of the log file: whether it exists, its
    bytes, and whether [open] and [read] succeed on it. *)
Inductive file_view : Type :=
| Missing
| Present (content : string) (readable : bool).

(** The bytes of a file that held [old], was cut to its first [size] bytes,
    and has had [written] appended since. *)
Definition rewritten (size : nat) (old written : string) : string :=
  (PyStr.take size old ++ written)%string.

End LogFile.

(** ** [LogMonitor] (web_manager/backend/services/log_monitor.py) *)

Module LogMonitor.

Import Regex.
Import PyDatetime.
Import LogFile.

(** *** The patterns of [__init__], in the order of the dictionary *)

Definition timestamp_re (sep : string) : regex :=
  seq [RRep 4 CDigit; RLit "-"; RRep 2 CDigit; RLit "-"; RRep 2 CDigit;
       RLit " "; RRep 2 CDigit; RLit ":"; RRep 2 CDigit; RLit ":";
       RRep 2 CDigit; RLit sep; RRep 3 CDigit].

Definition loguru : regex :=
  seq [RGroup "timestamp" (timestamp_re "."); RStar CSpace; RLit "|"; RStar CSpace;
       RGroup "level" (RPlus CWord); RStar CSpace; RLit "|"; RStar CSpace;
       RGroup "module" (RPlus CWord); RLit ":";
       RGroup "function" (RPlus CWord); RLit ":";
       RGroup "line" (RPlus CDigit); RStar CSpace; RLit "-"; RStar CSpace;
       RGroup "message" (RStar CAny)].

Definition standard : regex :=
  seq [RGroup "timestamp" (timestamp_re ","); RStar CSpace;
       RGroup "level" (RPlus CWord); RStar CSpace;
       RGroup "logger" (RPlus CWord); RStar CSpace;
       RGroup "message" (RStar CAny)].

Definition simple : regex :=
  seq [RGroup "level" (RAlt ["INFO"; "DEBUG"; "WARNING"; "ERROR"; "CRITICAL"]);
       RLit ":"; RStar CSpace;
       RGroup "message" (RStar CAny)].

Definition log_patterns : list (string * regex) :=
  [("loguru", loguru); ("standard", standard); ("simple", simple)].

(** *** Records *)

Record log_entry : Type := mk_entry {
  timestamp : string;
  level : string;
  logger_name : string;
  message : string;
  module : string;
  function : string;
  line : option Z;
  raw_line : string;
  pattern_type : string
}.

Record t : Type := mk_monitor {
  log_buffer : list log_entry;
  max_buffer_size : Z;
  tail_lines : Z
}.

(** The state [__init__] builds. *)
Definition init : t := mk_monitor [] 1000 100.

(** *** Parsing *)

(** [_normalize_timestamp]; [now] is the reading of the clock. *)
Definition _normalize_timestamp (now : datetime) (timestamp_str : string)
  : string :=
  if negb (PyStr.truthy timestamp_str) then isoformat now
  else
    match strptime timestamp_str fmt_dot with
    | Some dt => isoformat dt
    | None =>
        match strptime timestamp_str fmt_comma with
        | Some dt => isoformat dt
        | None =>
            match strptime timestamp_str fmt_seconds with
            | Some dt => isoformat dt
            | None => isoformat now
            end
        end
    end.

(** The loop over [log_patterns]: the first pattern that matches. *)
Fixpoint first_match (patterns : list (string * regex)) (s : string)
  : option (string * groups) :=
  match patterns with
  | [] => None
  | (pattern_name, pattern) :: rest =>
      match rmatch pattern s with
      | Some g => Some (pattern_name, g)
      | None => first_match rest s
      end
  end.

(** [int(groups.get('line', 0)) if groups.get('line') else None]: the
    outer [None] is the [ValueError] of [int]. *)
Definition line_number (g : groups) : option (option Z) :=
  match get "line" g with
  | Some v =>
      if PyStr.truthy v then option_map Some (PyStr.to_int v) else Some None
  | None => Some None
  end.

(** [_parse_log_line].  The function returns an entry whenever it returns;
    the result [None] stands for the one exception it lets escape, the
    [ValueError] [int] raises on the digits of the group [line]. *)
Definition _parse_log_line (now : datetime) (line_text : string)
  : option log_entry :=
  match first_match log_patterns (PyStr.strip line_text) with
  | Some (pattern_name, g) =>
      match line_number g with
      | Some line_value =>
          Some {|
            timestamp := _normalize_timestamp now (get_or "timestamp" "" g);
            level := get_or "level" "INFO" g;
            logger_name := get_or "module" (get_or "logger" "main" g) g;
            message := PyStr.strip (get_or "message" "" g);
            module := get_or "module" "" g;
            function := get_or "function" "" g;
            line := line_value;
            raw_line := line_text;
            pattern_type := pattern_name
          |}
      | None => None
      end
  | None =>
      Some {|
        timestamp := isoformat now;
        level := "INFO";
        logger_name := "unknown";
        message := PyStr.strip line_text;
        module := "";
        function := "";
        line := None;
        raw_line := line_text;
        pattern_type := "unknown"
      |}
  end.

(** Whether a line is short enough for [int] to convert whatever digits it
    holds: at most [sys.get_int_max_str_digits()] bytes. *)
Definition within_int_limit (l : string) : bool :=
  (Z.of_nat (String.length l) <=? PyStr.max_str_digits)%Z.

(** The calls of [_parse_log_line] that the loop of [_parse_log_content]
    has to make, in order, each with its outcome: blank lines are skipped,
    every other line is parsed. *)
Fixpoint parse_lines (now : datetime) (lines : list string)
  : list (option log_entry) :=
  match lines with
  | [] => []
  | l :: rest =>
      if negb (PyStr.truthy (PyStr.strip l)) then parse_lines now rest
      else _parse_log_line now l :: parse_lines now rest
  end.

(** The entries the loop appends: those of the calls made before the first
    one that raises. *)
Fixpoint appended (outcomes : list (option log_entry)) : list log_entry :=
  match outcomes with
  | Some e :: rest => e :: appended rest
  | _ => []
  end.

(** Whether a call raises, which ends the loop. *)
Definition raises (outcomes : list (option log_entry)) : bool :=
  existsb (fun outcome => match outcome with None => true | Some _ => false end)
    outcomes.

(** [_parse_log_content]: the entries of all the lines, or [None] when the
    [ValueError] of one of them escapes. *)
Definition _parse_log_content (now : datetime) (content : string)
  : option (list log_entry) :=
  let outcomes := parse_lines now (PyStr.split_lines (PyStr.strip content)) in
  if raises outcomes then None else Some (appended outcomes).

(** *** The history buffer *)

(** [_add_to_buffer] *)
Definition _add_to_buffer (log_entry : log_entry) (self : t) : t :=
  let buffer := log_buffer self ++ [log_entry] in
  mk_monitor
    (if (max_buffer_size self <? Z.of_nat (List.length buffer))%Z
     then PySlice.from (- max_buffer_size self) buffer
     else buffer)
    (max_buffer_size self) (tail_lines self).

(** [_process_log_entry] for every entry of a batch: each one is added to the
    buffer and handed to the callback. *)
Definition process_all (entries : list log_entry) (self : t) : t :=
  fold_left (fun m e => _add_to_buffer e m) entries self.

(** [get_recent_logs]: the result and the monitor after the call. *)
Definition get_recent_logs (limit : Z) (self : t) : list log_entry * t :=
  (PySlice.last_if_longer limit (log_buffer self), self).

(** *** Searching the buffer *)

(** What [datetime.fromisoformat] yields: the wall-clock value and, when the
    text carries one, the offset from UTC in microseconds. *)
Record stamp : Type := mk_stamp {
  wall : datetime;
  utcoffset : option Z
}.

(** A call either returns or lets an exception escape; the only one that
    escapes [search_logs] is the [TypeError] of comparing a naive with an
    aware [datetime]. *)
Inductive outcome (A : Type) : Type :=
| Returned (a : A)
| TypeError.
Arguments Returned {A} a.
Arguments TypeError {A}.

(** [a < b] on [datetime] values. *)
Definition stamp_lt (a b : stamp) : outcome bool :=
  match utcoffset a, utcoffset b with
  | None, None => Returned (to_micros (wall a) <? to_micros (wall b))%Z
  | Some oa, Some ob =>
      Returned (to_micros (wall a) - oa <? to_micros (wall b) - ob)%Z
  | _, _ => TypeError
  end.

(** Truthiness of an [Optional[str]] argument. *)
Definition given (o : option string) : bool :=
  match o with Some s => PyStr.truthy s | None => false end.

Definition text (o : option string) : string :=
  match o with Some s => s | None => EmptyString end.

Section Search.

(** [datetime.fromisoformat]; [None] is its [ValueError]. *)
Variable fromisoformat : string -> option stamp.

(** One of the two time filters: [Returned true] when the entry is skipped
    ([continue]).  [before] tells whether the bound is [start_time]. *)
Definition time_skips (before : bool) (bound : option string) (e : log_entry)
  : outcome bool :=
  if given bound then
    match fromisoformat (timestamp e) with
    | None => Returned false
    | Some log_time =>
        match fromisoformat (text bound) with
        | None => Returned false
        | Some filter_time =>
            if before then stamp_lt log_time filter_time
            else stamp_lt filter_time log_time
        end
    end
  else Returned false.

(** The body of the loop of [search_logs]: whether the entry is appended. *)
Definition keeps (keyword level_filter start_time end_time : option string)
  (e : log_entry) : outcome bool :=
  if given keyword &&
     negb (PyStr.contains (PyStr.lower (text keyword)) (PyStr.lower (message e)))
  then Returned false
  else if given level_filter &&
          negb (String.eqb (level e) (PyStr.upper (text level_filter)))
  then Returned false
  else
    match time_skips true start_time e with
    | TypeError => TypeError
    | Returned true => Returned false
    | Returned false =>
        match time_skips false end_time e with
        | TypeError => TypeError
        | Returned true => Returned false
        | Returned false => Returned true
        end
    end.

(** Whether the loop appends the entry, as a boolean test. *)
Definition kept (keyword level_filter start_time end_time : option string)
  (e : log_entry) : bool :=
  match keeps keyword level_filter start_time end_time e with
  | Returned true => true
  | _ => false
  end.

Fixpoint filter_logs (keyword level_filter start_time end_time : option string)
  (entries : list log_entry) : outcome (list log_entry) :=
  match entries with
  | [] => Returned []
  | e :: rest =>
      match keeps keyword level_filter start_time end_time e with
      | TypeError => TypeError
      | Returned b =>
          match filter_logs keyword level_filter start_time end_time rest with
          | TypeError => TypeError
          | Returned r => Returned (if b then e :: r else r)
          end
      end
  end.

(** [search_logs]: the result and the monitor after the call. *)
Definition search_logs (keyword level_filter start_time end_time : option string)
  (limit : Z) (self : t) : outcome (list log_entry) * t :=
  match filter_logs keyword level_filter start_time end_time (log_buffer self) with
  | TypeError => (TypeError, self)
  | Returned filtered_logs =>
      (Returned (PySlice.last_if_longer limit filtered_logs), self)
  end.

End Search.

(** *** Loading the history and counting *)

(** What a file opened with [encoding='utf-8', errors='ignore'] hands to its
    reader from the byte [start_pos] on: the bytes are decoded, then the
    line ends translated. *)
Definition text_from (start_pos : nat) (content : string) : string :=
  PyStr.universal_newlines (PyStr.decode_ignore (PyStr.skip start_pos content)).

(** [_load_recent_logs]: the last [tail_lines] lines of the file are parsed
    and their entries appended to the buffer, one by one; a [ValueError]
    ends the loop and leaves in the buffer the entries appended so far.  A
    missing file, or one that cannot be read, leaves the buffer as it is. *)
Definition _load_recent_logs (now : datetime) (f : file_view) (self : t) : t :=
  match f with
  | Present content true =>
      let lines := PyStr.readlines (text_from 0 content) in
      let recent_lines := PySlice.last_if_longer (tail_lines self) lines in
      mk_monitor (log_buffer self ++ appended (parse_lines now recent_lines))
                 (max_buffer_size self) (tail_lines self)
  | _ => self
  end.

Record statistics : Type := mk_statistics {
  total_count : nat;
  level_counts : list (string * nat);      (* a [dict], in insertion order *)
  recent_errors : list (string * string)   (* timestamp and message *)
}.

(** [d[k] = d.get(k, 0) + 1] *)
Fixpoint bump (k : string) (d : list (string * nat)) : list (string * nat) :=
  match d with
  | [] => [(k, 1%nat)]
  | (k', n) :: rest =>
      if String.eqb k' k then (k', S n) :: rest else (k', n) :: bump k rest
  end.

(** [d.get(k, 0)] *)
Fixpoint count_of (k : string) (d : list (string * nat)) : nat :=
  match d with
  | [] => 0
  | (k', n) :: rest => if String.eqb k' k then n else count_of k rest
  end.

Definition is_error (e : log_entry) : bool :=
  String.eqb (level e) "ERROR" || String.eqb (level e) "CRITICAL".

(** What [get_log_statistics] keeps of an error. *)
Definition error_summary (e : log_entry) : string * string :=
  (timestamp e, PyStr.prefix_chars 100 (message e)).

(** The loop of [get_log_statistics]. *)
Fixpoint count_levels (entries : list log_entry)
  (counts : list (string * nat)) (errors : list (string * string))
  : list (string * nat) * list (string * string) :=
  match entries with
  | [] => (counts, errors)
  | e :: rest =>
      count_levels rest (bump (level e) counts)
        (if is_error e && (List.length errors <? 10)%nat
         then errors ++ [error_summary e]
         else errors)
  end.

(** [get_log_statistics] *)
Definition get_log_statistics (self : t) : statistics :=
  match log_buffer self with
  | [] => mk_statistics 0 [] []
  | buffer =>
      let (counts, errors) := count_levels buffer [] [] in
      mk_statistics (List.length buffer) counts (PySlice.from (-10) errors)
  end.

(** *** The tail loop *)

(** [_read_new_content]: the file is opened in text mode, and [f.read(n)]
    returns the first [n] characters of the text that starts at the byte
    [start_pos], all of it when there are fewer, or when [n] is negative.
    The empty text is returned when opening or reading raises. *)
Definition _read_new_content (f : file_view) (start_pos end_pos : nat)
  : string :=
  match f with
  | Present content true =>
      if (end_pos <? start_pos)%nat then text_from start_pos content
      else PyStr.prefix_chars (end_pos - start_pos) (text_from start_pos content)
  | _ => EmptyString
  end.

Record iteration : Type := mk_iteration {
  last_position : nat;          (* the offset after the iteration *)
  new_content : string;         (* the text read in the iteration *)
  new_logs : list log_entry;    (* the entries handed to the callback *)
  monitor : t
}.

(** The body of the [while] loop of [_monitoring_loop]: [f] is the file as
    [exists()] and [stat()] find it, [at_read] the file as
    [_read_new_content] finds it a moment later.  When
    [_parse_log_content] raises, the handler of the loop catches the
    exception: nothing is processed and the offset stays where it was. *)
Definition monitoring_step (now : datetime) (f at_read : file_view)
  (position : nat) (self : t) : iteration :=
  match f with
  | Missing => mk_iteration position EmptyString [] self
  | Present content _ =>
      let current_size := String.length content in
      if (position <? current_size)%nat then
        let text := _read_new_content at_read position current_size in
        if PyStr.truthy text then
          match _parse_log_content now text with
          | Some logs =>
              mk_iteration current_size text logs (process_all logs self)
          | None => mk_iteration position text [] self
          end
        else
          mk_iteration current_size text [] self
      else if (current_size <? position)%nat then
        mk_iteration 0 EmptyString [] self
      else
        mk_iteration position EmptyString [] self
  end.

(** An iteration during which the file does not change. *)
Definition monitoring_iteration (now : datetime) (f : file_view)
  (position : nat) (self : t) : iteration :=
  monitoring_step now f f position self.

(** Successive iterations, one file view each; the texts read are collected
    in order. *)
Fixpoint monitoring_loop (now : datetime) (views : list file_view)
  (position : nat) (self : t) : nat * list string * t :=
  match views with
  | [] => (position, [], self)
  | f :: rest =>
      let it := monitoring_iteration now f position self in
      let '(p, texts, m) :=
        monitoring_loop now rest (last_position it) (monitor it) in
      (p, new_content it :: texts, m)
  end.

(** The views of an append-only file whose reads succeed: [base] is the
    content when the loop starts, and one chunk (possibly empty) is appended
    before each iteration. *)
Fixpoint appended_views (base : string) (chunks : list string)
  : list file_view :=
  match chunks with
  | [] => []
  | d :: rest =>
      Present (base ++ d)%string true :: appended_views (base ++ d)%string rest
  end.

End LogMonitor.

(** ** [LogService] (web_frontend/services/log_service.py) *)

Module LogService.

Import Regex.
Import PyDatetime.
Import LogFile.

Definition log_levels : list string :=
  ["DEBUG"; "INFO"; "WARNING"; "ERROR"; "CRITICAL"].

(** *** The patterns of [parse_log_line], in the order of the list; groups
    are numbered *)

Definition stamp_seconds : regex :=
  seq [RRep 4 CDigit; RLit "-"; RRep 2 CDigit; RLit "-"; RRep 2 CDigit;
       RLit " "; RRep 2 CDigit; RLit ":"; RRep 2 CDigit; RLit ":";
       RRep 2 CDigit].

Definition stamp_millis : regex :=
  seq [stamp_seconds; RLit "."; RRep 3 CDigit].

Definition file_format : regex :=
  seq [RGroup "1" stamp_millis; RLit " | ";
       RGroup "2" (RPlus CWord); RPlus CSpace; RLit "| ";
       RGroup "3" (RPlus (CNot ":")); RLit ":";
       RGroup "4" (RPlus CDigit); RLit " - ";
       RGroup "5" (RPlus CAny)].

Definition colour_format : regex :=
  seq [RLazy CAny; RGroup "1" stamp_millis; RLazy CAny; RLit "| ";
       RGroup "2" (RPlus CWord); RLazy CAny; RLit "| ";
       RGroup "3" (RPlus (CNot ":")); RLit ":";
       RGroup "4" (RPlus CDigit); RLit " - ";
       RGroup "5" (RPlus CAny)].

Definition short_format : regex :=
  seq [RGroup "1" stamp_seconds; RLit " - ";
       RGroup "2" (RPlus CWord); RLit " - ";
       RGroup "3" (RPlus CAny)].

(** Each pattern with [len(match.groups())]. *)
Definition patterns : list (regex * nat) :=
  [(file_format, 5%nat); (colour_format, 5%nat); (short_format, 3%nat)].

Record log_data : Type := mk_log {
  timestamp : string;
  level : string;
  module : string;
  line_num : string;
  message : string;
  raw_line : string;
  category : string
}.

(** [_categorize_message]: the first group of keywords found decides. *)
Definition _categorize_message (message : string) : string :=
  if PyStr.any_in ["心跳"; "连接"; "Token"; "WebSocket"; "注册完成"] message
  then "heartbeat"
  else if PyStr.startswith message "用户:" || PyStr.contains "用户名" message
  then "user_message"
  else if PyStr.startswith message "机器人回复:" || PyStr.contains "AI回复" message
  then "bot_reply"
  else if PyStr.any_in ["接管"; "人工"; "手动"; "🔴"; "🟢"] message
  then "manual_mode"
  else if PyStr.any_in ["错误"; "失败"; "异常"; "error"; "Error"; "Exception"] message
  then "error"
  else "system".

(** The loop over [patterns] with [re.search]. *)
Fixpoint first_search (ps : list (regex * nat)) (s : string)
  : option (nat * groups) :=
  match ps with
  | [] => None
  | (pattern, n) :: rest =>
      match search pattern s with
      | Some g => Some (n, g)
      | None => first_search rest s
      end
  end.

(** The timestamp of a matched line: parsed with or without fraction, the
    clock on [ValueError]; printed to the second. *)
Definition parse_timestamp (now : datetime) (timestamp_str : string) : string :=
  let fmt := if PyStr.contains "." timestamp_str then fmt_dot else fmt_seconds in
  match strptime timestamp_str fmt with
  | Some dt => strftime_seconds dt
  | None => strftime_seconds now
  end.

(** [parse_log_line].  No call in its [try] block raises on a [str], so the
    handler that builds an error record is never entered. *)
Definition parse_log_line (now : datetime) (line0 : string) : option log_data :=
  let line := PyStr.strip line0 in
  if negb (PyStr.truthy line) || PyStr.startswith line "#" then None
  else
    match first_search patterns line with
    | Some (n, g) =>
        let timestamp_str := get_or "1" "" g in
        let level := get_or "2" "" g in
        let module := if (5 <=? n)%nat then get_or "3" "" g else "main" in
        let line_num := if (5 <=? n)%nat then get_or "4" "" g else "0" in
        let message := if (5 <=? n)%nat then get_or "5" "" g else get_or "3" "" g in
        Some {|
          timestamp := parse_timestamp now timestamp_str;
          level := PyStr.upper level;
          module := module;
          line_num := line_num;
          message := PyStr.strip message;
          raw_line := line;
          category := _categorize_message message
        |}
    | None =>
        if existsb (fun lv => PyStr.contains lv (PyStr.upper line)) log_levels
        then
          Some {|
            timestamp := strftime_seconds now;
            level := "INFO";
            module := "unknown";
            line_num := "0";
            message := line;
            raw_line := line;
            category := "system"
          |}
        else None
    end.

(** *** Reading the file *)

Record t : Type := mk_service {
  last_position : nat;
  log_queue : list log_data
}.

(** [read_new_logs]: the service after the call and the records emitted to
    the front end.  [file.tell()] after [seek] and [readlines] is the sought
    position plus what was read. *)
Definition read_new_logs (now : datetime) (f : file_view) (self : t)
  : t * list log_data :=
  match f with
  | Missing => (self, [])
  | Present _ false => (self, [])
  | Present content true =>
      let new_text := PyStr.skip (last_position self) content in
      let new_lines := PyStr.readlines new_text in
      let emitted :=
        flat_map (fun l => match parse_log_line now l with
                           | Some d => [d]
                           | None => []
                           end) new_lines in
      (mk_service (last_position self + String.length new_text)
                  (log_queue self ++ emitted),
       emitted)
  end.

(** The record [_send_config_suggestion] emits. *)
Definition suggestion (now : datetime) : log_data :=
  {| timestamp := strftime_seconds now;
     level := "WARNING";
     module := "log_service";
     line_num := "0";
     message := "⚠️ 未检测到日志文件，建议在main.py中添加文件日志输出配置。参考: log_config_suggestion.py";
     raw_line := "";
     category := "system" |}.

(** [_emit_log_to_frontend] for each record of a list: the record is put on
    the queue and sent to the front end. *)
Definition emit_all (records : list log_data) (self : t) : t * list log_data :=
  (mk_service (last_position self) (log_queue self ++ records), records).

(** The test of [_read_existing_logs] on a line: not blank and not a
    comment. *)
Definition valid_line (l : string) : bool :=
  PyStr.truthy (PyStr.strip l) && negb (PyStr.startswith (PyStr.strip l) "#").

(** [_read_existing_logs]: the service after the call and the records
    emitted.  A missing or empty file and a file without a usable line get
    the configuration hint; otherwise the offset is moved to the end of the
    file and the last [lines_count] usable lines are parsed and emitted. *)
Definition _read_existing_logs (lines_count : Z) (now : datetime)
  (f : file_view) (self : t) : t * list log_data :=
  match f with
  | Missing => emit_all [suggestion now] self
  | Present EmptyString _ => emit_all [suggestion now] self
  | Present _ false => (self, [])
  | Present content true =>
      let all_lines := PyStr.readlines content in
      let valid_lines := filter valid_line all_lines in
      let recent_lines := PySlice.last_if_longer lines_count valid_lines in
      let moved := mk_service (String.length content) (log_queue self) in
      let parsed :=
        flat_map (fun l => match parse_log_line now l with
                           | Some d => [d]
                           | None => []
                           end) recent_lines in
      match parsed with
      | [] => emit_all [suggestion now] moved
      | _ => emit_all parsed moved
      end
  end.

(** The categories [_categorize_message] knows. *)
Definition categories : list string :=
  ["heartbeat"; "user_message"; "bot_reply"; "manual_mode"; "error"; "system"].

End LogService.

(** ** Exceptions of the operating-system calls *)

Module Exn.

Inductive exn : Type :=
| NoSuchProcess     (* psutil.NoSuchProcess *)
| TimeoutExpired    (* psutil.TimeoutExpired, subprocess.TimeoutExpired *)
| OtherError (description : string).  (* any other [Exception] *)

Definition exn_eqb_kind (a b : exn) : bool :=
  match a, b with
  | NoSuchProcess, NoSuchProcess => true
  | TimeoutExpired, TimeoutExpired => true
  | _, _ => false
  end.

(** [str(e)] *)
Definition describe (e : exn) : string :=
  match e with
  | NoSuchProcess => "process no longer exists"
  | TimeoutExpired => "timeout"
  | OtherError d => d
  end.

(** A block of statements either completes or raises. *)
Inductive result (A : Type) : Type :=
| Done (a : A)
| Raise (e : exn).
Arguments Done {A} a.
Arguments Raise {A} e.

Definition bind {A B : Type} (r : result A) (k : A -> result B) : result B :=
  match r with
  | Done a => k a
  | Raise e => Raise e
  end.

(** The outcome of one call that returns nothing: [None] when it succeeds. *)
Definition call (o : option exn) : result unit :=
  match o with
  | None => Done tt
  | Some e => Raise e
  end.

(** [try: body except kind: handler] *)
Definition try_except {A : Type} (body : result A) (kind : exn)
  (handler : result A) : result A :=
  match body with
  | Done a => Done a
  | Raise e => if exn_eqb_kind e kind then handler else Raise e
  end.

(** [try: body except Exception as e: handler] *)
Definition try_except_any {A : Type} (body : result A)
  (handler : exn -> result A) : result A :=
  match body with
  | Done a => Done a
  | Raise e => handler e
  end.

(** The two ways in which writing a file fails.  [open(path, 'w')] raises,
    and the file is as it was; or [open] has returned, which empties the
    file, and the exception comes from the write or from closing the file:
    the file then holds the first [written] bytes of the text. *)
Inductive write_failure : Type :=
| OpenFails (e : exn)
| WriteFails (e : exn) (written : nat).

Definition raised (w : write_failure) : exn :=
  match w with
  | OpenFails e => e
  | WriteFails e _ => e
  end.

(** What a file holds after a write of [text] that failed with [w]. *)
Definition left_by (w : write_failure) (text : string) (before : option string)
  : option string :=
  match w with
  | OpenFails _ => before
  | WriteFails _ written => Some (PyStr.take written text)
  end.

Module Notations.
Notation "c1 ;; c2" := (bind c1 (fun _ => c2))
  (at level 61, right associativity).
End Notations.

End Exn.

(** ** [ProcessManager] of the backend
       (web_manager/backend/services/process_manager.py)

    The figures of [psutil] are floating-point readings.  The two that the
    status reply carries, [cpu_percent] and [memory_percent], are held as
    they are after [round(_, 2)], in hundredths; the figures that only stay
    inside [process_info] (memory sizes, threads, creation time) are left out
    of [info]. *)

Module BackendProcess.

Import Exn Exn.Notations.
Import PyDatetime.

(** [process_info]: the empty dictionary is [None]; a filled one always has
    its ['pid']. *)
Record info : Type := mk_info {
  pid : Z;
  status : string
}.

(** [monitoring_task]: [None] until the first start; the task that
    [_start_monitoring] creates; the same task once [_stop_monitoring] has
    cancelled it, which stays in the attribute. *)
Inductive task : Type :=
| NoTask
| Monitoring
| Cancelled.

Record t : Type := mk_manager {
  process : option Z;           (* the [Popen] handle, by its pid *)
  process_info : option info;
  start_time : option datetime;
  is_monitoring : bool;
  monitoring_task : task
}.

(** The state [__init__] builds. *)
Definition init : t := mk_manager None None None false NoTask.

(** The answer of [psutil.Process(pid)] and of the readings taken from it:
    for a process that is there, its status, the two figures of the reply
    and the reading of the clock [get_status] takes in that case. *)
Inductive probe : Type :=
| Alive (os_status : string) (cpu_percent memory_percent : Z) (now : datetime)
| Gone                          (* raises [NoSuchProcess] *)
| ProbeFails (description : string).  (* raises another exception *)

(** The outcomes of the calls [stop_process] makes, in the order it makes
    them. *)
Record os : Type := mk_os {
  status_probe : probe;          (* inside [get_status] *)
  lookup : option exn;           (* [psutil.Process(pid)] *)
  terminate : option exn;        (* [proc.terminate()] *)
  wait10 : option exn;           (* [proc.wait(timeout=10)] *)
  kill : option exn;             (* [proc.kill()] *)
  wait5 : option exn             (* [proc.wait(timeout=5)] *)
}.

Record status_reply : Type := mk_status {
  is_running : bool;
  status_pid : option Z;
  status_start_time : option string;
  status_cpu_percent : option Z;
  status_memory_percent : option Z;
  status_text : string;
  uptime : option string
}.

Record stop_reply : Type := mk_reply {
  success : bool;
  reply_message : string;
  reply_pid : option Z
}.

(** [_cleanup_process_info] *)
Definition _cleanup_process_info (self : t) : t :=
  mk_manager None None None (is_monitoring self) (monitoring_task self).

(** [_stop_monitoring] *)
Definition _stop_monitoring (self : t) : t :=
  if is_monitoring self then
    mk_manager (process self) (process_info self) (start_time self) false
      match monitoring_task self with
      | NoTask => NoTask
      | Monitoring | Cancelled => Cancelled
      end
  else self.

(** A reply that names no process, with the text of its ['status']. *)
Definition no_process (text : string) : status_reply :=
  mk_status false None None None None text None.

Definition not_running : status_reply := no_process "未运行".

(** The list [parts] of [_format_timedelta], for [int(td.total_seconds())]
    seconds: each number with its unit. *)
Definition timedelta_parts (total_seconds : Z) : list (Z * string) :=
  let days := (total_seconds / 86400)%Z in
  let hours := ((total_seconds mod 86400) / 3600)%Z in
  let minutes := ((total_seconds mod 3600) / 60)%Z in
  let seconds := (total_seconds mod 60)%Z in
  let parts :=
    (if (0 <? days)%Z then [(days, "天")] else [])
    ++ (if (0 <? hours)%Z then [(hours, "小时")] else [])
    ++ (if (0 <? minutes)%Z then [(minutes, "分钟")] else []) in
  parts ++
  (if (0 <? seconds)%Z || match parts with [] => true | _ => false end
   then [(seconds, "秒")] else []).

(** [_format_timedelta] *)
Definition _format_timedelta (total_seconds : Z) : string :=
  String.concat ""
    (map (fun part => (PyStr.str_of_int (fst part) ++ snd part)%string)
       (timedelta_parts total_seconds)).

(** The integer nearest to [num / den], halves going to the even one. *)
Definition round_half_even (num den : Z) : Z :=
  let q := (num / den)%Z in
  let r := (num mod den)%Z in
  if (2 * r <? den)%Z then q
  else if (den <? 2 * r)%Z then (q + 1)%Z
  else (q + q mod 2)%Z.

(** [int(a / b)] for integers [0 <= a] and [0 < b]: the quotient of Python
    is the float nearest to [a / b], with 53 bits of mantissa, and [int]
    drops its fraction. *)
Definition int_true_div (a b : Z) : Z :=
  if (a =? 0)%Z then 0%Z
  else
    let scaled (e : Z) : Z * Z :=
      if (0 <=? e)%Z then (a, b * 2 ^ e)%Z else (a * 2 ^ (- e), b)%Z in
    let e0 := (Z.log2 a - Z.log2 b - 52)%Z in
    let e :=
      if (fst (scaled e0) <? 2 ^ 52 * snd (scaled e0))%Z then (e0 - 1)%Z
      else e0 in
    let mantissa := round_half_even (fst (scaled e)) (snd (scaled e)) in
    if (0 <=? e)%Z then (mantissa * 2 ^ e)%Z else (mantissa / 2 ^ (- e))%Z.

(** [int(td.total_seconds())] for a difference of [micros] microseconds:
    [total_seconds] divides the microseconds by [10**6]. *)
Definition int_total_seconds (micros : Z) : Z :=
  (Z.sgn micros * int_true_div (Z.abs micros) 1000000)%Z.

(** [int((now - since).total_seconds())] *)
Definition elapsed_seconds (now since : datetime) : Z :=
  int_total_seconds (to_micros now - to_micros since).

(** [get_status] *)
Definition get_status (p : probe) (self : t) : status_reply * t :=
  match process_info self with
  | Some i =>
      match p with
      | Alive os_status cpu_percent memory_percent now =>
          let uptime_str :=
            match start_time self with
            | Some since => _format_timedelta (elapsed_seconds now since)
            | None => "未知"
            end in
          (mk_status true (Some (pid i)) (option_map isoformat (start_time self))
                     (Some cpu_percent) (Some memory_percent) "运行中"
                     (Some uptime_str),
           mk_manager (process self) (Some (mk_info (pid i) os_status))
                      (start_time self) (is_monitoring self)
                      (monitoring_task self))
      | Gone => (not_running, _cleanup_process_info self)
      | ProbeFails d => (no_process ("状态检查失败: " ++ d)%string, self)
      end
  | None => (not_running, self)
  end.

(** The inner [try] of [stop_process]: ask the process to end, wait, and
    kill it when the wait times out; a vanished process is not an error. *)
Definition terminate_and_wait (o : os) : result unit :=
  try_except
    (call (lookup o) ;;
     call (terminate o) ;;
     try_except (call (wait10 o)) TimeoutExpired
                (call (kill o) ;; call (wait5 o)))
    NoSuchProcess
    (Done tt).

(** [stop_process] *)
Definition stop_process (o : os) (self : t) : stop_reply * t :=
  let (st, self1) := get_status (status_probe o) self in
  if negb (is_running st) then
    (mk_reply true "进程未在运行" None, self1)
  else
    let self2 := _stop_monitoring self1 in
    match terminate_and_wait o with
    | Done _ =>
        (mk_reply true "进程已停止" (status_pid st), _cleanup_process_info self2)
    | Raise e =>
        (mk_reply false ("停止进程时发生异常: " ++ describe e)%string None, self2)
    end.

(** What becomes of the [Popen] call of [start_process] and of the check
    made one second later. *)
Inductive spawn : Type :=
| SpawnFails (description : string)         (* [Popen] raises *)
| Started (pid : Z)                         (* [poll()] is [None] *)
| ExitedEarly (pid : Z) (return_code : Z).  (* [poll()] is the exit code *)

(** [_start_monitoring] *)
Definition _start_monitoring (self : t) : t :=
  if negb (is_monitoring self) then
    mk_manager (process self) (process_info self) (start_time self) true
               Monitoring
  else self.

(** The [pid] of a status dictionary inside an f-string. *)
Definition pid_text (pid : option Z) : string :=
  match pid with
  | Some n => PyStr.str_of_int n
  | None => "None"
  end.

(** [start_process]; the answer has the shape of the answer of
    [stop_process]. *)
Definition start_process (p : probe) (sp : spawn) (now : datetime) (self : t)
  : stop_reply * t :=
  let (st, self1) := get_status p self in
  if is_running st then
    (mk_reply false ("进程已在运行 (PID: " ++ pid_text (status_pid st) ++ ")")%string
       (status_pid st),
     self1)
  else
    match sp with
    | Started pid =>
        (mk_reply true "进程启动成功" (Some pid),
         _start_monitoring
           (mk_manager (Some pid) (Some (mk_info pid "running")) (Some now)
              (is_monitoring self1) (monitoring_task self1)))
    | ExitedEarly pid return_code =>
        (mk_reply false
           ("进程启动失败，退出码: " ++ PyStr.str_of_int return_code)%string None,
         _cleanup_process_info self1)
    | SpawnFails d =>
        (mk_reply false ("启动进程时发生异常: " ++ d)%string None,
         _cleanup_process_info self1)
    end.

(** The seconds a unit of [_format_timedelta] stands for. *)
Definition unit_seconds (unit : string) : Z :=
  if String.eqb unit "天" then 86400
  else if String.eqb unit "小时" then 3600
  else if String.eqb unit "分钟" then 60
  else 1.

(** The seconds a list of parts adds up to. *)
Definition parts_seconds (parts : list (Z * string)) : Z :=
  fold_right (fun part acc => (fst part * unit_seconds (snd part) + acc)%Z) 0%Z
    parts.

End BackendProcess.

(** ** The process routes of the backend (web_manager/backend/app.py) *)

Module ProcessApi.

Import PyDatetime.

(** [restart_process]: stop, then start when the stop reports success; the
    answer of a failed stop is returned as it is. *)
Definition restart_process (o : BackendProcess.os) (p : BackendProcess.probe)
  (sp : BackendProcess.spawn) (now : datetime) (self : BackendProcess.t)
  : BackendProcess.stop_reply * BackendProcess.t :=
  let (stop_result, stopped) := BackendProcess.stop_process o self in
  if negb (BackendProcess.success stop_result) then (stop_result, stopped)
  else BackendProcess.start_process p sp now stopped.

End ProcessApi.

(** ** [ProcessManager] of the Flask application (web_app.py) *)

Module WebApp.

Import Exn Exn.Notations.
Import PyDatetime.

Inductive status : Type := Stopped | Running | Starting | Stopping.

Definition status_name (s : status) : string :=
  match s with
  | Stopped => "stopped"
  | Running => "running"
  | Starting => "starting"
  | Stopping => "stopping"
  end.

Definition is_Running (s : status) : bool :=
  match s with Running => true | _ => false end.

Record t : Type := mk_manager {
  process : option Z;           (* the [Popen] handle, by its pid *)
  state : status;               (* the attribute [status] *)
  start_time : option datetime;
  output_thread : option Z;     (* the thread that reads the output, named by
                                   the pid of the worker it was started with *)
  log_queue : list string       (* the lines put on the queue, oldest first *)
}.

(** The state [__init__] builds. *)
Definition init : t := mk_manager None Stopped None None [].

(** The outcomes of the calls [stop_main_process] makes on the handle. *)
Record os : Type := mk_os {
  terminate : option exn;        (* [process.terminate()] *)
  wait10 : option exn;           (* [process.wait(timeout=10)] *)
  kill : option exn;             (* [process.kill()] *)
  wait : option exn              (* [process.wait()] *)
}.

(** The block guarded by [except subprocess.TimeoutExpired]. *)
Definition terminate_and_wait (o : os) : result unit :=
  try_except (call (terminate o) ;; call (wait10 o)) TimeoutExpired
             (call (kill o) ;; call (wait o)).

(** [stop_main_process]: the pair [(success, message)] and the manager after
    the call.  [_stop_output_monitoring] does nothing: the thread and the
    queue stay as they are. *)
Definition stop_main_process (o : os) (self : t) : (bool * string) * t :=
  if negb (is_Running (state self)) then
    ((false, "主进程未在运行"), self)
  else
    let stopping :=
      mk_manager (process self) Stopping (start_time self)
                 (output_thread self) (log_queue self) in
    let body : result t :=
      match process stopping with
      | Some _ =>
          terminate_and_wait o ;;
          Done (mk_manager None Stopped None
                           (output_thread stopping) (log_queue stopping))
      | None =>
          Done (mk_manager (process stopping) Stopped None
                           (output_thread stopping) (log_queue stopping))
      end in
    match body with
    | Done self' => ((true, "主进程已停止"), self')
    | Raise e =>
        ((false, ("停止失败: " ++ describe e)%string),
         mk_manager (process stopping) Stopped (start_time stopping)
                    (output_thread stopping) (log_queue stopping))
    end.

Record status_info : Type := mk_info {
  info_status : string;
  info_pid : option Z;
  info_start_time : option string
}.

(** What [get_status] finds out about the handle: [poll()] reports an exit
    code, or [psutil] cannot find the pid, or the process is there, or one of
    the calls raises something else. *)
Inductive probe : Type :=
| Exited
| Vanished
| Alive
| ProbeFails.

(** [get_status] *)
Definition get_status (p : probe) (self : t) : status_info * t :=
  let info := mk_info (status_name (state self)) (process self)
                      (option_map isoformat (start_time self)) in
  match state self, process self with
  | Running, Some _ =>
      match p with
      | Exited | Vanished =>
          (mk_info "stopped" (info_pid info) (info_start_time info),
           mk_manager None Stopped None (output_thread self) (log_queue self))
      | Alive | ProbeFails => (info, self)
      end
  | _, _ => (info, self)
  end.

(** What becomes of the [Popen] call of [start_main_process]. *)
Inductive spawn : Type :=
| SpawnFails (description : string)
| Spawned (pid : Z).

(** What the thread of an earlier start and the start of a new one do:
    [thread_alive] is the answer of [is_alive()], [thread_start] the outcome
    of [Thread.start()]. *)
Record threads : Type := mk_threads {
  thread_alive : bool;
  thread_start : option exn
}.

(** [_start_output_monitoring]: a thread of an earlier start that is still
    alive is kept; otherwise a new thread is made for the worker [pid],
    stored, and started.  The result is the manager and what the call
    raises, if it does. *)
Definition _start_output_monitoring (th : threads) (pid : Z) (self : t)
  : t * option exn :=
  let renewed :=
    mk_manager (process self) (state self) (start_time self) (Some pid)
               (log_queue self) in
  match output_thread self with
  | Some _ =>
      if thread_alive th then (self, None) else (renewed, thread_start th)
  | None => (renewed, thread_start th)
  end.

(** [start_main_process] *)
Definition start_main_process (sp : spawn) (th : threads)
  (now : datetime) (self : t) : (bool * string) * t :=
  if is_Running (state self) then ((false, "主进程已在运行中"), self)
  else
    match sp with
    | Spawned pid =>
        let (self', raised) :=
          _start_output_monitoring th pid
            (mk_manager (Some pid) Running (Some now)
                        (output_thread self) (log_queue self)) in
        match raised with
        | None =>
            ((true, ("主进程启动成功，PID: " ++ PyStr.str_of_int pid)%string),
             self')
        | Some e =>
            ((false, ("启动失败: " ++ describe e)%string),
             mk_manager (process self') Stopped (start_time self')
                        (output_thread self') (log_queue self'))
        end
    | SpawnFails d =>
        ((false, ("启动失败: " ++ d)%string),
         mk_manager (process self) Stopped (start_time self)
                    (output_thread self) (log_queue self))
    end.

(** *** The queue of output lines *)

(** The first loop of [get_recent_logs]: every line is taken from the queue
    with [get_nowait], appended to [logs] and put on the temporary queue. *)
Fixpoint drain (queue logs temp : list string) : list string * list string :=
  match queue with
  | [] => (logs, temp)
  | log_line :: rest => drain rest (logs ++ [log_line]) (temp ++ [log_line])
  end.

(** The second loop: every line goes back from the temporary queue. *)
Fixpoint refill (temp queue : list string) : list string :=
  match temp with
  | [] => queue
  | log_line :: rest => refill rest (queue ++ [log_line])
  end.

(** [get_recent_logs] on the queue [log_queue]: the lines returned and the
    queue after the call, while the thread that reads the output puts no line
    on the queue. *)
Definition get_recent_logs (lines : Z) (log_queue : list string)
  : list string * list string :=
  let (logs, temp) := drain log_queue [] [] in
  (PySlice.last_if_longer lines logs, refill temp []).

(** The operations on the manager, each with what the operating system
    answers: the calls of the routes, and the thread that reads the output
    putting a line on the queue. *)
Inductive operation : Type :=
| Start (sp : spawn) (th : threads) (now : datetime)
| Stop (o : os)
| Status (p : probe)
| RecentLogs (lines : Z)
| Output (log_line : string).

Definition apply (a : operation) (self : t) : t :=
  match a with
  | Start sp th now => snd (start_main_process sp th now self)
  | Stop o => snd (stop_main_process o self)
  | Status p => snd (get_status p self)
  | RecentLogs lines =>
      mk_manager (process self) (state self) (start_time self)
                 (output_thread self)
                 (snd (get_recent_logs lines (log_queue self)))
  | Output log_line =>
      mk_manager (process self) (state self) (start_time self)
                 (output_thread self) (log_queue self ++ [log_line])
  end.

(** A sequence of operations, run in order. *)
Definition run (operations : list operation) (self : t) : t :=
  fold_left (fun m a => apply a m) operations self.

End WebApp.

(** ** [ConnectionManager] (web_manager/backend/app.py) *)

Module ConnectionManager.

Import Exn Exn.Notations.

Section Connections.

(** WebSocket objects, compared by identity. *)
Variable websocket : Type.
Variable same : websocket -> websocket -> bool.

(** [l.remove(x)]: the first occurrence goes. *)
Fixpoint remove_first (x : websocket) (l : list websocket) : list websocket :=
  match l with
  | [] => []
  | y :: l' => if same x y then l' else y :: remove_first x l'
  end.

(** [connect] *)
Definition connect (ws : websocket) (active_connections : list websocket)
  : list websocket :=
  active_connections ++ [ws].

(** [disconnect] *)
Definition disconnect (ws : websocket) (active_connections : list websocket)
  : list websocket :=
  if existsb (same ws) active_connections
  then remove_first ws active_connections
  else active_connections.

(** What [send_json] does on each connection during one broadcast: it
    returns, or it raises.  The endpoint calls [connect] once for each
    socket it accepts, so one outcome for each connection describes the
    call. *)
Variable send_json : websocket -> result unit.

Definition send_fails (c : websocket) : bool :=
  match send_json c with
  | Done _ => false
  | Raise _ => true
  end.

(** What another task does to [active_connections] while a send is awaited:
    the endpoint accepts a socket, or the session of a socket ends and its
    [finally] calls [disconnect]. *)
Inductive change : Type :=
| Connects (ws : websocket)
| Disconnects (ws : websocket).

Definition apply_change (active_connections : list websocket) (c : change)
  : list websocket :=
  match c with
  | Connects ws => connect ws active_connections
  | Disconnects ws => disconnect ws active_connections
  end.

Definition apply_changes (during : list change)
  (active_connections : list websocket) : list websocket :=
  fold_left apply_change during active_connections.

(** The progress of the first loop of [broadcast_log]: the sends made so
    far, in order, and the list [disconnected]. *)
Record progress : Type := mk_progress {
  attempted : list websocket;
  disconnected : list websocket
}.

(** The body of the first loop: the send is made inside its own [try]; the
    handler records the connection. *)
Definition send_one (connection : websocket) (p : progress) : result progress :=
  try_except_any
    (send_json connection ;;
     Done (mk_progress (attempted p ++ [connection]) (disconnected p)))
    (fun _ =>
       Done (mk_progress (attempted p ++ [connection])
               (disconnected p ++ [connection]))).

(** The first loop on a list that no task changes any more. *)
Fixpoint send_to_rest (connections : list websocket) (p : progress)
  : result progress :=
  match connections with
  | [] => Done p
  | connection :: rest => bind (send_one connection p) (send_to_rest rest)
  end.

(** The first loop.  [for connection in self.active_connections] walks the
    list itself, not a copy: the iterator holds the index of the next
    connection and reads the list as it is when the next connection is
    asked for; the loop ends when the index is past the end.  [schedule]
    gives, for each send in turn, what the other tasks do to the list while
    that send is awaited; when it is used up no task touches the list.  The
    result is the progress and the list as the loop leaves it. *)
Fixpoint send_to_all (schedule : list (list change)) (index : nat)
  (active_connections : list websocket) (p : progress)
  : result (progress * list websocket) :=
  match schedule with
  | [] =>
      bind (send_to_rest (skipn index active_connections) p)
        (fun p' => Done (p', active_connections))
  | during :: later =>
      match nth_error active_connections index with
      | None => Done (p, active_connections)
      | Some connection =>
          bind (send_one connection p)
            (fun p' =>
               send_to_all later (S index)
                 (apply_changes during active_connections) p')
      end
  end.

Record broadcast : Type := mk_broadcast {
  sent_to : list websocket;      (* the sends made, in order *)
  failed : list websocket;       (* the connections whose send raised *)
  remaining : list websocket     (* [active_connections] on return *)
}.

(** [broadcast_log]: the first loop sends the entry and collects the
    failures, the second disconnects them; nothing is awaited in the
    second. *)
Definition broadcast_log (schedule : list (list change))
  (active_connections : list websocket) : result broadcast :=
  match active_connections with
  | [] => Done (mk_broadcast [] [] active_connections)
  | _ =>
      bind (send_to_all schedule 0 active_connections (mk_progress [] []))
        (fun after =>
           let (p, active_connections) := after in
           Done (mk_broadcast (attempted p) (disconnected p)
                   (fold_left (fun l c => disconnect c l) (disconnected p)
                      active_connections)))
  end.

End Connections.

End ConnectionManager.

(** ** [re.match] as a test

    Whether a pattern matches, by derivatives: [accepts r s] holds when the
    whole of [s] is in the language of [r], which is when the backtracking
    matcher of [re] finds a match that ends at the end of [s]. *)

Module Pattern.

Inductive re : Type :=
| Nothing                        (* matches no text *)
| Empty                          (* matches the empty text *)
| Class (p : ascii -> bool)      (* one character of a class *)
| Cat (a b : re)
| Or (a b : re)
| Star (a : re).

Fixpoint nullable (r : re) : bool :=
  match r with
  | Nothing => false
  | Empty => true
  | Class _ => false
  | Cat a b => nullable a && nullable b
  | Or a b => nullable a || nullable b
  | Star _ => true
  end.

Definition cat (a b : re) : re :=
  match a, b with
  | Nothing, _ => Nothing
  | _, Nothing => Nothing
  | Empty, _ => b
  | _, _ => Cat a b
  end.

Definition or (a b : re) : re :=
  match a, b with
  | Nothing, _ => b
  | _, Nothing => a
  | _, _ => Or a b
  end.

(** What is left of [r] after the character [c]. *)
Fixpoint deriv (c : ascii) (r : re) : re :=
  match r with
  | Nothing => Nothing
  | Empty => Nothing
  | Class p => if p c then Empty else Nothing
  | Cat a b =>
      if nullable a then or (cat (deriv c a) b) (deriv c b)
      else cat (deriv c a) b
  | Or a b => or (deriv c a) (deriv c b)
  | Star a => cat (deriv c a) (Star a)
  end.

Fixpoint accepts (r : re) (s : string) : bool :=
  match s with
  | EmptyString => nullable r
  | String c s' => accepts (deriv c r) s'
  end.

(** [re.match('^' r '$', s)]: [$] stands at the end of the text and also
    before a newline that ends it. *)
Fixpoint accepts_to_end (r : re) (s : string) : bool :=
  match s with
  | EmptyString => nullable r
  | String c s' =>
      (Ascii.eqb c PyStr.newline
       && match s' with EmptyString => true | _ => false end
       && nullable r)
      || accepts_to_end (deriv c r) s'
  end.

Fixpoint seq (rs : list re) : re :=
  match rs with
  | [] => Empty
  | r :: rs' => Cat r (seq rs')
  end.

(** [r?] *)
Definition opt (r : re) : re := Or r Empty.

(** [r+] *)
Definition plus (r : re) : re := Cat r (Star r).

(** [r{0,n}] *)
Fixpoint upto (n : nat) (r : re) : re :=
  match n with
  | O => Empty
  | S n' => opt (Cat r (upto n' r))
  end.

(** [r{m,m+n}] *)
Fixpoint between (m n : nat) (r : re) : re :=
  match m with
  | O => upto n r
  | S m' => Cat r (between m' n r)
  end.

(** A literal text; with [ignore_case] as under [re.IGNORECASE]. *)
Fixpoint lit (ignore_case : bool) (w : string) : re :=
  match w with
  | EmptyString => Empty
  | String x w' =>
      Cat (Class (fun c =>
                    if ignore_case
                    then Ascii.eqb (PyStr.lower_char c) (PyStr.lower_char x)
                    else Ascii.eqb c x))
          (lit ignore_case w')
  end.

Definition letter (c : ascii) : bool := PyStr.isupper c || PyStr.islower c.

Definition is_char (x : ascii) (c : ascii) : bool := Ascii.eqb c x.

End Pattern.

(** ** [PromptManager] (web_manager/backend/services/prompt_manager.py)

    The prompt a call names is the file [prompts_dir / filename]; the state
    is the content of that file and the directory of the backups. *)

Module PromptManager.

Import Exn.

Definition exclude_patterns : list string :=
  ["*_example.txt"; "*.bak"; "*.tmp"; ".*"].

(** The three tests [_should_exclude_file] makes on a pattern. *)
Definition excluded_by (pattern filename : string) : bool :=
  if PyStr.startswith pattern "*"
     && PyStr.endswith filename (PyStr.tail_chars pattern) then true
  else if PyStr.endswith pattern "*"
          && PyStr.startswith filename (PyStr.init_chars pattern) then true
  else String.eqb pattern filename.

(** [_should_exclude_file] *)
Definition _should_exclude_file (filename : string) : bool :=
  existsb (fun pattern => excluded_by pattern filename) exclude_patterns.

Record validation : Type := mk_validation {
  is_valid : bool;
  error : option string
}.

(** [_validate_prompt_content].  The search for a role keyword only writes
    a warning to the log; a [str] is held by its UTF-8 encoding, so
    [content.encode('utf-8')] succeeds. *)
Definition _validate_prompt_content (content : string) : validation :=
  if negb (PyStr.truthy content) || negb (PyStr.truthy (PyStr.strip content))
  then mk_validation false (Some "提示词内容不能为空")
  else if (50000 <? Z.of_nat (PyStr.len content))%Z
  then mk_validation false (Some "提示词内容过长，请控制在50KB以内")
  else mk_validation true None.

Record files : Type := mk_files {
  prompt_file : option string;            (* [None]: there is no such file *)
  backups : list (string * string)        (* the files of [backup_dir], by name *)
}.

(** Writing a file of a directory: a file of that name is replaced. *)
Fixpoint put (name content : string) (dir : list (string * string))
  : list (string * string) :=
  match dir with
  | [] => [(name, content)]
  | (n, c) :: rest =>
      if String.eqb n name then (n, content) :: rest
      else (n, c) :: put name content rest
  end.

Fixpoint lookup (name : string) (dir : list (string * string))
  : option string :=
  match dir with
  | [] => None
  | (n, c) :: rest => if String.eqb n name then Some c else lookup name rest
  end.

(** The outcomes of the calls made on the file system: [None] when the call
    succeeds. *)
Record os : Type := mk_os {
  copy : option write_failure;         (* [shutil.copy2] *)
  open_write : option write_failure;   (* [open(file_path, 'w')], [f.write] *)
  open_read : option exn               (* [open(file_path, 'r')] and the read *)
}.

(** A copy that fails has made no file, or a file that holds the part of the
    text copied so far. *)
Definition put_failed (w : write_failure) (name text : string)
  (dir : list (string * string)) : list (string * string) :=
  match w with
  | OpenFails _ => dir
  | WriteFails _ written => put name (PyStr.take written text) dir
  end.

Record reply : Type := mk_reply {
  success : bool;
  message : string;
  backup_path : option string;
  content_length : option nat
}.

Definition failure (text : string) : reply := mk_reply false text None None.

(** [update_prompt_content]; [backup_name] is the name [_backup_prompt_file]
    builds from the name of the file and the clock. *)
Definition update_prompt_content (o : os) (backup_name : string)
  (filename content : string) (fs : files) : reply * files :=
  if _should_exclude_file filename then
    (failure ("文件 " ++ filename ++ " 不允许编辑")%string, fs)
  else
    match prompt_file fs with
    | None => (failure ("文件不存在: " ++ filename)%string, fs)
    | Some current =>
        let validation_result := _validate_prompt_content content in
        if negb (is_valid validation_result) then
          (failure ("内容验证失败: "
                    ++ match error validation_result with
                       | Some text => text
                       | None => "None"
                       end)%string,
           fs)
        else
          match copy o with
          | Some w =>
              (failure ("更新文件失败: " ++ describe (raised w))%string,
               mk_files (prompt_file fs)
                 (put_failed w backup_name current (backups fs)))
          | None =>
              let saved :=
                mk_files (prompt_file fs) (put backup_name current (backups fs)) in
              match open_write o with
              | Some w =>
                  (failure ("更新文件失败: " ++ describe (raised w))%string,
                   mk_files (left_by w content (prompt_file fs)) (backups saved))
              | None =>
                  (mk_reply true ("文件 " ++ filename ++ " 更新成功")%string
                     (Some backup_name) (Some (PyStr.len content)),
                   mk_files (Some content) (backups saved))
              end
          end
    end.

(** [get_prompt_content] *)
Definition get_prompt_content (o : os) (filename : string) (fs : files)
  : result string :=
  if _should_exclude_file filename then
    Raise (OtherError ("文件 " ++ filename ++ " 不允许访问")%string)
  else
    match prompt_file fs with
    | None => Raise (OtherError ("文件不存在: " ++ filename)%string)
    | Some current =>
        match open_read o with
        | Some e => Raise e
        | None => Done (PyStr.universal_newlines current)
        end
    end.

End PromptManager.

(** ** [ConfigManager] (web_manager/backend/services/config_manager.py) *)

Module ConfigManager.

Import Exn.
Import PyDatetime.

(** *** Dictionaries of strings, in insertion order *)

Definition dict : Type := list (string * string).

(** [d.get(k)] *)
Fixpoint get (k : string) (d : dict) : option string :=
  match d with
  | [] => None
  | (k', v) :: rest => if String.eqb k' k then Some v else get k rest
  end.

(** [d.get(k, "")] *)
Definition get_or_empty (k : string) (d : dict) : string :=
  match get k d with Some v => v | None => EmptyString end.

(** [d[k] = v]: a key that is there keeps its place. *)
Fixpoint set (k v : string) (d : dict) : dict :=
  match d with
  | [] => [(k, v)]
  | (k', v') :: rest =>
      if String.eqb k' k then (k', v) :: rest else (k', v') :: set k v rest
  end.

(** *** The validators *)

Inductive validator : Type :=
| ApiKey | Url | ModelName | Cookies | PositiveInteger | ToggleKeywords.

Definition ok : bool * string := (true, EmptyString).

(** [_validate_api_key] *)
Definition _validate_api_key (value : string) : bool * string :=
  if negb (PyStr.truthy value) then (false, "API密钥不能为空")
  else if (PyStr.len value <? 10)%nat then (false, "API密钥长度不能少于10个字符")
  else ok.

Definition alnum (c : ascii) : bool := Pattern.letter c || PyStr.isdigit c.

Definition alnum_or_hyphen (c : ascii) : bool := alnum c || Ascii.eqb c "-".

Definition nonspace (c : ascii) : bool := negb (PyStr.isspace c).

Definition dot : Pattern.re := Pattern.Class (Pattern.is_char ".").

(** The pattern of [_validate_url], compiled with [re.IGNORECASE]. *)
Definition url_pattern : Pattern.re :=
  let label :=
    Pattern.Cat (Pattern.Class alnum)
      (Pattern.opt (Pattern.Cat (Pattern.upto 61 (Pattern.Class alnum_or_hyphen))
                      (Pattern.Class alnum))) in
  let domain :=
    Pattern.seq [Pattern.plus (Pattern.Cat label dot);
                 Pattern.between 2 4 (Pattern.Class Pattern.letter);
                 Pattern.opt dot] in
  let octet := Pattern.between 1 2 (Pattern.Class PyStr.isdigit) in
  let address := Pattern.seq [octet; dot; octet; dot; octet; dot; octet] in
  Pattern.seq
    [Pattern.lit true "http"; Pattern.opt (Pattern.lit true "s");
     Pattern.lit true "://";
     Pattern.Or domain (Pattern.Or (Pattern.lit true "localhost") address);
     Pattern.opt (Pattern.Cat (Pattern.Class (Pattern.is_char ":"))
                    (Pattern.plus (Pattern.Class PyStr.isdigit)));
     Pattern.Or (Pattern.opt (Pattern.Class (Pattern.is_char "/")))
       (Pattern.Cat (Pattern.Class (fun c => Ascii.eqb c "/" || Ascii.eqb c "?"))
          (Pattern.plus (Pattern.Class nonspace)))].

(** [_validate_url] *)
Definition _validate_url (value : string) : bool * string :=
  if negb (PyStr.truthy value) then ok
  else if negb (Pattern.accepts_to_end url_pattern value)
  then (false, "URL格式无效")
  else ok.

Definition name_char (c : ascii) : bool :=
  alnum c || Ascii.eqb c "." || Ascii.eqb c "_" || Ascii.eqb c "-".

(** [_validate_model_name] *)
Definition _validate_model_name (value : string) : bool * string :=
  if negb (PyStr.truthy value) then ok
  else if negb (Pattern.accepts_to_end
                  (Pattern.plus (Pattern.Class name_char)) value)
  then (false, "模型名称只能包含字母、数字、点、下划线和连字符")
  else ok.

Definition required_cookies : list string := ["unb"; "_m_h5_tk"].

(** The loop of [_validate_cookies] over the required names. *)
Fixpoint missing_cookie (names : list string) (value : string)
  : bool * string :=
  match names with
  | [] => ok
  | cookie_name :: rest =>
      if negb (PyStr.contains cookie_name value)
      then (false, ("Cookie中缺少必要字段: " ++ cookie_name)%string)
      else missing_cookie rest value
  end.

(** [_validate_cookies] *)
Definition _validate_cookies (value : string) : bool * string :=
  if negb (PyStr.truthy value) then (false, "Cookie字符串不能为空")
  else if negb (PyStr.contains "=" value)
  then (false, "Cookie格式无效，应包含键值对")
  else missing_cookie required_cookies value.

(** [_validate_positive_integer] *)
Definition _validate_positive_integer (value : string) : bool * string :=
  if negb (PyStr.truthy value) then ok
  else
    match PyStr.to_int value with
    | Some num => if (num <=? 0)%Z then (false, "必须是正整数") else ok
    | None => (false, "必须是有效的整数")
    end.

(** [_validate_toggle_keywords] *)
Definition _validate_toggle_keywords (value : string) : bool * string :=
  if negb (PyStr.truthy value) then (false, "切换关键词不能为空")
  else if (10 <? PyStr.len value)%nat
  then (false, "切换关键词长度不能超过10个字符")
  else ok.

Definition validate (v : validator) (value : string) : bool * string :=
  match v with
  | ApiKey => _validate_api_key value
  | Url => _validate_url value
  | ModelName => _validate_model_name value
  | Cookies => _validate_cookies value
  | PositiveInteger => _validate_positive_integer value
  | ToggleKeywords => _validate_toggle_keywords value
  end.

(** *** The table of [__init__] *)

Record definition : Type := mk_definition {
  key : string;
  description : string;
  is_required : bool;
  is_sensitive : bool;
  validator_of : validator;
  default : option string
}.

Definition config_definitions : list definition :=
  [mk_definition "API_KEY" "AI模型的API密钥" true true ApiKey None;
   mk_definition "MODEL_BASE_URL" "AI模型的基础URL地址" false false Url
     (Some "https://dashscope.aliyuncs.com/compatible-mode/v1");
   mk_definition "MODEL_NAME" "使用的AI模型名称" false false ModelName
     (Some "qwen-turbo");
   mk_definition "COOKIES_STR" "闲鱼网站的Cookie字符串" true true Cookies None;
   mk_definition "HEARTBEAT_INTERVAL" "心跳检测间隔（秒）" false false
     PositiveInteger (Some "15");
   mk_definition "HEARTBEAT_TIMEOUT" "心跳超时时间（秒）" false false
     PositiveInteger (Some "5");
   mk_definition "TOKEN_REFRESH_INTERVAL" "Token刷新间隔（秒）" false false
     PositiveInteger (Some "3600");
   mk_definition "TOKEN_RETRY_INTERVAL" "Token重试间隔（秒）" false false
     PositiveInteger (Some "300");
   mk_definition "MANUAL_MODE_TIMEOUT" "人工接管模式超时时间（秒）" false false
     PositiveInteger (Some "3600");
   mk_definition "MESSAGE_EXPIRE_TIME" "消息过期时间（毫秒）" false false
     PositiveInteger (Some "300000");
   mk_definition "TOGGLE_KEYWORDS" "人工接管切换关键词" false false
     ToggleKeywords (Some "。")].

(** [self.config_definitions[key]] when [key in self.config_definitions] *)
Definition find_definition (k : string) : option definition :=
  find (fun d => String.eqb (key d) k) config_definitions.

Definition is_defined (k : string) : bool :=
  match find_definition k with Some _ => true | None => false end.

(** *** Reading and writing the text of [.env] *)

(** [line.split('=', 1)] on a line that holds an ['=']. *)
Fixpoint split_first_equals (line : string) : string * string :=
  match line with
  | EmptyString => (EmptyString, EmptyString)
  | String c rest =>
      if Ascii.eqb c "=" then (EmptyString, rest)
      else let (k, v) := split_first_equals rest in (String c k, v)
  end.

Definition double_quote : string := String (ascii_of_nat 34) EmptyString.

Definition single_quote : string := String (ascii_of_nat 39) EmptyString.

Definition is_quoted (value : string) : bool :=
  (PyStr.startswith value double_quote && PyStr.endswith value double_quote)
  || (PyStr.startswith value single_quote && PyStr.endswith value single_quote).

(** What [_parse_env_content] makes of the text after the ['=']: it is
    trimmed, and quotes around it are removed. *)
Definition read_value (text : string) : string :=
  let value := PyStr.strip text in
  if is_quoted value then PyStr.init_chars (PyStr.tail_chars value) else value.

(** The body of the loop of [_parse_env_content]. *)
Definition parse_line (config : dict) (raw : string) : dict :=
  let line := PyStr.strip raw in
  if negb (PyStr.truthy line) || PyStr.startswith line "#" then config
  else if PyStr.contains "=" line then
    let (k, v) := split_first_equals line in
    set (PyStr.strip k) (read_value v) config
  else config.

(** [_parse_env_content] *)
Definition _parse_env_content (content : string) : dict :=
  fold_left parse_line (PyStr.split_lines content) [].

(** The lines [_generate_env_content] writes for one entry of the table. *)
Definition definition_lines (config : dict) (d : definition) : list string :=
  let value := get_or_empty (key d) config in
  [("# " ++ description d)%string]
  ++ (if is_required d then ["# 必需配置项"] else [])
  ++ [if PyStr.truthy value then (key d ++ "=" ++ value)%string
      else ("# " ++ key d ++ "=")%string]
  ++ [EmptyString].

Definition undefined_items (config : dict) : list string :=
  flat_map (fun item =>
              if is_defined (fst item) then []
              else [(fst item ++ "=" ++ snd item)%string]) config.

(** [_generate_env_content]; [now] is the reading of the clock. *)
Definition _generate_env_content (now : datetime) (config : dict) : string :=
  let lines :=
    ["# XianyuAutoAgent 配置文件";
     ("# 更新时间: " ++ strftime_seconds now)%string;
     EmptyString]
    ++ flat_map (definition_lines config) config_definitions
    ++ match undefined_items config with
       | [] => []
       | items => ["# 用户自定义配置项"] ++ items ++ [EmptyString]
       end in
  PyStr.join_lines lines.

(** A text that fits on one line of a file. *)
Definition single_line (text : string) : bool :=
  negb (PyStr.has_char PyStr.newline text)
  && negb (PyStr.has_char PyStr.carriage_return text).

(** A key that a line of [.env] can carry: trimmed, on one line, without
    ['='], and not opening a comment. *)
Definition plain_key (k : string) : bool :=
  String.eqb (PyStr.strip k) k && single_line k
  && negb (PyStr.has_char "=" k) && negb (PyStr.startswith k "#").

(** *** The operations *)

Record files : Type := mk_files {
  env_file : option string;               (* [None]: there is no [.env] *)
  backups : list (string * string)        (* the files of [backup_dir], by name *)
}.

(** The outcomes of the calls made on the file system: [None] when the call
    succeeds. *)
Record os : Type := mk_os {
  copy : option write_failure;         (* [shutil.copy2] *)
  open_read : option exn;              (* [open(env_file_path, 'r')] and the read *)
  open_write : option write_failure    (* [open(env_file_path, 'w')], [f.write] *)
}.

Record config_item : Type := mk_item {
  item_key : string;
  item_value : string;
  item_description : string;
  item_required : bool;
  item_sensitive : bool
}.

(** The items [get_config] builds from the text of [.env]. *)
Definition config_items (env_content : string) : list config_item :=
  let current_config := _parse_env_content env_content in
  map (fun d =>
         let value := get_or_empty (key d) current_config in
         let value :=
           match default d with
           | Some x => if negb (PyStr.truthy value) then x else value
           | None => value
           end in
         mk_item (key d) value (description d) (is_required d) (is_sensitive d))
      config_definitions
  ++ flat_map (fun item =>
                 if is_defined (fst item) then []
                 else [mk_item (fst item) (snd item) "用户自定义配置项" false false])
       current_config.

(** [_read_env_file] *)
Definition _read_env_file (o : os) (fs : files) : result string :=
  match env_file fs, open_read o with
  | _, Some e => Raise e
  | None, None => Raise (OtherError "[Errno 2] No such file or directory")
  | Some text, None => Done (PyStr.universal_newlines text)
  end.

(** [get_config] *)
Definition get_config (o : os) (fs : files) : result (list config_item) :=
  bind (_read_env_file o fs) (fun env_content => Done (config_items env_content)).

(** The first loop of [update_config]. *)
Definition validation_errors (configs : list (string * string)) : list string :=
  flat_map (fun config =>
              match find_definition (fst config) with
              | Some d =>
                  let (is_valid, error_msg) := validate (validator_of d) (snd config) in
                  if negb is_valid then [(fst config ++ ": " ++ error_msg)%string]
                  else []
              | None => []
              end) configs.

(** The second loop of [update_config]: the dictionary and the count of the
    items that changed. *)
Fixpoint apply_updates (configs : list (string * string)) (current_config : dict)
  (updated_count : nat) : dict * nat :=
  match configs with
  | [] => (current_config, updated_count)
  | (k, new_value) :: rest =>
      let old_value := get_or_empty k current_config in
      if negb (String.eqb old_value new_value)
      then apply_updates rest (set k new_value current_config) (S updated_count)
      else apply_updates rest current_config updated_count
  end.

(** The answer of [update_config]; [backup_path] is the name of the copy
    inside [backup_dir]. *)
Record reply : Type := mk_reply {
  success : bool;
  message : string;
  errors : list string;
  updated_count : option nat;
  backup_path : option string
}.

Definition failure (text : string) : reply := mk_reply false text [] None None.

(** The name [_backup_env_file] gives the copy. *)
Definition backup_filename (now : datetime) : string :=
  (".env.backup." ++ drop_zeros (zfill 4 (year now)) ++ zfill 2 (month now)
   ++ zfill 2 (day now) ++ "_" ++ zfill 2 (hour now) ++ zfill 2 (minute now)
   ++ zfill 2 (second now))%string.

(** Writing a file of a directory: a file of that name is replaced. *)
Fixpoint put (name content : string) (dir : list (string * string))
  : list (string * string) :=
  match dir with
  | [] => [(name, content)]
  | (n, c) :: rest =>
      if String.eqb n name then (n, content) :: rest
      else (n, c) :: put name content rest
  end.

(** A copy that fails has made no file, or a file that holds the part of the
    text copied so far. *)
Definition put_failed (w : write_failure) (name text : string)
  (dir : list (string * string)) : list (string * string) :=
  match w with
  | OpenFails _ => dir
  | WriteFails _ written => put name (PyStr.take written text) dir
  end.

(** [update_config]; [backup_time] and [write_time] are the two readings of
    the clock. *)
Definition update_config (o : os) (backup_time write_time : datetime)
  (configs : list (string * string)) (fs : files) : reply * files :=
  match validation_errors configs with
  | _ :: _ as errs => (mk_reply false "配置验证失败" errs None None, fs)
  | [] =>
      match env_file fs, copy o with
      | None, Some w =>
          (failure ("更新配置失败: " ++ describe (raised w))%string, fs)
      | None, None =>
          (failure "更新配置失败: [Errno 2] No such file or directory", fs)
      | Some text, Some w =>
          (failure ("更新配置失败: " ++ describe (raised w))%string,
           mk_files (env_file fs)
             (put_failed w (backup_filename backup_time) text (backups fs)))
      | Some text, None =>
          let saved :=
            mk_files (env_file fs)
              (put (backup_filename backup_time) text (backups fs)) in
          match _read_env_file o saved with
          | Raise e => (failure ("更新配置失败: " ++ describe e)%string, saved)
          | Done env_content =>
              let (current_config, count) :=
                apply_updates configs (_parse_env_content env_content) 0 in
              let new_env_content :=
                _generate_env_content write_time current_config in
              match open_write o with
              | Some w =>
                  (failure ("更新配置失败: " ++ describe (raised w))%string,
                   mk_files (left_by w new_env_content (env_file fs))
                     (backups saved))
              | None =>
                  (mk_reply true
                     ("配置更新成功，共更新" ++ PyStr.str_of_int (Z.of_nat count)
                      ++ "个配置项")%string
                     [] (Some count) (Some (backup_filename backup_time)),
                   mk_files (Some new_env_content) (backups saved))
              end
          end
      end
  end.

End ConfigManager.

(** ** Sample data used to run the definitions *)

Module Samples.

Import PyDatetime.

(** A reading of the clock. *)
Definition noon : datetime := mk_datetime 2025 6 1 12 0 0 0.

(** The line of the parsing scenario. *)
Definition loguru_line : string :=
  "2024-01-20 10:30:00.123 | INFO | main:handle:42 - hello".

(** A line no pattern of either parser matches, with a level keyword. *)
Definition stray_line : string := "disk ERROR detected".

(** A line with a level keyword that the [simple] pattern of [LogMonitor]
    matches and no pattern of [LogService] does. *)
Definition keyword_line : string := "ERROR: disk full".

(** A line of the first format whose line number has 4301 digits. *)
Definition long_number_line : string :=
  ("2024-01-20 10:30:00.123 | INFO | main:handle:"
   ++ String.concat "" (repeat "7" 4301) ++ " - hello")%string.

(** The line ["é"] in UTF-8: two bytes for the letter, one for the line
    end. *)
Definition accented : string :=
  String (ascii_of_nat 195) (String (ascii_of_nat 169)
    (String PyStr.newline EmptyString)).

(** A comment line, without any level keyword. *)
Definition comment_line : string := "# waiting for the worker".

(** One line of text with its line end. *)
Definition with_newline (l : string) : string :=
  (l ++ String PyStr.newline EmptyString)%string.

(** What the worker has written to its log so far. *)
Definition started : string := with_newline "worker started".

Definition entry (msg : string) : LogMonitor.log_entry :=
  LogMonitor.mk_entry "2024-01-20T10:30:00" "INFO" "main" msg "main" "run"
                      (Some 7%Z) msg "loguru".

Definition first_entry : LogMonitor.log_entry := entry "first".
Definition second_entry : LogMonitor.log_entry := entry "second".

(** A monitor whose buffer holds the two sample entries, pushed in order. *)
Definition two_entries : LogMonitor.t :=
  LogMonitor.process_all [first_entry; second_entry] LogMonitor.init.

(** A [fromisoformat] for texts printed by [isoformat]: naive values only. *)
Definition iso_seconds : list directive :=
  [DY; DLit "-"; Dm; DLit "-"; Dd; DLit "T"; DH; DLit ":"; DM; DLit ":"; DS].

Definition fromisoformat (s : string) : option LogMonitor.stamp :=
  match strptime s (iso_seconds ++ [DLit "."; Df]) with
  | Some d => Some (LogMonitor.mk_stamp d None)
  | None =>
      match strptime s iso_seconds with
      | Some d => Some (LogMonitor.mk_stamp d None)
      | None => None
      end
  end.

(** A backend manager supervising the worker of pid 4242, and one of the
    Flask application. *)
Definition backend_running : BackendProcess.t :=
  BackendProcess.mk_manager (Some 4242%Z)
    (Some (BackendProcess.mk_info 4242 "running")) (Some noon) true
    BackendProcess.Monitoring.

Definition webapp_running : WebApp.t :=
  WebApp.mk_manager (Some 4242%Z) WebApp.Running (Some noon) (Some 4242%Z)
    ["worker started"].

(** What the operating system tells of the worker ninety seconds after
    [noon]. *)
Definition worker_alive : BackendProcess.probe :=
  BackendProcess.Alive "running" 150 230 (mk_datetime 2025 6 1 12 1 30 0).

(** The worker is there and [terminate] is refused. *)
Definition backend_denied : BackendProcess.os :=
  BackendProcess.mk_os worker_alive None
    (Some (Exn.OtherError "access denied")) None None None.

(** The worker ignores the request and outlives the forced kill's wait. *)
Definition backend_stuck : BackendProcess.os :=
  BackendProcess.mk_os worker_alive None None
    (Some Exn.TimeoutExpired) None (Some Exn.TimeoutExpired).

(** Every call succeeds at once. *)
Definition backend_quiet : BackendProcess.os :=
  BackendProcess.mk_os worker_alive None None None None None.

Definition webapp_denied : WebApp.os :=
  WebApp.mk_os (Some (Exn.OtherError "permission denied")) None None None.

Definition webapp_quiet : WebApp.os := WebApp.mk_os None None None None.

(** Three viewers, numbered; the remote end of the second one is gone. *)
Definition viewers : list nat := [1; 2; 3]%nat.

Definition send_to_viewer (c : nat) : Exn.result unit :=
  if Nat.eqb c 2 then Exn.Raise (Exn.OtherError "connection closed")
  else Exn.Done tt.

(** A configuration with a key of the table and one outside it, whose value
    carries quotes. *)
Definition env_config : ConfigManager.dict :=
  [("API_KEY", "sk-0123456789"); ("REGION", "'cn north'")].

(** The text of a [.env] file, the manager's files, and a request. *)
Definition env_text : string :=
  (with_newline "API_KEY=sk-0123456789" ++ with_newline "REGION='cn north'")%string.

Definition config_files : ConfigManager.files :=
  ConfigManager.mk_files (Some env_text) [].

Definition config_request : list (string * string) :=
  [("MODEL_NAME", "qwen-plus"); ("REGION", " cn-east ")].

(** Every call on the file system succeeds. *)
Definition config_quiet : ConfigManager.os := ConfigManager.mk_os None None None.

Definition prompt_quiet : PromptManager.os := PromptManager.mk_os None None None.

(** The copy is made, the prompt file is opened, and the write is refused
    before a single byte is stored. *)
Definition prompt_disk_full : PromptManager.os :=
  PromptManager.mk_os None
    (Some (Exn.WriteFails (Exn.OtherError "[Errno 28] No space left on device") 0))
    None.

Definition prompt_text : string := "你是一名客服，任务是回答买家的问题。".

Definition prompt_files : PromptManager.files :=
  PromptManager.mk_files (Some "role: assistant") [].

End Samples.

(** * Properties *)

(** ** Slices *)

Section SliceFacts.
Context {A : Type}.
Implicit Types l p x : list A.

Lemma from_neg_lastn (k : Z) l :
  (0 < k)%Z -> PySlice.from (- k) l = PySlice.lastn (Z.to_nat k) l.
Proof.
  intros Hk. unfold PySlice.from, PySlice.lastn.
  destruct (Z.ltb_spec (- k) 0); [ | lia ].
  f_equal. lia.
Qed.

Lemma last_if_longer_lastn (k : Z) l :
  (0 < k)%Z -> PySlice.last_if_longer k l = PySlice.lastn (Z.to_nat k) l.
Proof.
  intros Hk. unfold PySlice.last_if_longer.
  destruct (Z.ltb_spec k (Z.of_nat (length l))).
  - now apply from_neg_lastn.
  - unfold PySlice.lastn.
    replace (length l - Z.to_nat k)%nat with 0%nat by lia. reflexivity.
Qed.

Lemma last_if_longer_zero l : PySlice.last_if_longer 0 l = l.
Proof.
  unfold PySlice.last_if_longer, PySlice.from. simpl.
  destruct (Z.ltb_spec 0 (Z.of_nat (length l))); [ | reflexivity ].
  replace (Z.min 0 (Z.of_nat (length l))) with 0%Z by lia.
  reflexivity.
Qed.

Lemma lastn_length (k : nat) l :
  length (PySlice.lastn k l) = Nat.min k (length l).
Proof. unfold PySlice.lastn. rewrite length_skipn. lia. Qed.

Lemma lastn_all (k : nat) l : (length l <= k)%nat -> PySlice.lastn k l = l.
Proof.
  intros H. unfold PySlice.lastn.
  replace (length l - k)%nat with 0%nat by lia. reflexivity.
Qed.

Lemma lastn_app_long (k : nat) p x :
  (k <= length x)%nat -> PySlice.lastn k (p ++ x) = PySlice.lastn k x.
Proof.
  intros H. unfold PySlice.lastn.
  rewrite skipn_app, length_app.
  rewrite skipn_all2 by lia. simpl. f_equal. lia.
Qed.

Lemma lastn_app_lastn (k : nat) l x :
  PySlice.lastn k (PySlice.lastn k l ++ x) = PySlice.lastn k (l ++ x).
Proof.
  destruct (Nat.le_gt_cases (length l) k) as [Hle | Hgt].
  - rewrite (lastn_all k l) by assumption. reflexivity.
  - rewrite <- (firstn_skipn (length l - k) l) at 2.
    rewrite <- app_assoc.
    rewrite (lastn_app_long k (firstn (length l - k) l)); [ reflexivity | ].
    rewrite length_app, length_skipn. lia.
Qed.

(** A slice [l[-k:]] keeps the order of [l]: it is a suffix. *)
Lemma lastn_suffix (k : nat) l :
  exists p, l = p ++ PySlice.lastn k l.
Proof.
  exists (firstn (length l - k) l). unfold PySlice.lastn.
  now rewrite firstn_skipn.
Qed.

End SliceFacts.

(** ** The history buffer of [LogMonitor] *)

Section HistoryBuffer.
Import LogMonitor.

Lemma add_to_buffer_lastn (e : log_entry) (self : t) :
  (0 < max_buffer_size self)%Z ->
  log_buffer (_add_to_buffer e self)
  = PySlice.lastn (Z.to_nat (max_buffer_size self)) (log_buffer self ++ [e]).
Proof.
  intros Hk. unfold _add_to_buffer. simpl.
  destruct (Z.ltb_spec (max_buffer_size self)
              (Z.of_nat (length (log_buffer self ++ [e])))).
  - now apply from_neg_lastn.
  - symmetry. apply lastn_all. lia.
Qed.

Lemma add_to_buffer_capacity (e : log_entry) (self : t) :
  max_buffer_size (_add_to_buffer e self) = max_buffer_size self.
Proof. reflexivity. Qed.

(** Pushing a batch onto a buffer within capacity leaves the most recent
    [max_buffer_size] entries, in arrival order. *)
Lemma process_all_lastn (es : list log_entry) : forall self : t,
  (0 < max_buffer_size self)%Z ->
  (length (log_buffer self) <= Z.to_nat (max_buffer_size self))%nat ->
  log_buffer (process_all es self)
  = PySlice.lastn (Z.to_nat (max_buffer_size self)) (log_buffer self ++ es)
  /\ max_buffer_size (process_all es self) = max_buffer_size self.
Proof.
  induction es as [ | e es IH]; intros self Hk Hlen.
  - simpl. rewrite app_nil_r. split; [ | reflexivity ].
    symmetry. now apply lastn_all.
  - change (process_all (e :: es) self)
      with (process_all es (_add_to_buffer e self)).
    destruct (IH (_add_to_buffer e self)) as [Hbuf Hcap].
    + now rewrite add_to_buffer_capacity.
    + rewrite add_to_buffer_capacity, add_to_buffer_lastn by assumption.
      rewrite lastn_length. lia.
    + rewrite Hbuf, Hcap, add_to_buffer_capacity.
      rewrite add_to_buffer_lastn by assumption.
      rewrite lastn_app_lastn, <- app_assoc. now split.
Qed.

(** After any sequence of pushes onto the buffer [__init__] builds, the
    buffer holds the 1000 most recently pushed entries in arrival order, and
    so at most 1000 of them. *)
Lemma history_buffer_bounded (es : list log_entry) :
  log_buffer (process_all es init) = PySlice.lastn 1000 es
  /\ (length (log_buffer (process_all es init)) <= 1000)%nat.
Proof.
  destruct (process_all_lastn es init) as [Hbuf _].
  - reflexivity.
  - simpl. lia.
  - simpl in Hbuf. rewrite Hbuf. split; [ reflexivity | ].
    rewrite lastn_length. lia.
Qed.

(** With a positive [limit], [get_recent_logs] returns the [limit] most
    recent entries in arrival order, at most [limit] of them, and leaves the
    monitor as it was. *)
Lemma get_recent_logs_positive (limit : Z) (self : t) :
  (0 < limit)%Z ->
  fst (get_recent_logs limit self)
  = PySlice.lastn (Z.to_nat limit) (log_buffer self)
  /\ (Z.of_nat (length (fst (get_recent_logs limit self))) <= limit)%Z
  /\ snd (get_recent_logs limit self) = self.
Proof.
  intros Hl. unfold get_recent_logs. simpl.
  rewrite last_if_longer_lastn by assumption.
  repeat split. rewrite lastn_length. lia.
Qed.

(** C8, with a zero limit.  [get_recent_logs(limit)] is to return at most
    [limit] records.  With [limit = 0] and two entries in the buffer the code
    tests [len(buffer) > 0] and returns [buffer[-0:]], the whole buffer:
    two records where at most zero are promised. *)
Theorem get_recent_logs_limit_zero :
  fst (LogMonitor.get_recent_logs 0 Samples.two_entries)
  = [Samples.first_entry; Samples.second_entry].
Proof. reflexivity. Qed.

(** The same holds of every buffer: a zero limit returns it whole. *)
Lemma get_recent_logs_zero_all (self : t) :
  fst (get_recent_logs 0 self) = log_buffer self.
Proof. unfold get_recent_logs. simpl. apply last_if_longer_zero. Qed.

End HistoryBuffer.

(** ** Searching the buffer *)

Section SearchFacts.
Import LogMonitor.

Variable fromisoformat : string -> option stamp.

Lemma filter_logs_filter kw lv st en (es : list log_entry) : forall r,
  filter_logs fromisoformat kw lv st en es = Returned r ->
  r = filter (kept fromisoformat kw lv st en) es.
Proof.
  induction es as [ | e es IH]; simpl; intros r H.
  - now inversion H.
  - unfold kept at 1.
    destruct (keeps fromisoformat kw lv st en e) as [b | ]; [ | discriminate ].
    destruct (filter_logs fromisoformat kw lv st en es) as [r' | ];
      [ | discriminate ].
    inversion H; subst. rewrite <- (IH r' eq_refl). now destruct b.
Qed.

Lemma kept_keyword kw lv st en e :
  kept fromisoformat kw lv st en e = true -> given kw = true ->
  PyStr.contains (PyStr.lower (text kw)) (PyStr.lower (message e)) = true.
Proof.
  unfold kept, keeps. intros H Hg. rewrite Hg in H. simpl in H.
  destruct (PyStr.contains _ _); [ reflexivity | discriminate ].
Qed.

Lemma kept_level kw lv st en e :
  kept fromisoformat kw lv st en e = true -> given lv = true ->
  level e = PyStr.upper (text lv).
Proof.
  unfold kept, keeps. intros H Hg. rewrite Hg in H.
  destruct (given kw && _); [ discriminate | ]. simpl in H.
  destruct (String.eqb_spec (level e) (PyStr.upper (text lv)));
    [ assumption | discriminate ].
Qed.

Lemma kept_times kw lv st en e :
  kept fromisoformat kw lv st en e = true ->
  time_skips fromisoformat true st e = Returned false
  /\ time_skips fromisoformat false en e = Returned false.
Proof.
  unfold kept, keeps. intros H.
  destruct (given kw && _); [ discriminate | ].
  destruct (given lv && _); [ discriminate | ].
  destruct (time_skips fromisoformat true st e) as [[ | ] | ];
    try discriminate.
  destruct (time_skips fromisoformat false en e) as [[ | ] | ];
    try discriminate.
  now split.
Qed.

(** A kept entry whose timestamp parses is not before a parseable
    [start_time]. *)
Lemma kept_start kw lv st en e log_time bound :
  kept fromisoformat kw lv st en e = true -> given st = true ->
  fromisoformat (timestamp e) = Some log_time ->
  fromisoformat (text st) = Some bound ->
  stamp_lt log_time bound = Returned false.
Proof.
  intros H Hg Ht Hb. destruct (kept_times _ _ _ _ _ H) as [Hs _].
  unfold time_skips in Hs. now rewrite Hg, Ht, Hb in Hs.
Qed.

(** A kept entry whose timestamp parses is not after a parseable
    [end_time]. *)
Lemma kept_end kw lv st en e log_time bound :
  kept fromisoformat kw lv st en e = true -> given en = true ->
  fromisoformat (timestamp e) = Some log_time ->
  fromisoformat (text en) = Some bound ->
  stamp_lt bound log_time = Returned false.
Proof.
  intros H Hg Ht Hb. destruct (kept_times _ _ _ _ _ H) as [_ Hs].
  unfold time_skips in Hs. now rewrite Hg, Ht, Hb in Hs.
Qed.

Lemma in_lastn_filter (k : nat) (f : log_entry -> bool) (l : list log_entry) e :
  In e (PySlice.lastn k (filter f l)) -> In e l /\ f e = true.
Proof.
  intros H. destruct (lastn_suffix k (filter f l)) as [p Hp].
  apply filter_In. rewrite Hp. apply in_or_app. now right.
Qed.

(** With a positive [limit], [search_logs] returns the last [limit] entries
    of the buffer that pass every filter given, in buffer order, and leaves
    the monitor as it was. *)
Lemma search_logs_positive kw lv st en (limit : Z) (self : t) res self' :
  (0 < limit)%Z ->
  search_logs fromisoformat kw lv st en limit self = (Returned res, self') ->
  self' = self
  /\ res = PySlice.lastn (Z.to_nat limit)
             (filter (kept fromisoformat kw lv st en) (log_buffer self))
  /\ (Z.of_nat (length res) <= limit)%Z
  /\ (forall e, In e res ->
        In e (log_buffer self) /\ kept fromisoformat kw lv st en e = true).
Proof.
  intros Hl. unfold search_logs.
  destruct (filter_logs fromisoformat kw lv st en (log_buffer self))
    as [r | ] eqn:Hf; [ | discriminate ].
  intros H. injection H as Hres Hself. subst self' res.
  apply filter_logs_filter in Hf. subst r.
  rewrite last_if_longer_lastn by assumption.
  split; [ reflexivity | ]. split; [ reflexivity | ]. split.
  - rewrite lastn_length. lia.
  - intros e. apply in_lastn_filter.
Qed.

(** A zero limit returns every matching entry. *)
Lemma search_logs_zero_all kw lv st en (self : t) r :
  filter_logs fromisoformat kw lv st en (log_buffer self) = Returned r ->
  fst (search_logs fromisoformat kw lv st en 0 self) = Returned r.
Proof.
  intros H. unfold search_logs. rewrite H. simpl.
  now rewrite last_if_longer_zero.
Qed.

End SearchFacts.

(** A search run on the two sample entries: keyword and level are matched
    without regard to case, and the time window is applied. *)
Example search_logs_sample :
  LogMonitor.search_logs Samples.fromisoformat (Some "SEC") (Some "info")
    (Some "2024-01-20T10:00:00") (Some "2024-01-20T11:00:00") 5
    Samples.two_entries
  = (LogMonitor.Returned [Samples.second_entry], Samples.two_entries)
  /\ LogMonitor.search_logs Samples.fromisoformat None None
       (Some "2024-01-21T00:00:00") None 5 Samples.two_entries
     = (LogMonitor.Returned [], Samples.two_entries)
  /\ LogMonitor.search_logs Samples.fromisoformat None None None None 1
       Samples.two_entries
     = (LogMonitor.Returned [Samples.second_entry], Samples.two_entries).
Proof. vm_compute. now repeat split. Qed.

(** C10, with a zero limit.  [search_logs] is to return at most [limit]
    records.  With no filter, [limit = 0] and two entries in the buffer, the
    code tests [len(filtered_logs) > 0] and returns [filtered_logs[-0:]]:
    both entries, where at most zero are promised. *)
Theorem search_logs_limit_zero (fromisoformat : string -> option LogMonitor.stamp) :
  fst (LogMonitor.search_logs fromisoformat None None None None 0
         Samples.two_entries)
  = LogMonitor.Returned [Samples.first_entry; Samples.second_entry].
Proof. reflexivity. Qed.

(** ** The tail loop of [LogMonitor] *)

Section TailLoop.
Import LogFile LogMonitor.

Lemma take_length (s : string) : PyStr.take (String.length s) s = s.
Proof. induction s as [ | c s IH]; simpl; [ reflexivity | now rewrite IH ]. Qed.

Lemma skip_length (n : nat) : forall s : string,
  String.length (PyStr.skip n s) = (String.length s - n)%nat.
Proof.
  induction n as [ | n IH]; intros [ | c s]; simpl; try reflexivity.
  apply IH.
Qed.

Lemma len_le_length (s : string) : (PyStr.len s <= String.length s)%nat.
Proof.
  induction s as [ | c s IH]; simpl; [ lia | ].
  destruct (PyStr.is_continuation c); lia.
Qed.

Lemma prefix_chars_all (s : string) : forall n : nat,
  (PyStr.len s <= n)%nat -> PyStr.prefix_chars n s = s.
Proof.
  induction s as [ | c s IH]; intros n H; simpl in *; [ reflexivity | ].
  destruct (PyStr.is_continuation c).
  - now rewrite IH.
  - destruct n as [ | n]; [ lia | ]. rewrite IH; [ reflexivity | lia ].
Qed.

(** A read that succeeds on a file that has not changed since its size was
    taken, and whose new bytes are text as written, returns these bytes. *)
Lemma read_new_content_ok (content : string) (position : nat) :
  PyStr.as_written (PyStr.skip position content) ->
  _read_new_content (Present content true) position (String.length content)
  = PyStr.skip position content.
Proof.
  intros [Hdecode Hnewlines]. unfold _read_new_content, text_from.
  rewrite Hdecode, Hnewlines.
  destruct (Nat.ltb_spec (String.length content) position) as [Hlt | Hge];
    [ reflexivity | ].
  apply prefix_chars_all. rewrite <- skip_length. apply len_le_length.
Qed.

Lemma truthy_length (s : string) :
  PyStr.truthy s = (0 <? String.length s)%nat.
Proof. now destruct s. Qed.

(** An iteration that finds the file grown, reads it and parses what it read
    advances the offset to the size seen and hands on exactly the bytes from
    the old offset. *)
Lemma grown_file_read (now : PyDatetime.datetime) (content : string)
  (position : nat) (self : t) :
  (position < String.length content)%nat ->
  PyStr.as_written (PyStr.skip position content) ->
  _parse_log_content now (PyStr.skip position content) <> None ->
  let it := monitoring_iteration now (Present content true) position self in
  last_position it = String.length content
  /\ new_content it = PyStr.skip position content
  /\ _parse_log_content now (PyStr.skip position content) = Some (new_logs it)
  /\ monitor it = process_all (new_logs it) self.
Proof.
  intros H Htext Hparse. unfold monitoring_iteration, monitoring_step.
  destruct (Nat.ltb_spec position (String.length content)); [ | lia ].
  rewrite (read_new_content_ok content position Htext).
  rewrite truthy_length, skip_length.
  destruct (Nat.ltb_spec 0 (String.length content - position)); [ | lia ].
  destruct (_parse_log_content now (PyStr.skip position content)) as [logs | ];
    [ | now elim Hparse ].
  now repeat split.
Qed.

(** An iteration whose text holds a line that [_parse_log_line] raises on
    hands nothing on and leaves the offset where it was: the next iteration
    reads the same bytes again. *)
Lemma grown_file_unparsed (now : PyDatetime.datetime) (content : string)
  (position : nat) (self : t) :
  (position < String.length content)%nat ->
  PyStr.as_written (PyStr.skip position content) ->
  _parse_log_content now (PyStr.skip position content) = None ->
  let it := monitoring_iteration now (Present content true) position self in
  last_position it = position
  /\ new_logs it = []
  /\ monitor it = self
  /\ monitoring_iteration now (Present content true) (last_position it)
       (monitor it) = it.
Proof.
  intros H Htext Hparse.
  assert (Hit : monitoring_iteration now (Present content true) position self
                = mk_iteration position (PyStr.skip position content) [] self).
  { unfold monitoring_iteration, monitoring_step.
    destruct (Nat.ltb_spec position (String.length content)); [ | lia ].
    rewrite (read_new_content_ok content position Htext).
    rewrite truthy_length, skip_length.
    destruct (Nat.ltb_spec 0 (String.length content - position)); [ | lia ].
    now rewrite Hparse. }
  cbv zeta. rewrite Hit. cbn [last_position new_logs monitor].
  now rewrite Hit.
Qed.


Lemma length_append (a b : string) :
  String.length (a ++ b)%string = (String.length a + String.length b)%nat.
Proof. induction a as [ | c a IH]; simpl; [ reflexivity | now rewrite IH ]. Qed.

Lemma skip_append (a b : string) :
  PyStr.skip (String.length a) (a ++ b)%string = b.
Proof. induction a as [ | c a IH]; simpl; [ reflexivity | assumption ]. Qed.

Lemma append_empty (a : string) : (a ++ "")%string = a.
Proof. induction a as [ | c a IH]; simpl; [ reflexivity | now rewrite IH ]. Qed.

Lemma append_assoc (a b c : string) :
  ((a ++ b) ++ c)%string = (a ++ b ++ c)%string.
Proof. induction a as [ | x a IH]; simpl; [ reflexivity | now rewrite IH ]. Qed.

(** While the file only grows, by text as it is written that the parser
    does not raise on, and every read succeeds, each iteration hands on
    exactly what was appended since the one before, and the offset ends at
    the size of the file: nothing is skipped and nothing comes twice. *)
Lemma append_only_delivery (now : PyDatetime.datetime) (chunks : list string) :
  Forall (fun d => PyStr.as_written d /\ _parse_log_content now d <> None)
         chunks ->
  forall (base : string) (self : t),
  let '(position, texts, _) :=
    monitoring_loop now (appended_views base chunks) (String.length base) self in
  texts = chunks
  /\ position
     = String.length (base ++ fold_right String.append EmptyString chunks)%string.
Proof.
  induction 1 as [ | d chunks [Htext Hparse] _ IH]; intros base self.
  - simpl. split; [ reflexivity | now rewrite append_empty ].
  - cbn [appended_views monitoring_loop fold_right].
    assert (Hit :
      last_position (monitoring_iteration now (Present (base ++ d)%string true)
                       (String.length base) self)
      = String.length (base ++ d)%string
      /\ new_content (monitoring_iteration now (Present (base ++ d)%string true)
                        (String.length base) self) = d).
    { destruct d as [ | c d'].
      - unfold monitoring_iteration, monitoring_step. rewrite append_empty.
        rewrite Nat.ltb_irrefl. now split.
      - destruct (grown_file_read now (base ++ String c d')%string
                    (String.length base) self) as (H1 & H2 & _).
        + rewrite length_append. simpl. lia.
        + now rewrite skip_append.
        + now rewrite skip_append.
        + rewrite skip_append in H2. now split. }
    destruct Hit as [Hpos Htexts]. rewrite Hpos, Htexts.
    specialize (IH (base ++ d)%string
                  (monitor (monitoring_iteration now
                              (Present (base ++ d)%string true)
                              (String.length base) self))).
    destruct (monitoring_loop now (appended_views (base ++ d) chunks)
                (String.length (base ++ d)) _) as [[p texts] m].
    destruct IH as [-> ->]. split; [ reflexivity | ].
    now rewrite append_assoc.
Qed.

(** C3, when the read fails.  The offset is to stay where it was when the
    read of the grown file fails.  The worker has written one line of 15
    bytes, the offset is 0 and [open] raises: [_read_new_content] returns the
    empty text, and the loop still sets the offset to 15.  The two following
    iterations read the file without trouble and find nothing beyond the
    offset: the line is never handed on. *)
Theorem failed_read_advances_offset :
  let failed :=
    monitoring_iteration Samples.noon (Present Samples.started false) 0 init in
  last_position failed = 15%nat
  /\ new_content failed = EmptyString
  /\ new_logs failed = []
  /\ monitoring_loop Samples.noon
       [Present Samples.started false; Present Samples.started true;
        Present Samples.started true] 0 init
     = (15%nat, [EmptyString; EmptyString; EmptyString], init).
Proof. vm_compute. now repeat split. Qed.



(** A file cut back to its first seven bytes, not to zero length: the
    iteration after the reset hands on the whole file, and with it the
    bytes that were handed on before the cut. *)
Lemma truncation_to_prefix_redelivers :
  let '(position, texts, _) :=
    monitoring_loop Samples.noon
      [Present Samples.started true;
       Present (rewritten 7 Samples.started EmptyString) true;
       Present (rewritten 7 Samples.started EmptyString) true]
      0 init in
  position = 7%nat
  /\ rewritten 7 Samples.started EmptyString = "worker "
  /\ texts = [Samples.started; EmptyString; "worker "].
Proof. vm_compute. now repeat split. Qed.

(** After the reset, a read that fails loses what was written since the
    truncation: the iterations that follow hand on only what is written
    later. *)
Lemma truncation_then_failed_read :
  let '(position, texts, _) :=
    monitoring_loop Samples.noon
      [Present (rewritten 0 Samples.started "fresh") true;
       Present (rewritten 0 Samples.started "fresh") false;
       Present (rewritten 0 Samples.started "fresh") true;
       Present (rewritten 0 Samples.started "fresh, then more") true]
      15 init in
  position = 16%nat
  /\ texts = [EmptyString; EmptyString; EmptyString; ", then more"].
Proof. vm_compute. now split. Qed.

(** A file truncated and grown back beyond the stored offset between two
    iterations is not seen as truncated: the iteration reads it from the old
    offset on, and the head of the new text is not handed on. *)
Lemma regrown_file_read_from_offset :
  new_content
    (monitoring_iteration Samples.noon (Present Samples.started true) 7 init)
  = Samples.with_newline "started".
Proof. reflexivity. Qed.

End TailLoop.


(** ** The line parsers *)

Section StripFacts.

Lemma all_space_lstrip (s : string) :
  PyStr.all_space s = true -> PyStr.lstrip s = EmptyString.
Proof.
  induction s as [ | c s IH]; simpl; [ reflexivity | ].
  intros H. apply andb_true_iff in H as [Hc Hs]. rewrite Hc. now apply IH.
Qed.

Lemma all_space_strip (s : string) :
  PyStr.all_space s = true -> PyStr.strip s = EmptyString.
Proof. intros H. unfold PyStr.strip. now rewrite all_space_lstrip. Qed.

Lemma rstrip_head (c : ascii) (s : string) :
  PyStr.isspace c = false ->
  exists r, PyStr.rstrip (String c s) = String c r.
Proof.
  intros Hc. simpl. destruct (PyStr.rstrip s) as [ | c' r'].
  - rewrite Hc. now exists EmptyString.
  - now exists (String c' r').
Qed.

Lemma first_nonspace_strip (c : ascii) (s : string) :
  PyStr.isspace c = false ->
  PyStr.first_nonspace s = Some c ->
  exists r, PyStr.strip s = String c r.
Proof.
  unfold PyStr.first_nonspace, PyStr.strip. intros Hc H.
  destruct (PyStr.lstrip s) as [ | c' rest]; [ discriminate | ].
  injection H as ->. now apply rstrip_head.
Qed.

Lemma startswith_head (c : ascii) (r : string) :
  PyStr.startswith (String c r) (String c EmptyString) = true.
Proof.
  unfold PyStr.startswith. simpl.
  destruct (ascii_dec c c) as [_ | Hne]; [ now destruct r | now elim Hne ].
Qed.

End StripFacts.

Section Parsers.
Import PyDatetime.

Lemma parse_lines_app (now : datetime) (before after : list string) :
  LogMonitor.parse_lines now (before ++ after)
  = LogMonitor.parse_lines now before ++ LogMonitor.parse_lines now after.
Proof.
  induction before as [ | l before IH]; simpl; [ reflexivity | ].
  destruct (negb (PyStr.truthy (PyStr.strip l))); [ assumption | ].
  simpl. now rewrite IH.
Qed.

(** The loop of [LogMonitor] over its patterns returns the match of the
    first pattern of the list that matches: no pattern before it does. *)
Lemma first_match_is_first (ps : list (string * Regex.regex)) (s : string)
  (name : string) (g : Regex.groups) :
  LogMonitor.first_match ps s = Some (name, g) ->
  exists before p after,
    ps = before ++ (name, p) :: after
    /\ Regex.rmatch p s = Some g
    /\ forall q, In q before -> Regex.rmatch (snd q) s = None.
Proof.
  induction ps as [ | [n p] ps IH]; simpl; [ discriminate | ].
  destruct (Regex.rmatch p s) as [g' | ] eqn:Hm.
  - intros H. injection H as -> ->.
    exists [], p, ps. repeat split; [ assumption | ]. intros q [].
  - intros H. destruct (IH H) as (before & p' & after & -> & Hp & Hb).
    exists ((n, p) :: before), p', after. repeat split; [ assumption | ].
    intros q [<- | Hq]; [ assumption | now apply Hb ].
Qed.

(** C5, for [LogMonitor].  [LogMonitor._parse_log_line] on the line
    ["2024-01-20 10:30:00.123 | INFO | main:handle:42 - hello"]: the first
    pattern of the list, [loguru], matches, and the record returned has the
    timestamp of 2024-01-20T10:30:00.123 (printed with six digits of
    fraction), level INFO, module "main", function "handle", line 42 and
    message "hello". *)
Theorem loguru_line_parsed (now : datetime) :
  (exists g, LogMonitor.first_match LogMonitor.log_patterns Samples.loguru_line
             = Some ("loguru", g))
  /\ hd_error LogMonitor.log_patterns = Some ("loguru", LogMonitor.loguru)
  /\ LogMonitor._parse_log_line now Samples.loguru_line
     = Some {|
         LogMonitor.timestamp := isoformat (mk_datetime 2024 1 20 10 30 0 123000);
         LogMonitor.level := "INFO";
         LogMonitor.logger_name := "main";
         LogMonitor.message := "hello";
         LogMonitor.module := "main";
         LogMonitor.function := "handle";
         LogMonitor.line := Some 42%Z;
         LogMonitor.raw_line := Samples.loguru_line;
         LogMonitor.pattern_type := "loguru"
       |}
  /\ isoformat (mk_datetime 2024 1 20 10 30 0 123000) = "2024-01-20T10:30:00.123000".
Proof.
  split; [ | split; [ reflexivity | split; reflexivity ] ].
  eexists. vm_compute. reflexivity.
Qed.

(** C5 does not hold of [LogService.parse_log_line].  On the same line its
    patterns match nothing, and the record returned is the fallback one,
    with module "unknown" and the whole line as message. *)
Lemma log_service_misses_loguru_line :
  exists d,
    LogService.parse_log_line Samples.noon Samples.loguru_line = Some d
    /\ LogService.module d <> "main"
    /\ LogService.module d = "unknown"
    /\ LogService.message d = Samples.loguru_line.
Proof.
  eexists. split; [ vm_compute; reflexivity | ].
  simpl. repeat split. discriminate.
Qed.

(** The fallback of [LogService.parse_log_line]: a line that is neither
    blank nor a comment, that no pattern matches and that holds a level
    keyword. *)
Lemma fallback_of_log_service (now : datetime) (line : string) :
  PyStr.truthy (PyStr.strip line) = true ->
  PyStr.startswith (PyStr.strip line) "#" = false ->
  LogService.first_search LogService.patterns (PyStr.strip line) = None ->
  existsb (fun lv => PyStr.contains lv (PyStr.upper (PyStr.strip line)))
          LogService.log_levels = true ->
  LogService.parse_log_line now line
  = Some {|
      LogService.timestamp := strftime_seconds now;
      LogService.level := "INFO";
      LogService.module := "unknown";
      LogService.line_num := "0";
      LogService.message := PyStr.strip line;
      LogService.raw_line := PyStr.strip line;
      LogService.category := "system"
    |}.
Proof.
  intros Hblank Hcomment Hservice Hkeyword.
  unfold LogService.parse_log_line.
  rewrite Hblank, Hcomment, Hservice, Hkeyword. reflexivity.
Qed.

(** The fallback of [LogMonitor._parse_log_line]: a line no pattern
    matches. *)
Lemma fallback_of_log_monitor (now : datetime) (line : string) :
  LogMonitor.first_match LogMonitor.log_patterns (PyStr.strip line) = None ->
  LogMonitor._parse_log_line now line
  = Some {|
      LogMonitor.timestamp := isoformat now;
      LogMonitor.level := "INFO";
      LogMonitor.logger_name := "unknown";
      LogMonitor.message := PyStr.strip line;
      LogMonitor.module := "";
      LogMonitor.function := "";
      LogMonitor.line := None;
      LogMonitor.raw_line := line;
      LogMonitor.pattern_type := "unknown"
    |}.
Proof.
  intros Hmonitor. unfold LogMonitor._parse_log_line. now rewrite Hmonitor.
Qed.

(** C6, for each of the two parsers, each on a line of its own.  Every line
    [line] that is neither blank nor a comment, that none of the patterns of
    [LogService] matches and that holds a level keyword is returned by
    [LogService.parse_log_line] as a record with level INFO and module
    "unknown"; every line [other] that none of the patterns of [LogMonitor]
    matches, with a keyword or without, a comment or not, is returned by
    [LogMonitor._parse_log_line] as a record with level INFO, logger name
    "unknown" and an empty module.  Neither returns none. *)
Theorem unmatched_line_fallback (now : datetime) (line other : string) :
  (PyStr.truthy (PyStr.strip line) = true ->
   PyStr.startswith (PyStr.strip line) "#" = false ->
   LogService.first_search LogService.patterns (PyStr.strip line) = None ->
   existsb (fun lv => PyStr.contains lv (PyStr.upper (PyStr.strip line)))
           LogService.log_levels = true ->
   LogService.parse_log_line now line
   = Some {|
       LogService.timestamp := strftime_seconds now;
       LogService.level := "INFO";
       LogService.module := "unknown";
       LogService.line_num := "0";
       LogService.message := PyStr.strip line;
       LogService.raw_line := PyStr.strip line;
       LogService.category := "system"
     |})
  /\ (LogMonitor.first_match LogMonitor.log_patterns (PyStr.strip other) = None ->
      LogMonitor._parse_log_line now other
      = Some {|
          LogMonitor.timestamp := isoformat now;
          LogMonitor.level := "INFO";
          LogMonitor.logger_name := "unknown";
          LogMonitor.message := PyStr.strip other;
          LogMonitor.module := "";
          LogMonitor.function := "";
          LogMonitor.line := None;
          LogMonitor.raw_line := other;
          LogMonitor.pattern_type := "unknown"
        |}).
Proof.
  split.
  - intros Hblank Hcomment Hservice Hkeyword. now apply fallback_of_log_service.
  - intros Hmonitor. now apply fallback_of_log_monitor.
Qed.

Lemma unmatched_line_fallback_witness :
  (PyStr.truthy (PyStr.strip Samples.keyword_line) = true
   /\ PyStr.startswith (PyStr.strip Samples.keyword_line) "#" = false
   /\ LogService.first_search LogService.patterns (PyStr.strip Samples.keyword_line)
      = None
   /\ existsb (fun lv => PyStr.contains lv (PyStr.upper (PyStr.strip Samples.keyword_line)))
              LogService.log_levels = true
   /\ LogService.parse_log_line Samples.noon Samples.keyword_line
      = Some {|
          LogService.timestamp := strftime_seconds Samples.noon;
          LogService.level := "INFO";
          LogService.module := "unknown";
          LogService.line_num := "0";
          LogService.message := Samples.keyword_line;
          LogService.raw_line := Samples.keyword_line;
          LogService.category := "system"
        |})
  /\ (LogMonitor.first_match LogMonitor.log_patterns (PyStr.strip Samples.comment_line)
      = None
      /\ LogMonitor._parse_log_line Samples.noon Samples.comment_line
         = Some {|
             LogMonitor.timestamp := isoformat Samples.noon;
             LogMonitor.level := "INFO";
             LogMonitor.logger_name := "unknown";
             LogMonitor.message := Samples.comment_line;
             LogMonitor.module := "";
             LogMonitor.function := "";
             LogMonitor.line := None;
             LogMonitor.raw_line := Samples.comment_line;
             LogMonitor.pattern_type := "unknown"
           |}).
Proof.
  pose proof (unmatched_line_fallback Samples.noon Samples.keyword_line
                Samples.comment_line) as [Hservice Hmonitor].
  split.
  - repeat (split; [ vm_compute; reflexivity | ]).
    apply Hservice; vm_compute; reflexivity.
  - split; [ vm_compute; reflexivity | ].
    apply Hmonitor. vm_compute. reflexivity.
Defined.

(** C6 does not hold of [LogMonitor._parse_log_line].  The record it returns
    for an unmatched line with the keyword ERROR has an empty module, not
    "unknown". *)
Lemma log_monitor_fallback_module :
  option_map LogMonitor.module
    (LogMonitor._parse_log_line Samples.noon Samples.stray_line)
  <> Some "unknown".
Proof. vm_compute. discriminate. Qed.

(** C7, for each of the two parsers.  [LogService.parse_log_line] returns none for every blank
    line and for every line whose first character after the leading
    whitespace is '#'; the loop of [LogMonitor._parse_log_content] skips
    every blank line, which adds no entry to the result. *)
Theorem blank_and_comment_lines_filtered (now : datetime) (line : string) :
  PyStr.all_space line = true \/ PyStr.first_nonspace line = Some "#"%char ->
  LogService.parse_log_line now line = None
  /\ (PyStr.all_space line = true ->
      forall before after,
        LogMonitor.parse_lines now (before ++ line :: after)
        = LogMonitor.parse_lines now before ++ LogMonitor.parse_lines now after).
Proof.
  intros H. split.
  - unfold LogService.parse_log_line. destruct H as [H | H].
    + now rewrite (all_space_strip _ H).
    + destruct (first_nonspace_strip "#" line eq_refl H) as [r ->].
      now rewrite startswith_head, orb_true_r.
  - intros Hb before after. rewrite parse_lines_app. f_equal. simpl.
    now rewrite (all_space_strip _ Hb).
Qed.

Lemma blank_and_comment_lines_filtered_witness :
  (PyStr.all_space Samples.comment_line = true
   \/ PyStr.first_nonspace Samples.comment_line = Some "#"%char)
  /\ LogService.parse_log_line Samples.noon Samples.comment_line = None
  /\ (PyStr.all_space Samples.comment_line = true ->
      forall before after,
        LogMonitor.parse_lines Samples.noon (before ++ Samples.comment_line :: after)
        = LogMonitor.parse_lines Samples.noon before
          ++ LogMonitor.parse_lines Samples.noon after).
Proof.
  split.
  - right. reflexivity.
  - apply (blank_and_comment_lines_filtered Samples.noon Samples.comment_line).
    right. reflexivity.
Defined.

(** C7 does not hold of [LogMonitor], which has no comment filter: a line
    that starts with '#' is parsed like any other, and one entry comes
    back. *)
Lemma log_monitor_keeps_comment_line :
  exists e,
    LogMonitor._parse_log_line Samples.noon Samples.comment_line = Some e
    /\ LogMonitor._parse_log_content Samples.noon Samples.comment_line = Some [e]
    /\ LogMonitor.raw_line e = Samples.comment_line.
Proof. eexists. vm_compute. now repeat split. Qed.

End Parsers.

(** ** Stopping the worker *)

Section Stop.

(** When every call of the stop sequence returns, or the process is found
    gone, [stop_process] reports success and clears the handle, the
    information and the start time; a status query then finds nothing
    running, whatever the probe would say. *)
Lemma stop_process_clears (o : BackendProcess.os) (self : BackendProcess.t)
  (p : BackendProcess.probe) :
  BackendProcess.is_running
    (fst (BackendProcess.get_status (BackendProcess.status_probe o) self)) = true ->
  BackendProcess.terminate_and_wait o = Exn.Done tt ->
  let after := BackendProcess.stop_process o self in
  BackendProcess.success (fst after) = true
  /\ BackendProcess.process (snd after) = None
  /\ BackendProcess.process_info (snd after) = None
  /\ BackendProcess.start_time (snd after) = None
  /\ BackendProcess.is_running (fst (BackendProcess.get_status p (snd after)))
     = false.
Proof.
  intros Hrun Hdone. unfold BackendProcess.stop_process.
  destruct (BackendProcess.get_status (BackendProcess.status_probe o) self)
    as [st self1].
  simpl in Hrun. rewrite Hrun, Hdone. simpl. now repeat split.
Qed.

(** [stop_main_process] called on a running manager always leaves the state
    [Stopped]; the handle and the start time are cleared when no call
    raises. *)
Lemma stop_main_process_stopped (o : WebApp.os) (self : WebApp.t) :
  WebApp.state self = WebApp.Running ->
  let after := WebApp.stop_main_process o self in
  WebApp.state (snd after) = WebApp.Stopped
  /\ (fst (fst after) = true ->
      WebApp.process (snd after) = None
      /\ WebApp.start_time (snd after) = None).
Proof.
  intros Hrun. unfold WebApp.stop_main_process. rewrite Hrun. simpl.
  destruct (WebApp.process self); simpl.
  - destruct (WebApp.terminate_and_wait o); simpl; split;
      try reflexivity; try discriminate. now split.
  - split; [ reflexivity | now split ].
Qed.

(** When a call of the stop sequence raises anything but what the inner
    handlers catch, [stop_process] answers with a failure and keeps the
    handle and the information it had. *)
Lemma stop_process_raise_keeps (o : BackendProcess.os) (self : BackendProcess.t)
  (e : Exn.exn) :
  BackendProcess.is_running
    (fst (BackendProcess.get_status (BackendProcess.status_probe o) self)) = true ->
  BackendProcess.terminate_and_wait o = Exn.Raise e ->
  let before :=
    snd (BackendProcess.get_status (BackendProcess.status_probe o) self) in
  let after := BackendProcess.stop_process o self in
  BackendProcess.success (fst after) = false
  /\ BackendProcess.process (snd after) = BackendProcess.process before
  /\ BackendProcess.process_info (snd after)
     = BackendProcess.process_info before.
Proof.
  intros Hrun Hraise. unfold BackendProcess.stop_process.
  destruct (BackendProcess.get_status (BackendProcess.status_probe o) self)
    as [st self1].
  simpl in Hrun. rewrite Hrun, Hraise. unfold BackendProcess._stop_monitoring.
  destruct (BackendProcess.is_monitoring self1); simpl; now repeat split.
Qed.

(** When a call raises in [stop_main_process], the handle stays. *)
Lemma stop_main_process_raise_keeps (o : WebApp.os) (self : WebApp.t)
  (pid : Z) (e : Exn.exn) :
  WebApp.state self = WebApp.Running ->
  WebApp.process self = Some pid ->
  WebApp.terminate_and_wait o = Exn.Raise e ->
  let after := WebApp.stop_main_process o self in
  fst (fst after) = false
  /\ WebApp.state (snd after) = WebApp.Stopped
  /\ WebApp.process (snd after) = Some pid.
Proof.
  intros Hrun Hpid Hraise. unfold WebApp.stop_main_process.
  rewrite Hrun. simpl. rewrite Hpid, Hraise. simpl. now repeat split.
Qed.

(** C1, when a call of the stop sequence raises.  [stop] is to leave the
    state stopped and the handle cleared even then.  The backend manager
    supervises pid 4242 and [terminate] is refused: [stop_process] answers
    with a failure and keeps [process] and [process_info], so that the next
    status query, finding the worker alive, reports it running; the same
    happens when the worker outlives the wait that follows the forced kill.
    The manager of the Flask application, when [terminate] raises, sets its
    state to stopped and keeps the handle and the start time: the status
    query that follows reports "stopped" together with pid 4242. *)
Theorem stop_exception_keeps_handle :
  let denied :=
    BackendProcess.stop_process Samples.backend_denied Samples.backend_running in
  let stuck :=
    BackendProcess.stop_process Samples.backend_stuck Samples.backend_running in
  let flask :=
    WebApp.stop_main_process Samples.webapp_denied Samples.webapp_running in
  (BackendProcess.success (fst denied) = false
   /\ BackendProcess.process (snd denied) = Some 4242%Z
   /\ BackendProcess.process_info (snd denied)
      = Some (BackendProcess.mk_info 4242 "running")
   /\ BackendProcess.is_running
        (fst (BackendProcess.get_status
                (BackendProcess.Alive "running" 0 0 Samples.noon)
                (snd denied))) = true)
  /\ (BackendProcess.success (fst stuck) = false
      /\ BackendProcess.process_info (snd stuck)
         = Some (BackendProcess.mk_info 4242 "running")
      /\ BackendProcess.is_running
           (fst (BackendProcess.get_status
                   (BackendProcess.Alive "running" 0 0 Samples.noon)
                   (snd stuck))) = true)
  /\ (fst (fst flask) = false
      /\ WebApp.state (snd flask) = WebApp.Stopped
      /\ WebApp.process (snd flask) = Some 4242%Z
      /\ WebApp.start_time (snd flask) = Some Samples.noon
      /\ WebApp.info_pid (fst (WebApp.get_status WebApp.Alive (snd flask)))
         = Some 4242%Z).
Proof. vm_compute. now repeat split. Qed.

(** C2, for each of the two managers.  Called while no worker is running, [stop] asks nothing
    of the operating system and answers with the not-running message:
    [stop_process] of the backend with success true and no pid, leaving the
    manager as the status query left it; [stop_main_process] of the Flask
    application with success false, leaving the manager untouched. *)
Theorem stop_when_not_running (o : BackendProcess.os) (self : BackendProcess.t)
  (o' : WebApp.os) (self' : WebApp.t) :
  BackendProcess.is_running
    (fst (BackendProcess.get_status (BackendProcess.status_probe o) self)) = false ->
  WebApp.state self' <> WebApp.Running ->
  BackendProcess.stop_process o self
  = (BackendProcess.mk_reply true "进程未在运行" None,
     snd (BackendProcess.get_status (BackendProcess.status_probe o) self))
  /\ WebApp.stop_main_process o' self' = ((false, "主进程未在运行"), self').
Proof.
  intros Hstopped Hstate. split.
  - unfold BackendProcess.stop_process.
    destruct (BackendProcess.get_status (BackendProcess.status_probe o) self)
      as [st self1].
    simpl in *. now rewrite Hstopped.
  - unfold WebApp.stop_main_process.
    destruct (WebApp.state self') eqn:E; try reflexivity. now elim Hstate.
Qed.

Lemma stop_when_not_running_witness :
  BackendProcess.is_running
    (fst (BackendProcess.get_status
            (BackendProcess.status_probe Samples.backend_quiet)
            BackendProcess.init)) = false
  /\ WebApp.state WebApp.init <> WebApp.Running
  /\ BackendProcess.stop_process Samples.backend_quiet BackendProcess.init
     = (BackendProcess.mk_reply true "进程未在运行" None,
        snd (BackendProcess.get_status
               (BackendProcess.status_probe Samples.backend_quiet)
               BackendProcess.init))
  /\ WebApp.stop_main_process Samples.webapp_quiet WebApp.init
     = ((false, "主进程未在运行"), WebApp.init).
Proof.
  split; [ reflexivity | ].
  split; [ simpl; discriminate | ].
  apply (stop_when_not_running Samples.backend_quiet BackendProcess.init
           Samples.webapp_quiet WebApp.init).
  - reflexivity.
  - simpl. discriminate.
Defined.

(** C2 does not hold of the backend: [stop_process], called on the manager
    [__init__] builds, does not answer with success false. *)
Lemma stop_process_not_running_succeeds :
  BackendProcess.success
    (fst (BackendProcess.stop_process Samples.backend_quiet BackendProcess.init))
  <> false.
Proof. vm_compute. discriminate. Qed.

End Stop.

(** ** Broadcasting to the viewers *)

Section Broadcast.
Import Exn ConnectionManager.

Variable websocket : Type.
Variable same : websocket -> websocket -> bool.
Hypothesis same_identity : forall x y, same x y = true <-> x = y.
Variable send_json : websocket -> result unit.

Lemma existsb_same (x : websocket) (l : list websocket) :
  existsb (same x) l = true <-> In x l.
Proof.
  rewrite existsb_exists. split.
  - intros (y & Hy & Hs). apply same_identity in Hs. now subst.
  - intros H. exists x. split; [ assumption | now apply same_identity ].
Qed.

Lemma remove_first_after (x : websocket) (pre l : list websocket) :
  ~ In x pre -> remove_first websocket same x (pre ++ x :: l) = pre ++ l.
Proof.
  induction pre as [ | y pre IH]; simpl; intros Hn.
  - replace (same x x) with true; [ reflexivity | ].
    symmetry. now apply same_identity.
  - destruct (same x y) eqn:E.
    + apply same_identity in E. subst. elim Hn. now left.
    + f_equal. apply IH. intros H. apply Hn. now right.
Qed.

Lemma disconnect_after (x : websocket) (pre l : list websocket) :
  ~ In x pre -> disconnect websocket same x (pre ++ x :: l) = pre ++ l.
Proof.
  intros Hn. unfold disconnect.
  replace (existsb (same x) (pre ++ x :: l)) with true.
  - now apply remove_first_after.
  - symmetry. apply existsb_same. apply in_or_app. right. now left.
Qed.

(** Disconnecting the failed connections, in the order of their sends,
    leaves the connections whose send succeeded, in their order. *)
Lemma disconnect_failed (l : list websocket) : forall pre : list websocket,
  (forall c, In c pre -> send_fails websocket send_json c = false) ->
  fold_left (fun acc c => disconnect websocket same c acc)
    (filter (send_fails websocket send_json) l) (pre ++ l)
  = pre ++ filter (fun c => negb (send_fails websocket send_json c)) l.
Proof.
  induction l as [ | x l IH]; intros pre Hpre; simpl.
  - reflexivity.
  - destruct (send_fails websocket send_json x) eqn:Hx; simpl.
    + rewrite disconnect_after.
      * now apply IH.
      * intros Hin. apply Hpre in Hin. congruence.
    + change (pre ++ x :: l) with (pre ++ [x] ++ l).
      rewrite app_assoc, IH.
      * now rewrite <- app_assoc.
      * intros c Hc. apply in_app_or in Hc as [Hc | [<- | []]];
          [ now apply Hpre | assumption ].
Qed.

(** On a list that no task changes, the first loop never raises: it makes
    every send and collects the connections whose send raised. *)
Lemma send_to_rest_done (l : list websocket) : forall p : progress websocket,
  send_to_rest websocket send_json l p
  = Done (mk_progress websocket (attempted websocket p ++ l)
            (disconnected websocket p
             ++ filter (send_fails websocket send_json) l)).
Proof.
  induction l as [ | x l IH]; intros p; simpl.
  - now rewrite !app_nil_r; destruct p.
  - unfold send_one, send_fails at 1.
    destruct (send_json x) as [[] | e]; simpl; rewrite IH; simpl;
      now rewrite <- !app_assoc.
Qed.

Lemma send_one_done (c : websocket) (p : progress websocket) :
  send_one websocket send_json c p
  = Done (mk_progress websocket (attempted websocket p ++ [c])
            (disconnected websocket p
             ++ (if send_fails websocket send_json c then [c] else []))).
Proof.
  unfold send_one, send_fails.
  destruct (send_json c) as [[] | e]; simpl; [ | reflexivity ].
  now rewrite app_nil_r.
Qed.

Lemma skipn_nth_error (l : list websocket) : forall (i : nat) (c : websocket),
  nth_error l i = Some c -> skipn i l = c :: skipn (S i) l.
Proof.
  induction l as [ | x l IH]; intros [ | i] c H; simpl in *;
    try discriminate.
  - now injection H as ->.
  - now apply IH.
Qed.

(** While no task changes the list, the walk by index makes the sends that
    the walk over a copy makes. *)
Lemma send_to_all_quiet (schedule : list (list (change websocket)))
  (active : list websocket) :
  Forall (fun during => during = []) schedule ->
  forall (index : nat) (p : progress websocket),
    send_to_all websocket same send_json schedule index active p
    = Done (mk_progress websocket
              (attempted websocket p ++ skipn index active)
              (disconnected websocket p
               ++ filter (send_fails websocket send_json) (skipn index active)),
            active).
Proof.
  induction 1 as [ | during later Hq _ IH]; intros index p.
  - cbn [send_to_all]. now rewrite send_to_rest_done.
  - subst during. cbn [send_to_all apply_changes fold_left].
    destruct (nth_error active index) as [c | ] eqn:E.
    + rewrite send_one_done. cbn [bind]. rewrite IH.
      rewrite (skipn_nth_error active index c E).
      cbn [attempted disconnected filter].
      destruct (send_fails websocket send_json c);
        now rewrite <- !app_assoc.
    + apply nth_error_None in E. rewrite (skipn_all2 active E).
      cbn [filter]. rewrite !app_nil_r. now destruct p.
Qed.

(** The first loop never raises, whatever the other tasks do: the exception
    of a failed send is caught where it is raised. *)
Lemma send_to_all_returns (schedule : list (list (change websocket))) :
  forall (index : nat) (active : list websocket) (p : progress websocket),
  exists after,
    send_to_all websocket same send_json schedule index active p = Done after.
Proof.
  induction schedule as [ | during later IH]; intros index active p.
  - cbn [send_to_all]. rewrite send_to_rest_done. cbn [bind]. now eexists.
  - cbn [send_to_all]. destruct (nth_error active index) as [c | ].
    + rewrite send_one_done. cbn [bind]. apply IH.
    + now eexists.
Qed.

(** [broadcast_log] always returns. *)
Lemma broadcast_log_returns (schedule : list (list (change websocket)))
  (active : list websocket) :
  exists b, broadcast_log websocket same send_json schedule active = Done b.
Proof.
  unfold broadcast_log. destruct active as [ | a l]; [ now eexists | ].
  destruct (send_to_all_returns schedule 0 (a :: l) (mk_progress websocket [] []))
    as [[p active'] ->].
  cbn [bind]. now eexists.
Qed.

(** What one call of [broadcast_log] does while no task changes the list. *)
Lemma broadcast_log_done (schedule : list (list (change websocket)))
  (active : list websocket) :
  Forall (fun during => during = []) schedule ->
  broadcast_log websocket same send_json schedule active
  = Done (mk_broadcast websocket active
            (filter (send_fails websocket send_json) active)
            (filter (fun c => negb (send_fails websocket send_json c)) active)).
Proof.
  intros Hq. destruct active as [ | a l]; [ reflexivity | ].
  unfold broadcast_log. rewrite (send_to_all_quiet schedule (a :: l) Hq).
  cbn [bind skipn attempted disconnected app]. f_equal. f_equal.
  apply (disconnect_failed (a :: l) []). intros c [].
Qed.

(** One call of [broadcast_log] during which no other task changes the list
    of connections.  The call returns whatever the sends do; the entry is
    sent to every registered connection, whatever happens to the others, and
    on return the registered connections are exactly those whose send
    succeeded, in their order: every connection whose send failed has been
    removed. *)
Lemma broadcast_isolates_failures
  (schedule : list (list (change websocket))) (active : list websocket) :
  Forall (fun during => during = []) schedule ->
  exists b,
    broadcast_log websocket same send_json schedule active = Done b
    /\ sent_to websocket b = active
    /\ failed websocket b = filter (send_fails websocket send_json) active
    /\ remaining websocket b
       = filter (fun c => negb (send_fails websocket send_json c)) active
    /\ (forall c, In c active -> send_fails websocket send_json c = true ->
          ~ In c (remaining websocket b))
    /\ (forall c, In c active -> send_fails websocket send_json c = false ->
          In c (remaining websocket b)).
Proof.
  intros Hq. eexists. split; [ now apply broadcast_log_done | ]. simpl.
  repeat split; try reflexivity.
  - intros c _ Hfail Hin. apply filter_In in Hin as [_ Hok].
    rewrite Hfail in Hok. discriminate.
  - intros c Hin Hok. apply filter_In. split; [ assumption | ].
    now rewrite Hok.
Qed.

End Broadcast.

(** The three viewers, with the second one gone, and no other task at work:
    the first and the third are sent the entry, the second is removed. *)
Lemma broadcast_to_viewers :
  ConnectionManager.broadcast_log nat Nat.eqb Samples.send_to_viewer
    [[]; []; []] Samples.viewers
  = Exn.Done (ConnectionManager.mk_broadcast nat [1; 2; 3] [2] [1; 3])%nat.
Proof. reflexivity. Qed.

(** C9, when the session of a subscriber ends during the publish.  The
    remote end of the second of three viewers is gone: the send to it raises,
    and while that send is awaited the session of the same viewer ends and
    its [finally] calls [disconnect].  The list walked by the loop is now
    one shorter, the index of the iterator is past its end, and the loop
    stops.  The call returns, and the second viewer is no longer registered;
    but the third viewer, whose send would have succeeded and who is
    registered before, during and after the call, was never sent the
    entry. *)
Theorem broadcast_skips_subscriber :
  exists b,
    ConnectionManager.broadcast_log nat Nat.eqb Samples.send_to_viewer
      [[]; [ConnectionManager.Disconnects nat 2%nat]] Samples.viewers
    = Exn.Done b
    /\ ConnectionManager.sent_to nat b = [1; 2]%nat
    /\ ConnectionManager.failed nat b = [2]%nat
    /\ ConnectionManager.remaining nat b = [1; 3]%nat
    /\ In 3%nat Samples.viewers
    /\ ConnectionManager.send_fails nat Samples.send_to_viewer 3%nat = false
    /\ ~ In 3%nat (ConnectionManager.sent_to nat b)
    /\ In 3%nat (ConnectionManager.remaining nat b).
Proof.
  eexists. split; [ reflexivity | ]. cbn.
  repeat (split; [ reflexivity || tauto | ]).
  split; [ | tauto ].
  intros [H | [H | []]]; discriminate.
Qed.

(** The same loss without any failure: all sends succeed, and the session of
    the first viewer ends while the send to it is awaited.  The second
    viewer moves to the index the iterator has just left and is passed
    over. *)
Lemma broadcast_passes_over_next :
  ConnectionManager.broadcast_log nat Nat.eqb (fun _ => Exn.Done tt)
    [[ConnectionManager.Disconnects nat 1%nat]] Samples.viewers
  = Exn.Done (ConnectionManager.mk_broadcast nat [1; 3] [] [2; 3])%nat.
Proof. reflexivity. Qed.

(** * Further properties of the services *)

(** ** Trimming *)

Section TrimFacts.

Lemma rstrip_idempotent (s : string) :
  PyStr.rstrip (PyStr.rstrip s) = PyStr.rstrip s.
Proof.
  induction s as [ | c s IH]; simpl; [ reflexivity | ].
  destruct (PyStr.rstrip s) as [ | c' r] eqn:E.
  - destruct (PyStr.isspace c) eqn:Hc; simpl; [ reflexivity | now rewrite Hc ].
  - change (PyStr.rstrip (String c (String c' r)))
      with (match PyStr.rstrip (String c' r) with
            | EmptyString =>
                if PyStr.isspace c then EmptyString else String c EmptyString
            | x => String c x
            end).
    now rewrite IH.
Qed.

Lemma lstrip_head (s : string) :
  PyStr.lstrip s = EmptyString
  \/ exists c r, PyStr.lstrip s = String c r /\ PyStr.isspace c = false.
Proof.
  induction s as [ | c s IH]; simpl; [ now left | ].
  destruct (PyStr.isspace c) eqn:Hc; [ assumption | ].
  right. now exists c, s.
Qed.

Lemma lstrip_fixed (c : ascii) (r : string) :
  PyStr.isspace c = false -> PyStr.lstrip (String c r) = String c r.
Proof. intros H. simpl. now rewrite H. Qed.

(** [s.strip().strip() == s.strip()] *)
Lemma strip_idempotent (s : string) :
  PyStr.strip (PyStr.strip s) = PyStr.strip s.
Proof.
  unfold PyStr.strip.
  destruct (lstrip_head s) as [-> | (c & r & -> & Hc)]; [ reflexivity | ].
  destruct (rstrip_head c r Hc) as [r' Hr]. rewrite Hr.
  rewrite (lstrip_fixed c r' Hc), <- Hr. apply rstrip_idempotent.
Qed.

Lemma lstrip_length (s : string) :
  (String.length (PyStr.lstrip s) <= String.length s)%nat.
Proof.
  induction s as [ | c s IH]; simpl; [ lia | ].
  destruct (PyStr.isspace c); simpl; lia.
Qed.

Lemma rstrip_length (s : string) :
  (String.length (PyStr.rstrip s) <= String.length s)%nat.
Proof.
  induction s as [ | c s IH]; simpl; [ lia | ].
  destruct (PyStr.rstrip s); [ destruct (PyStr.isspace c) | ]; simpl in *; lia.
Qed.

Lemma strip_length (s : string) :
  (String.length (PyStr.strip s) <= String.length s)%nat.
Proof.
  unfold PyStr.strip.
  pose proof (rstrip_length (PyStr.lstrip s)). pose proof (lstrip_length s). lia.
Qed.

End TrimFacts.

(** ** What the patterns capture *)

Section CaptureFacts.
Import Regex.

Lemma star_greedy_some {R : Type} (cl : cclass) (s : string) :
  forall (k : string -> option R) (res : R),
  star_greedy cl s k = Some res ->
  exists pre s',
    s = (pre ++ s')%string
    /\ PyStr.all_chars (cmatch cl) pre = true
    /\ k s' = Some res.
Proof.
  induction s as [ | c s IH]; intros k res H; cbn [star_greedy] in H.
  - now exists EmptyString, EmptyString.
  - destruct (cmatch cl c) eqn:Hc.
    + destruct (star_greedy cl s k) as [r | ] eqn:E.
      * injection H as ->. destruct (IH k res E) as (pre & s' & -> & Hpre & Hk).
        exists (String c pre), s'. cbn [append PyStr.all_chars].
        now rewrite Hc, Hpre.
      * now exists EmptyString, (String c s).
    + now exists EmptyString, (String c s).
Qed.

Lemma star_lazy_some {R : Type} (cl : cclass) (s : string) :
  forall (k : string -> option R) (res : R),
  star_lazy cl s k = Some res ->
  exists s', k s' = Some res /\ (String.length s' <= String.length s)%nat.
Proof.
  induction s as [ | c s IH]; intros k res H; cbn [star_lazy] in H.
  - destruct (k EmptyString) eqn:E; [ | discriminate ].
    injection H as ->. now exists EmptyString.
  - destruct (k (String c s)) eqn:E.
    + injection H as ->. now exists (String c s).
    + destruct (cmatch cl c); [ | discriminate ].
      destruct (IH k res H) as (s' & Hk & Hlen).
      exists s'. split; [ assumption | ]. cbn [String.length]. lia.
Qed.

Lemma one_some {R : Type} (cl : cclass) (s : string)
  (k : string -> option R) (res : R) :
  one cl s k = Some res ->
  exists c s', s = String c s' /\ cmatch cl c = true /\ k s' = Some res.
Proof.
  destruct s as [ | c s]; cbn [one]; [ discriminate | ].
  destruct (cmatch cl c) eqn:Hc; [ | discriminate ].
  intros H. now exists c, s.
Qed.

Lemma rep_some {R : Type} (n : nat) (cl : cclass) :
  forall (s : string) (k : string -> option R) (res : R),
  rep n cl s k = Some res ->
  exists s', k s' = Some res /\ (String.length s' <= String.length s)%nat.
Proof.
  induction n as [ | n IH]; intros s k res H; cbn [rep] in H.
  - now exists s.
  - destruct (one_some cl s _ res H) as (c & s1 & -> & _ & H1).
    destruct (IH s1 k res H1) as (s' & Hk & Hlen).
    exists s'. split; [ assumption | ]. cbn [String.length]. lia.
Qed.

Lemma lit_some {R : Type} (w s : string) (k : string -> option R) (res : R) :
  lit w s k = Some res ->
  exists s', k s' = Some res /\ (String.length s' <= String.length s)%nat.
Proof.
  unfold lit. destruct (String.prefix w s); [ | discriminate ].
  intros H. exists (PyStr.skip (String.length w) s).
  split; [ assumption | ]. rewrite skip_length. lia.
Qed.

Lemma alt_some {R : Type} (ws : list string) (s : string)
  (k : string -> option R) (res : R) :
  alt ws s k = Some res ->
  exists s', k s' = Some res /\ (String.length s' <= String.length s)%nat.
Proof.
  induction ws as [ | w ws IH]; cbn [alt]; [ discriminate | ].
  destruct (lit w s k) as [r | ] eqn:E; [ | exact IH ].
  intros H. injection H as ->. now apply (lit_some w).
Qed.

Lemma plus_some {R : Type} (cl : cclass) (s : string)
  (k : string -> option R) (res : R) :
  one cl s (fun s1 => star_greedy cl s1 k) = Some res ->
  exists pre s',
    s = (pre ++ s')%string
    /\ pre <> EmptyString
    /\ PyStr.all_chars (cmatch cl) pre = true
    /\ k s' = Some res.
Proof.
  intros H. destruct (one_some cl s _ res H) as (c & s1 & -> & Hc & H1).
  destruct (star_greedy_some cl s1 k res H1) as (pre & s' & -> & Hpre & Hk).
  exists (String c pre), s'. cbn [append PyStr.all_chars].
  rewrite Hc, Hpre. now repeat split.
Qed.

Lemma consumed_append (pre s' : string) :
  consumed (pre ++ s') s' = pre.
Proof.
  unfold consumed. rewrite length_append.
  replace (String.length pre + String.length s' - String.length s')%nat
    with (String.length pre) by lia.
  induction pre as [ | c pre IH]; cbn [append String.length PyStr.take].
  - now destruct s'.
  - now rewrite IH.
Qed.

Lemma line_within_other (n : nat) (name v : string) (g : groups) :
  String.eqb name "line" = false ->
  line_within n g -> line_within n ((name, v) :: g).
Proof.
  intros Hname H. unfold line_within. cbn [get]. now rewrite Hname.
Qed.

(** A match of a pattern leaves its continuation a suffix of the text, and
    a group [line] that holds digits of the text. *)
Lemma run_some {R : Type} (r : regex) :
  line_is_digits r = true ->
  forall (s : string) (g : groups) (k : string -> groups -> option R)
         (res : R),
  run r s g k = Some res ->
  exists s' g',
    k s' g' = Some res
    /\ (String.length s' <= String.length s)%nat
    /\ (forall n : nat,
          (String.length s <= n)%nat -> line_within n g -> line_within n g').
Proof.
  induction r as [w | cl | cl | cl | cl | m cl | ws | name r1 IH1
                  | r1 IH1 r2 IH2];
    intros Hwf s g k res H; cbn [run] in H.
  - destruct (lit_some w s _ res H) as (s' & Hk & Hlen). now exists s', g.
  - destruct (one_some cl s _ res H) as (c & s' & -> & _ & Hk).
    exists s', g. cbn [String.length]. repeat split; [ assumption | lia | tauto ].
  - destruct (star_greedy_some cl s _ res H) as (pre & s' & -> & _ & Hk).
    exists s', g. rewrite length_append.
    repeat split; [ assumption | lia | tauto ].
  - destruct (star_lazy_some cl s _ res H) as (s' & Hk & Hlen). now exists s', g.
  - destruct (plus_some cl s _ res H) as (pre & s' & -> & _ & _ & Hk).
    exists s', g. rewrite length_append.
    repeat split; [ assumption | lia | tauto ].
  - destruct (rep_some m cl s _ res H) as (s' & Hk & Hlen). now exists s', g.
  - destruct (alt_some ws s _ res H) as (s' & Hk & Hlen). now exists s', g.
  - cbn [line_is_digits] in Hwf.
    destruct (String.eqb name "line") eqn:Hname.
    + destruct r1 as [ | | | | [ | | | | | ] | | | | ]; try discriminate.
      cbn [run] in H.
      destruct (plus_some CDigit s _ res H) as (pre & s' & -> & _ & Hpre & Hk).
      rewrite consumed_append in Hk.
      exists s', ((name, pre) :: g). rewrite length_append.
      split; [ assumption | ]. split; [ lia | ].
      intros n Hn _. unfold line_within. cbn [get]. rewrite Hname.
      split; [ exact Hpre | lia ].
    + destruct (IH1 Hwf s g _ res H) as (s' & g' & Hk & Hlen & Hinv).
      exists s', ((name, consumed s s') :: g').
      split; [ assumption | ]. split; [ assumption | ].
      intros n Hn Hg. apply line_within_other; [ assumption | ].
      now apply Hinv.
  - cbn [line_is_digits] in Hwf. apply andb_true_iff in Hwf as [Hwf1 Hwf2].
    destruct (IH1 Hwf1 s g _ res H) as (s1 & g1 & H1 & Hlen1 & Hinv1).
    destruct (IH2 Hwf2 s1 g1 k res H1) as (s2 & g2 & H2 & Hlen2 & Hinv2).
    exists s2, g2. split; [ assumption | ]. split; [ lia | ].
    intros n Hn Hg. apply Hinv2; [ lia | ]. now apply Hinv1.
Qed.

Lemma rmatch_line_within (r : regex) (s : string) (g : groups) (n : nat) :
  line_is_digits r = true ->
  (String.length s <= n)%nat ->
  rmatch r s = Some g ->
  line_within n g.
Proof.
  intros Hwf Hn H. unfold rmatch in H.
  destruct (run_some r Hwf s [] _ g H) as (s' & g' & Hk & _ & Hinv).
  injection Hk as ->. apply Hinv; [ assumption | exact I ].
Qed.

Lemma first_match_line_within (s name : string) (g : groups) (n : nat) :
  (String.length s <= n)%nat ->
  LogMonitor.first_match LogMonitor.log_patterns s = Some (name, g) ->
  line_within n g.
Proof.
  intros Hn H.
  destruct (first_match_is_first _ _ _ _ H) as (before & p & after & Hps & Hp & _).
  apply (rmatch_line_within p s g n); [ | assumption | assumption ].
  assert (Hall : forall q, In q LogMonitor.log_patterns ->
                           line_is_digits (snd q) = true).
  { intros q [<- | [<- | [<- | []]]]; reflexivity. }
  apply (Hall (name, p)). rewrite Hps. apply in_or_app. right. now left.
Qed.

Lemma digit_not_space (c : ascii) :
  PyStr.isdigit c = true -> PyStr.isspace_c c = false.
Proof.
  unfold PyStr.isdigit, PyStr.isspace_c. intros H.
  apply andb_true_iff in H as [H1 H2].
  apply Nat.leb_le in H1. apply Nat.leb_le in H2.
  apply orb_false_iff. split.
  - apply andb_false_iff. right. apply Nat.leb_gt. lia.
  - apply Nat.eqb_neq. lia.
Qed.

Lemma rstrip_c_digits (v : string) :
  PyStr.all_chars PyStr.isdigit v = true -> PyStr.rstrip_c v = v.
Proof.
  induction v as [ | c v IH]; cbn [PyStr.all_chars PyStr.rstrip_c];
    [ reflexivity | ].
  intros H. apply andb_true_iff in H as [Hc Hv]. rewrite (IH Hv).
  destruct v; [ | reflexivity ]. now rewrite (digit_not_space c Hc).
Qed.

Lemma scan_digits_all (v : string) :
  PyStr.all_chars PyStr.isdigit v = true ->
  forall after_digit : bool,
    v <> EmptyString \/ after_digit = true ->
    PyStr.scan_digits v after_digit = Some v.
Proof.
  induction v as [ | c v IH]; cbn [PyStr.all_chars PyStr.scan_digits];
    intros H b Hb.
  - destruct Hb as [Hb | ->]; [ now elim Hb | reflexivity ].
  - apply andb_true_iff in H as [Hc Hv]. rewrite Hc.
    rewrite (IH Hv true) by now right. reflexivity.
Qed.

Lemma to_int_unsigned (c : ascii) (r : string) :
  PyStr.isdigit c = true ->
  PyStr.rstrip_c (PyStr.lstrip_c (String c r)) = String c r ->
  PyStr.to_int (String c r)
  = PyStr.digits_value (PyStr.scan_digits (String c r) false).
Proof.
  intros Hc Hstrip. unfold PyStr.to_int. rewrite Hstrip.
  destruct c as [[] [] [] [] [] [] [] []]; try reflexivity;
    vm_compute in Hc; discriminate Hc.
Qed.

(** [int] converts every run of at most 4300 digits. *)
Lemma to_int_digits (v : string) :
  PyStr.all_chars PyStr.isdigit v = true ->
  v <> EmptyString ->
  (String.length v <= 4300)%nat ->
  PyStr.to_int v = Some (PyStr.int_of v).
Proof.
  intros Hv Hne Hlen. destruct v as [ | c r]; [ now elim Hne | ].
  pose proof Hv as Hall. cbn [PyStr.all_chars] in Hv.
  apply andb_true_iff in Hv as [Hc Hr].
  rewrite (to_int_unsigned c r Hc).
  - rewrite (scan_digits_all (String c r) Hall false) by (left; discriminate).
    unfold PyStr.digits_value, PyStr.max_str_digits.
    destruct (Z.leb_spec (Z.of_nat (String.length (String c r))) 4300);
      [ reflexivity | lia ].
  - cbn [PyStr.lstrip_c]. rewrite (digit_not_space c Hc).
    now apply rstrip_c_digits.
Qed.

(** On a text of at most 4300 bytes that a pattern matches, the conversion
    of the line number does not raise. *)
Lemma line_number_returns (s name : string) (g : groups) :
  (String.length s <= 4300)%nat ->
  LogMonitor.first_match LogMonitor.log_patterns s = Some (name, g) ->
  LogMonitor.line_number g <> None.
Proof.
  intros Hlen H. pose proof (first_match_line_within s name g 4300 Hlen H) as Hg.
  unfold line_within in Hg. unfold LogMonitor.line_number.
  destruct (get "line" g) as [v | ]; [ | discriminate ].
  destruct Hg as [Hdigits Hv].
  destruct v as [ | c r]; [ discriminate | ]. cbn [PyStr.truthy].
  rewrite (to_int_digits (String c r) Hdigits) by (discriminate || assumption).
  discriminate.
Qed.

End CaptureFacts.

(** ** [LogMonitor]: parsing a batch, loading the history, counting *)

Section MonitorFacts.
Import PyDatetime LogFile LogMonitor.

(** Whenever [_parse_log_line] returns, the entry keeps the line as it came,
    and its message carries no whitespace at either end. *)
Lemma parse_log_line_raw (now : datetime) (line : string) (e : log_entry) :
  _parse_log_line now line = Some e ->
  raw_line e = line /\ PyStr.strip (message e) = message e.
Proof.
  unfold _parse_log_line.
  destruct (first_match log_patterns (PyStr.strip line)) as [[name g] | ].
  - destruct (line_number g) as [line_value | ]; [ | discriminate ].
    intros H. injection H as <-. cbn [raw_line message].
    split; [ reflexivity | apply strip_idempotent ].
  - intros H. injection H as <-. cbn [raw_line message].
    split; [ reflexivity | apply strip_idempotent ].
Qed.

(** On a line of at most 4300 bytes [_parse_log_line] does not raise. *)
Lemma parse_log_line_returns (now : datetime) (line : string) :
  within_int_limit line = true ->
  exists e, _parse_log_line now line = Some e.
Proof.
  unfold within_int_limit, PyStr.max_str_digits. intros Hlen.
  apply Z.leb_le in Hlen. unfold _parse_log_line.
  destruct (first_match log_patterns (PyStr.strip line)) as [[name g] | ] eqn:E;
    [ | now eexists ].
  pose proof (strip_length line) as Hstrip.
  pose proof (line_number_returns (PyStr.strip line) name g ltac:(lia) E) as Hn.
  destruct (line_number g) as [line_value | ]; [ now eexists | now elim Hn ].
Qed.

(** X1.
    On every line of at most 4300 bytes, the limit under which [int]
    converts any run of digits, [_parse_log_line] returns an entry; and
    whenever it returns, on a line of any length, the entry keeps the line
    as it came and its message carries no whitespace at either end. *)
Theorem parse_log_line_always_entry (now : datetime) (line : string) :
  (within_int_limit line = true ->
   exists e, _parse_log_line now line = Some e)
  /\ (forall e, _parse_log_line now line = Some e ->
        raw_line e = line /\ PyStr.strip (message e) = message e).
Proof.
  split.
  - apply parse_log_line_returns.
  - intros e. apply parse_log_line_raw.
Qed.

Lemma parse_log_line_always_entry_witness :
  (within_int_limit Samples.loguru_line = true ->
   exists e, _parse_log_line Samples.noon Samples.loguru_line = Some e)
  /\ (forall e, _parse_log_line Samples.noon Samples.loguru_line = Some e ->
        raw_line e = Samples.loguru_line
        /\ PyStr.strip (message e) = message e)
  /\ within_int_limit Samples.loguru_line = true
  /\ exists e,
       _parse_log_line Samples.noon Samples.loguru_line = Some e
       /\ raw_line e = Samples.loguru_line
       /\ PyStr.strip (message e) = message e.
Proof.
  pose proof (parse_log_line_always_entry Samples.noon Samples.loguru_line)
    as [Hreturns Hraw].
  split; [ exact Hreturns | ]. split; [ exact Hraw | ].
  split; [ reflexivity | ].
  destruct (Hreturns eq_refl) as [e He].
  exists e. split; [ exact He | now apply Hraw ].
Defined.

(** The entries appended by the loop come from the first lines that are not
    blank, in order, one entry for each. *)
Lemma appended_raw_prefix (now : datetime) (lines : list string) :
  exists k,
    map raw_line (appended (parse_lines now lines))
    = firstn k (filter (fun l => PyStr.truthy (PyStr.strip l)) lines).
Proof.
  induction lines as [ | l lines [k IH]]; cbn [parse_lines filter].
  - now exists 0%nat.
  - destruct (PyStr.truthy (PyStr.strip l)); cbn [negb].
    + destruct (_parse_log_line now l) as [e | ] eqn:E; cbn [appended map].
      * exists (S k). cbn [firstn].
        destruct (parse_log_line_raw now l e E) as [-> _]. now rewrite IH.
      * now exists 0%nat.
    + now exists k.
Qed.

(** While every line is short enough, no call raises and every line that is
    not blank gives its entry. *)
Lemma parse_lines_raw (now : datetime) (lines : list string) :
  forallb within_int_limit lines = true ->
  raises (parse_lines now lines) = false
  /\ map raw_line (appended (parse_lines now lines))
     = filter (fun l => PyStr.truthy (PyStr.strip l)) lines.
Proof.
  induction lines as [ | l lines IH]; cbn [forallb parse_lines filter];
    intros H; [ now split | ].
  apply andb_true_iff in H as [Hl Hlines]. destruct (IH Hlines) as [IH1 IH2].
  destruct (PyStr.truthy (PyStr.strip l)); cbn [negb]; [ | now split ].
  destruct (parse_log_line_returns now l Hl) as [e He]. rewrite He.
  destruct (parse_log_line_raw now l e He) as [Hraw _].
  unfold raises in *. cbn [existsb appended map orb].
  split; [ assumption | ]. now rewrite Hraw, IH2.
Qed.

Lemma parse_log_content_lines (now : datetime) (content : string) :
  forallb within_int_limit (PyStr.split_lines (PyStr.strip content)) = true ->
  exists entries,
    _parse_log_content now content = Some entries
    /\ map raw_line entries
       = filter (fun l => PyStr.truthy (PyStr.strip l))
           (PyStr.split_lines (PyStr.strip content)).
Proof.
  intros H. unfold _parse_log_content.
  destruct (parse_lines_raw now _ H) as [-> Hraw]. now eexists.
Qed.

(** X2.
    While every line of the trimmed content has at most 4300 bytes,
    [_parse_log_content] returns, with exactly one entry for each line that
    is not blank, in the order of the lines. *)
Theorem parse_log_content_entry_per_line (now : datetime) (content : string) :
  forallb within_int_limit (PyStr.split_lines (PyStr.strip content)) = true ->
  exists entries,
    _parse_log_content now content = Some entries
    /\ map raw_line entries
       = filter (fun l => PyStr.truthy (PyStr.strip l))
           (PyStr.split_lines (PyStr.strip content)).
Proof. apply parse_log_content_lines. Qed.

Lemma parse_log_content_entry_per_line_witness :
  forallb within_int_limit
    (PyStr.split_lines
       (PyStr.strip (Samples.started ++ Samples.with_newline Samples.loguru_line)))
  = true
  /\ exists entries,
       _parse_log_content Samples.noon
         (Samples.started ++ Samples.with_newline Samples.loguru_line)
       = Some entries
       /\ map raw_line entries
          = filter (fun l => PyStr.truthy (PyStr.strip l))
              (PyStr.split_lines
                 (PyStr.strip
                    (Samples.started ++ Samples.with_newline Samples.loguru_line))).
Proof.
  split; [ vm_compute; reflexivity | ].
  apply (parse_log_content_entry_per_line Samples.noon
           (Samples.started ++ Samples.with_newline Samples.loguru_line)).
  vm_compute. reflexivity.
Defined.

Lemma filter_length_le {A : Type} (f : A -> bool) (l : list A) :
  (length (filter f l) <= length l)%nat.
Proof.
  induction l as [ | x l IH]; simpl; [ lia | ].
  destruct (f x); simpl; lia.
Qed.

(** X3.
    [_load_recent_logs] keeps the entries already in the buffer and never
    trims it.  It appends one entry for each of the last [tail_lines] lines
    of the text of the file that is not blank, in order, up to the first
    line on which [_parse_log_line] raises: all of them while these lines
    have at most 4300 bytes each, and at most [tail_lines] entries in any
    case. *)
Theorem load_recent_logs_appends (now : datetime) (content : string) (self : t) :
  (0 < tail_lines self)%Z ->
  let recent_lines :=
    PySlice.lastn (Z.to_nat (tail_lines self))
      (PyStr.readlines (text_from 0 content)) in
  exists added,
    log_buffer (_load_recent_logs now (Present content true) self)
    = log_buffer self ++ added
    /\ (exists k,
          map raw_line added
          = firstn k (filter (fun l => PyStr.truthy (PyStr.strip l))
                        recent_lines))
    /\ (forallb within_int_limit recent_lines = true ->
        map raw_line added
        = filter (fun l => PyStr.truthy (PyStr.strip l)) recent_lines)
    /\ (Z.of_nat (length added) <= tail_lines self)%Z.
Proof.
  intros Hpos recent_lines. eexists. split; [ reflexivity | ].
  rewrite last_if_longer_lastn by assumption. fold recent_lines.
  split; [ apply appended_raw_prefix | ].
  split; [ intros H; now apply parse_lines_raw | ].
  destruct (appended_raw_prefix now recent_lines) as [k Hk].
  rewrite <- (length_map raw_line), Hk, length_firstn.
  pose proof (filter_length_le (fun l => PyStr.truthy (PyStr.strip l))
                recent_lines) as Hle.
  unfold recent_lines in Hle at 2. rewrite lastn_length in Hle. lia.
Qed.

Lemma load_recent_logs_appends_witness :
  (0 < tail_lines init)%Z
  /\ let recent_lines :=
       PySlice.lastn (Z.to_nat (tail_lines init))
         (PyStr.readlines (text_from 0 Samples.started)) in
     exists added,
       log_buffer (_load_recent_logs Samples.noon
                     (Present Samples.started true) init)
       = log_buffer init ++ added
       /\ (exists k,
             map raw_line added
             = firstn k (filter (fun l => PyStr.truthy (PyStr.strip l))
                           recent_lines))
       /\ (forallb within_int_limit recent_lines = true ->
           map raw_line added
           = filter (fun l => PyStr.truthy (PyStr.strip l)) recent_lines)
       /\ (Z.of_nat (length added) <= tail_lines init)%Z.
Proof.
  split.
  - reflexivity.
  - apply (load_recent_logs_appends Samples.noon Samples.started init).
    reflexivity.
Defined.

(** A file that is missing or cannot be read leaves the monitor as it
    is. *)
Lemma load_recent_logs_no_file (now : datetime) (content : string) (self : t) :
  _load_recent_logs now Missing self = self
  /\ _load_recent_logs now (Present content false) self = self.
Proof. now split. Qed.

Lemma bump_count (k k' : string) (d : list (string * nat)) :
  count_of k' (bump k d)
  = ((if String.eqb k k' then 1 else 0) + count_of k' d)%nat.
Proof.
  induction d as [ | [k0 n] d IH]; simpl.
  - now destruct (String.eqb k k').
  - destruct (String.eqb_spec k0 k) as [-> | Hne]; simpl.
    + destruct (String.eqb_spec k k'); lia.
    + destruct (String.eqb_spec k0 k') as [-> | Hne'].
      * destruct (String.eqb_spec k k') as [-> | _]; [ now elim Hne | lia ].
      * assumption.
Qed.

Lemma count_levels_spec (entries : list log_entry) :
  forall (counts : list (string * nat)) (errors : list (string * string)),
  (length errors <= 10)%nat ->
  (forall k,
     count_of k (fst (count_levels entries counts errors))
     = (length (filter (fun e => String.eqb (level e) k) entries)
        + count_of k counts)%nat)
  /\ snd (count_levels entries counts errors)
     = errors ++ map error_summary
                   (firstn (10 - length errors) (filter is_error entries)).
Proof.
  induction entries as [ | e entries IH]; intros counts errors Hlen.
  - cbn [count_levels filter fst snd length].
    split; [ reflexivity | ]. now rewrite firstn_nil, app_nil_r.
  - cbn [count_levels filter].
    assert (Hcount : forall errors' k,
      (length errors' <= 10)%nat ->
      count_of k (fst (count_levels entries (bump (level e) counts) errors'))
      = (length (if String.eqb (level e) k
                 then e :: filter (fun e0 => String.eqb (level e0) k) entries
                 else filter (fun e0 => String.eqb (level e0) k) entries)
         + count_of k counts)%nat).
    { intros errors' k Hlen'.
      destruct (IH (bump (level e) counts) errors' Hlen') as [Hc _].
      rewrite Hc, bump_count.
      destruct (String.eqb (level e) k); cbn [length]; lia. }
    destruct (is_error e) eqn:He; cbn [andb].
    + destruct (Nat.ltb_spec (length errors) 10) as [Hlt | Hge].
      * assert (Hlen' : (length (errors ++ [error_summary e]) <= 10)%nat)
          by (rewrite length_app; cbn [length]; lia).
        split; [ intros k; now apply Hcount | ].
        destruct (IH (bump (level e) counts) (errors ++ [error_summary e]) Hlen')
          as [_ Hs].
        rewrite Hs, length_app. cbn [length].
        replace (10 - length errors)%nat
          with (S (10 - (length errors + 1)))%nat by lia.
        cbn [firstn map]. now rewrite <- app_assoc.
      * split; [ intros k; now apply Hcount | ].
        destruct (IH (bump (level e) counts) errors Hlen) as [_ Hs].
        rewrite Hs. replace (10 - length errors)%nat with 0%nat by lia.
        reflexivity.
    + split; [ intros k; now apply Hcount | ].
      destruct (IH (bump (level e) counts) errors Hlen) as [_ Hs].
      exact Hs.
Qed.

(** X4.
    [get_log_statistics] counts, for every level, the entries of the buffer
    that carry it, and counts them all in [total_count].  Its
    [recent_errors] are the first ten ERROR or CRITICAL entries of the
    buffer, oldest first, each with its message cut to 100 characters:
    errors that arrive after the tenth are not listed. *)
Theorem log_statistics_counts (self : t) :
  let stats := get_log_statistics self in
  total_count stats = length (log_buffer self)
  /\ (forall k,
        count_of k (level_counts stats)
        = length (filter (fun e => String.eqb (level e) k) (log_buffer self)))
  /\ recent_errors stats
     = map error_summary (firstn 10 (filter is_error (log_buffer self))).
Proof.
  unfold get_log_statistics.
  destruct (log_buffer self) as [ | e buffer] eqn:E.
  - simpl. now repeat split.
  - destruct (count_levels_spec (e :: buffer) [] []) as [Hc Hs];
      [ simpl; lia | ].
    destruct (count_levels (e :: buffer) [] []) as [counts errors].
    cbn [fst] in Hc. cbn [snd app length Nat.sub] in Hs.
    cbv zeta. cbn [total_count level_counts recent_errors].
    split; [ reflexivity | ]. split.
    + intros k. rewrite Hc. cbn [count_of]. lia.
    + rewrite Hs. unfold PySlice.from.
      replace (-10 <? 0)%Z with true by reflexivity.
      set (l := map error_summary (firstn 10 (filter is_error (e :: buffer)))).
      assert (Hl : (length l <= 10)%nat).
      { unfold l. rewrite length_map, length_firstn. lia. }
      replace (Z.to_nat (Z.max (Z.of_nat (length l) + -10) 0)) with 0%nat by lia.
      reflexivity.
Qed.

End MonitorFacts.

(** ** [LogService]: records and reading *)

Section ServiceFacts.
Import PyDatetime LogFile LogService.

Lemma upper_char_idempotent (c : ascii) :
  PyStr.upper_char (PyStr.upper_char c) = PyStr.upper_char c.
Proof. destruct c as [[] [] [] [] [] [] [] []]; reflexivity. Qed.

Lemma upper_idempotent (s : string) : PyStr.upper (PyStr.upper s) = PyStr.upper s.
Proof.
  unfold PyStr.upper.
  induction s as [ | c s IH]; cbn [PyStr.map_chars]; [ reflexivity | ].
  now rewrite upper_char_idempotent, IH.
Qed.

Lemma categorize_known (m : string) : In (_categorize_message m) categories.
Proof.
  unfold _categorize_message, categories.
  repeat match goal with
         | |- context [if ?b then _ else _] => destruct b
         end; simpl; tauto.
Qed.

(** X5.
    Every record [parse_log_line] returns has the trimmed line as its raw
    line, a trimmed message, a level in upper case and one of the six
    categories. *)
Theorem parse_log_line_record_shape (now : datetime) (line : string)
  (d : log_data) :
  parse_log_line now line = Some d ->
  raw_line d = PyStr.strip line
  /\ PyStr.strip (message d) = message d
  /\ PyStr.upper (level d) = level d
  /\ In (category d) categories.
Proof.
  unfold parse_log_line.
  destruct (negb (PyStr.truthy (PyStr.strip line))
            || PyStr.startswith (PyStr.strip line) "#"); [ discriminate | ].
  destruct (first_search patterns (PyStr.strip line)) as [[n g] | ].
  - intros H. injection H as <-. cbn [raw_line message level category].
    repeat split.
    + apply strip_idempotent.
    + apply upper_idempotent.
    + apply categorize_known.
  - destruct (existsb _ log_levels); [ | discriminate ].
    intros H. injection H as <-. cbn [raw_line message level category].
    repeat split.
    + apply strip_idempotent.
    + unfold categories. simpl. tauto.
Qed.

Lemma parse_log_line_record_shape_witness :
  parse_log_line Samples.noon Samples.stray_line
  = Some (mk_log "2025-06-01 12:00:00" "INFO" "unknown" "0"
            Samples.stray_line Samples.stray_line "system")
  /\ raw_line (mk_log "2025-06-01 12:00:00" "INFO" "unknown" "0"
                 Samples.stray_line Samples.stray_line "system")
     = PyStr.strip Samples.stray_line
  /\ PyStr.strip (message (mk_log "2025-06-01 12:00:00" "INFO" "unknown" "0"
                            Samples.stray_line Samples.stray_line "system"))
     = message (mk_log "2025-06-01 12:00:00" "INFO" "unknown" "0"
                  Samples.stray_line Samples.stray_line "system")
  /\ PyStr.upper (level (mk_log "2025-06-01 12:00:00" "INFO" "unknown" "0"
                           Samples.stray_line Samples.stray_line "system"))
     = level (mk_log "2025-06-01 12:00:00" "INFO" "unknown" "0"
                Samples.stray_line Samples.stray_line "system")
  /\ In (category (mk_log "2025-06-01 12:00:00" "INFO" "unknown" "0"
                     Samples.stray_line Samples.stray_line "system"))
        categories.
Proof.
  split.
  - vm_compute. reflexivity.
  - apply (parse_log_line_record_shape Samples.noon Samples.stray_line).
    vm_compute. reflexivity.
Defined.

(** [read_new_logs] never moves its offset back, whatever the file has
    become, and it only adds to the queue: the records it emits, in
    order. *)
Theorem read_new_logs_never_rewinds (now : datetime) (f : file_view) (self : t) :
  (last_position self <= last_position (fst (read_new_logs now f self)))%nat
  /\ log_queue (fst (read_new_logs now f self))
     = log_queue self ++ snd (read_new_logs now f self).
Proof.
  destruct f as [ | content [ | ]]; simpl; try (now rewrite app_nil_r).
  split; [ lia | reflexivity ].
Qed.

Lemma skip_all (n : nat) : forall s : string,
  (String.length s <= n)%nat -> PyStr.skip n s = EmptyString.
Proof.
  induction n as [ | n IH]; intros [ | c s] H; simpl in *;
    try reflexivity; try lia.
  apply IH. lia.
Qed.

(** X6.
    A second [read_new_logs] on a file that has not changed emits nothing
    and changes nothing: no line is delivered twice. *)
Theorem read_new_logs_twice (now later : datetime) (f : file_view) (self : t) :
  read_new_logs later f (fst (read_new_logs now f self))
  = (fst (read_new_logs now f self), []).
Proof.
  destruct f as [ | content [ | ]]; try reflexivity.
  unfold read_new_logs. cbn [fst last_position log_queue].
  rewrite (skip_all (last_position self
                     + String.length (PyStr.skip (last_position self) content))
             content).
  - cbn [PyStr.readlines flat_map String.length].
    now rewrite Nat.add_0_r, app_nil_r.
  - rewrite skip_length. lia.
Qed.

(** X7.
    After [_read_existing_logs] has read a file that is not empty, the
    offset is the size of the file, wherever it was before; the
    [read_new_logs] that follows emits the records of the lines appended
    since, and nothing of what the file already held. *)
Theorem read_existing_then_new (lines_count : Z) (now later : datetime)
  (content appended : string) (self : t) :
  content <> EmptyString ->
  let loaded :=
    fst (_read_existing_logs lines_count now (Present content true) self) in
  last_position loaded = String.length content
  /\ snd (read_new_logs later (Present (content ++ appended)%string true) loaded)
     = flat_map (fun l => match parse_log_line later l with
                          | Some d => [d]
                          | None => []
                          end) (PyStr.readlines appended).
Proof.
  intros Hne. cbv zeta.
  assert (Hpos : last_position
                   (fst (_read_existing_logs lines_count now
                           (Present content true) self))
                 = String.length content).
  { unfold _read_existing_logs.
    destruct content as [ | c content]; [ now elim Hne | ].
    destruct (flat_map _ _); reflexivity. }
  split; [ exact Hpos | ].
  unfold read_new_logs. rewrite Hpos, skip_append. reflexivity.
Qed.

Lemma read_existing_then_new_witness :
  Samples.started <> EmptyString
  /\ let loaded :=
       fst (_read_existing_logs 100 Samples.noon
              (Present Samples.started true) (mk_service 500 [])) in
     last_position loaded = String.length Samples.started
     /\ snd (read_new_logs Samples.noon
               (Present (Samples.started
                         ++ Samples.with_newline Samples.stray_line)%string true)
               loaded)
        = flat_map (fun l => match parse_log_line Samples.noon l with
                             | Some d => [d]
                             | None => []
                             end)
            (PyStr.readlines (Samples.with_newline Samples.stray_line)).
Proof.
  split.
  - discriminate.
  - apply (read_existing_then_new 100 Samples.noon Samples.noon Samples.started
             (Samples.with_newline Samples.stray_line) (mk_service 500 [])).
    discriminate.
Defined.

End ServiceFacts.

(** ** The backend's [ProcessManager]: status, start, restart *)

Section BackendFacts.
Import PyDatetime BackendProcess.

(** X8.
    A status query repeated with the same answers of the operating system
    and the same reading of the clock gives the same reply, up-time and
    figures included, and leaves the manager as the first query left it.  A
    reply that is not running carries no pid, no start time, no figure and
    no up-time; a reply that is running carries the up-time computed from
    the clock, or "未知" when the manager has no start time. *)
Theorem get_status_idempotent (p : probe) (self : t) :
  get_status p (snd (get_status p self)) = get_status p self
  /\ (is_running (fst (get_status p self)) = false ->
      exists text, fst (get_status p self) = no_process text)
  /\ (is_running (fst (get_status p self)) = true ->
      exists os_status cpu memory now,
        p = Alive os_status cpu memory now
        /\ start_time (snd (get_status p self)) = start_time self
        /\ status_start_time (fst (get_status p self))
           = option_map isoformat (start_time self)
        /\ status_cpu_percent (fst (get_status p self)) = Some cpu
        /\ status_memory_percent (fst (get_status p self)) = Some memory
        /\ uptime (fst (get_status p self))
           = Some match start_time self with
                  | Some since => _format_timedelta (elapsed_seconds now since)
                  | None => "未知"
                  end).
Proof.
  unfold get_status.
  destruct (process_info self) as [i | ] eqn:E;
    [ destruct p as [os_status cpu memory now | | d] | ]; cbn.
  - split; [ reflexivity | ]. split; [ discriminate | ]. intros _.
    exists os_status, cpu, memory, now. now repeat split.
  - split; [ reflexivity | ]. split; [ | discriminate ]. intros _.
    now exists "未运行".
  - rewrite E. split; [ reflexivity | ]. split; [ | discriminate ]. intros _.
    now eexists.
  - rewrite E. split; [ reflexivity | ]. split; [ | discriminate ]. intros _.
    now exists "未运行".
Qed.

Lemma get_status_idempotent_witness :
  is_running (fst (get_status Samples.worker_alive Samples.backend_running))
  = true
  /\ is_running (fst (get_status Gone Samples.backend_running)) = false
  /\ get_status Samples.worker_alive
       (snd (get_status Samples.worker_alive Samples.backend_running))
     = get_status Samples.worker_alive Samples.backend_running
  /\ uptime (fst (get_status Samples.worker_alive Samples.backend_running))
     = Some "1分钟30秒"
  /\ fst (get_status Gone Samples.backend_running) = no_process "未运行".
Proof.
  split; [ reflexivity | ]. split; [ reflexivity | ].
  pose proof (get_status_idempotent Samples.worker_alive Samples.backend_running)
    as (Hsame & _ & Hrunning).
  pose proof (get_status_idempotent Gone Samples.backend_running)
    as (_ & Hstopped & _).
  split; [ exact Hsame | ].
  destruct (Hrunning eq_refl)
    as (os_status & cpu & memory & now & Hp & _ & _ & _ & _ & Hup).
  injection Hp as <- <- <- <-.
  split; [ rewrite Hup; vm_compute; reflexivity | ].
  destruct (Hstopped eq_refl) as [text Htext]. rewrite Htext.
  vm_compute in Htext. injection Htext as <-. reflexivity.
Defined.

(** The reply of a query ninety seconds after the start of the worker. *)
Lemma get_status_after_ninety_seconds :
  fst (get_status Samples.worker_alive Samples.backend_running)
  = mk_status true (Some 4242%Z) (Some "2025-06-01T12:00:00") (Some 150%Z)
      (Some 230%Z) "运行中" (Some "1分钟30秒").
Proof. vm_compute. reflexivity. Qed.

(** [start_process] on a worker that is running spawns nothing: it answers
    with a failure that names the pid, whatever the spawn would have
    given. *)
Theorem start_process_already_running (p : probe) (sp : spawn)
  (now : datetime) (self : t) :
  is_running (fst (get_status p self)) = true ->
  success (fst (start_process p sp now self)) = false
  /\ reply_pid (fst (start_process p sp now self))
     = status_pid (fst (get_status p self))
  /\ snd (start_process p sp now self) = snd (get_status p self).
Proof.
  intros H. unfold start_process.
  destruct (get_status p self) as [st self1]. simpl in H. rewrite H.
  now repeat split.
Qed.

Lemma start_process_already_running_witness :
  is_running (fst (get_status (Alive "sleeping" 0 0 Samples.noon) Samples.backend_running)) = true
  /\ success (fst (start_process (Alive "sleeping" 0 0 Samples.noon) (Started 77) Samples.noon
                     Samples.backend_running)) = false
  /\ reply_pid (fst (start_process (Alive "sleeping" 0 0 Samples.noon) (Started 77) Samples.noon
                       Samples.backend_running))
     = status_pid (fst (get_status (Alive "sleeping" 0 0 Samples.noon) Samples.backend_running))
  /\ snd (start_process (Alive "sleeping" 0 0 Samples.noon) (Started 77) Samples.noon
            Samples.backend_running)
     = snd (get_status (Alive "sleeping" 0 0 Samples.noon) Samples.backend_running).
Proof.
  split.
  - reflexivity.
  - apply (start_process_already_running (Alive "sleeping" 0 0 Samples.noon) (Started 77)
             Samples.noon Samples.backend_running).
    reflexivity.
Defined.

(** X9.
    A start that fails, because [Popen] raises or because the worker exits
    within the first second, answers with a failure and no pid and leaves no
    handle, no information and no start time: the status query that follows
    finds nothing running. *)
Theorem start_process_failure_cleans (p q : probe) (sp : spawn)
  (now : datetime) (self : t) :
  is_running (fst (get_status p self)) = false ->
  (forall pid, sp <> Started pid) ->
  let after := start_process p sp now self in
  success (fst after) = false
  /\ reply_pid (fst after) = None
  /\ process (snd after) = None
  /\ process_info (snd after) = None
  /\ start_time (snd after) = None
  /\ is_running (fst (get_status q (snd after))) = false.
Proof.
  intros H Hsp. unfold start_process.
  destruct (get_status p self) as [st self1]. simpl in H. rewrite H.
  destruct sp as [d | pid | pid rc]; simpl.
  - now repeat split.
  - now elim (Hsp pid).
  - now repeat split.
Qed.

Lemma start_process_failure_cleans_witness :
  is_running (fst (get_status Gone Samples.backend_running)) = false
  /\ (forall pid, ExitedEarly 77 1 <> Started pid)
  /\ let after :=
       start_process Gone (ExitedEarly 77 1) Samples.noon
         Samples.backend_running in
     success (fst after) = false
     /\ reply_pid (fst after) = None
     /\ process (snd after) = None
     /\ process_info (snd after) = None
     /\ start_time (snd after) = None
     /\ is_running (fst (get_status Samples.worker_alive (snd after))) = false.
Proof.
  split; [ reflexivity | ].
  split; [ discriminate | ].
  apply (start_process_failure_cleans Gone Samples.worker_alive (ExitedEarly 77 1)
           Samples.noon Samples.backend_running).
  - reflexivity.
  - discriminate.
Defined.

(** X10.
    A start that goes through records the pid and the start time and turns
    monitoring on; the status query that finds the worker alive reports it
    running under that pid, and a stop whose calls all return then clears
    the handle, the information and the start time and turns monitoring
    off.  The manager is not back in the state [__init__] builds: the task
    that was cancelled stays in [monitoring_task]. *)
Theorem start_then_status_then_stop (p : probe) (pid : Z) (now later : datetime)
  (o : os) (os_status : string) (cpu memory : Z) (self : t) :
  is_running (fst (get_status p self)) = false ->
  is_monitoring self = false ->
  status_probe o = Alive os_status cpu memory later ->
  terminate_and_wait o = Exn.Done tt ->
  let started := start_process p (Started pid) now self in
  let stopped := stop_process o (snd started) in
  fst started = mk_reply true "进程启动成功" (Some pid)
  /\ start_time (snd started) = Some now
  /\ is_monitoring (snd started) = true
  /\ monitoring_task (snd started) = Monitoring
  /\ fst (get_status (Alive os_status cpu memory later) (snd started))
     = mk_status true (Some pid) (Some (isoformat now)) (Some cpu) (Some memory)
         "运行中" (Some (_format_timedelta (elapsed_seconds later now)))
  /\ fst stopped = mk_reply true "进程已停止" (Some pid)
  /\ snd stopped = mk_manager None None None false Cancelled
  /\ snd stopped <> init.
Proof.
  intros H Hmon Hprobe Hdone. unfold start_process.
  assert (Hsame : is_monitoring (snd (get_status p self)) = false).
  { unfold get_status. destruct (process_info self); [ destruct p | ]; cbn;
      assumption. }
  destruct (get_status p self) as [st self1]. simpl in H, Hsame. rewrite H.
  cbv zeta. unfold _start_monitoring. cbn [is_monitoring]. rewrite Hsame.
  cbn [negb fst snd start_time is_monitoring monitoring_task].
  repeat (split; [ reflexivity | ]).
  unfold stop_process. rewrite Hprobe. cbn. rewrite Hdone. cbn.
  repeat (split; [ reflexivity | ]). discriminate.
Qed.

Lemma start_then_status_then_stop_witness :
  is_running (fst (get_status Gone init)) = false
  /\ is_monitoring init = false
  /\ status_probe Samples.backend_quiet
     = Alive "running" 150 230 (mk_datetime 2025 6 1 12 1 30 0)
  /\ terminate_and_wait Samples.backend_quiet = Exn.Done tt
  /\ let started := start_process Gone (Started 77) Samples.noon init in
     let stopped := stop_process Samples.backend_quiet (snd started) in
     fst started = mk_reply true "进程启动成功" (Some 77%Z)
     /\ start_time (snd started) = Some Samples.noon
     /\ is_monitoring (snd started) = true
     /\ monitoring_task (snd started) = Monitoring
     /\ fst (get_status (Alive "running" 150 230 (mk_datetime 2025 6 1 12 1 30 0))
               (snd started))
        = mk_status true (Some 77%Z) (Some (isoformat Samples.noon)) (Some 150%Z)
            (Some 230%Z) "运行中"
            (Some (_format_timedelta
                     (elapsed_seconds (mk_datetime 2025 6 1 12 1 30 0)
                        Samples.noon)))
     /\ fst stopped = mk_reply true "进程已停止" (Some 77%Z)
     /\ snd stopped = mk_manager None None None false Cancelled
     /\ snd stopped <> init.
Proof.
  split; [ reflexivity | ].
  split; [ reflexivity | ].
  split; [ reflexivity | ].
  split; [ reflexivity | ].
  apply (start_then_status_then_stop Gone 77 Samples.noon
           (mk_datetime 2025 6 1 12 1 30 0) Samples.backend_quiet
           "running" 150 230 init); reflexivity.
Defined.

Lemma stop_process_no_info (o : os) (self : t) :
  process_info self = None ->
  stop_process o self = (mk_reply true "进程未在运行" None, self).
Proof.
  intros H. unfold stop_process, get_status. now rewrite H.
Qed.

Lemma start_process_spawns (p : probe) (pid : Z) (now : datetime) (self : t) :
  process_info self = None ->
  start_process p (Started pid) now self
  = (mk_reply true "进程启动成功" (Some pid),
     mk_manager (Some pid) (Some (mk_info pid "running")) (Some now) true
       (if is_monitoring self then monitoring_task self else Monitoring)).
Proof.
  intros H. unfold start_process, get_status, _start_monitoring. rewrite H.
  cbn. now destruct (is_monitoring self).
Qed.

(** [restart_process] after a stop that fails: the answer of the stop is
    returned, the manager is as the stop left it and no worker is
    spawned. *)
Theorem restart_process_stop_failure (o : os) (p : probe) (sp : spawn)
  (now : datetime) (self : t) :
  success (fst (stop_process o self)) = false ->
  ProcessApi.restart_process o p sp now self = stop_process o self.
Proof.
  intros H. unfold ProcessApi.restart_process.
  destruct (stop_process o self) as [r s]. simpl in H. now rewrite H.
Qed.

Lemma restart_process_stop_failure_witness :
  success (fst (stop_process Samples.backend_denied Samples.backend_running))
  = false
  /\ ProcessApi.restart_process Samples.backend_denied Samples.worker_alive
       (Started 77) Samples.noon Samples.backend_running
     = stop_process Samples.backend_denied Samples.backend_running.
Proof.
  split.
  - reflexivity.
  - apply (restart_process_stop_failure Samples.backend_denied Samples.worker_alive
             (Started 77) Samples.noon Samples.backend_running).
    reflexivity.
Defined.

(** X11.
    [restart_process] when the worker runs and the stop goes through, or
    when the manager holds no worker at all: the new worker is spawned, its
    pid is answered and recorded, and monitoring is on.  The monitoring task
    is a new one, except when the manager held no worker and was still
    monitoring: then the task it had is kept. *)
Theorem restart_process_spawns (o : os) (p : probe) (pid : Z)
  (now : datetime) (self : t) :
  process_info self = None
  \/ (is_running (fst (get_status (status_probe o) self)) = true
      /\ terminate_and_wait o = Exn.Done tt) ->
  ProcessApi.restart_process o p (Started pid) now self
  = (mk_reply true "进程启动成功" (Some pid),
     mk_manager (Some pid) (Some (mk_info pid "running")) (Some now) true
       match process_info self with
       | None => if is_monitoring self then monitoring_task self else Monitoring
       | Some _ => Monitoring
       end).
Proof.
  intros [Hnone | [Hrun Hdone]]; unfold ProcessApi.restart_process.
  - rewrite (stop_process_no_info o self Hnone). cbn [success negb].
    rewrite Hnone. now apply start_process_spawns.
  - assert (Hinfo : process_info self <> None).
    { intros Hnone. unfold get_status in Hrun. now rewrite Hnone in Hrun. }
    destruct (process_info self) as [i | ] eqn:Ei; [ | now elim Hinfo ].
    unfold stop_process.
    destruct (get_status (status_probe o) self) as [st self1].
    simpl in Hrun. rewrite Hrun, Hdone. cbn [negb success].
    rewrite start_process_spawns;
      unfold _stop_monitoring, _cleanup_process_info;
      destruct (is_monitoring self1) eqn:Em; cbn; rewrite ?Em; reflexivity.
Qed.

Lemma restart_process_spawns_witness :
  (process_info Samples.backend_running = None
   \/ (is_running (fst (get_status (status_probe Samples.backend_quiet)
                          Samples.backend_running)) = true
       /\ terminate_and_wait Samples.backend_quiet = Exn.Done tt))
  /\ ProcessApi.restart_process Samples.backend_quiet Samples.worker_alive
       (Started 77) Samples.noon Samples.backend_running
     = (mk_reply true "进程启动成功" (Some 77%Z),
        mk_manager (Some 77%Z) (Some (mk_info 77 "running"))
          (Some Samples.noon) true
          match process_info Samples.backend_running with
          | None =>
              if is_monitoring Samples.backend_running
              then monitoring_task Samples.backend_running else Monitoring
          | Some _ => Monitoring
          end).
Proof.
  split.
  - right. split; reflexivity.
  - apply (restart_process_spawns Samples.backend_quiet Samples.worker_alive 77
             Samples.noon Samples.backend_running).
    right. split; reflexivity.
Defined.

Lemma parts_seconds_app (a b : list (Z * string)) :
  parts_seconds (a ++ b) = (parts_seconds a + parts_seconds b)%Z.
Proof.
  unfold parts_seconds.
  induction a as [ | x a IH]; simpl; [ reflexivity | ]. rewrite IH. lia.
Qed.

(** X12.
    For a duration that is not negative, the parts of [_format_timedelta]
    add up to the duration; they are never empty: zero seconds are shown
    when nothing else is. *)
Theorem timedelta_parts_sum (total_seconds : Z) :
  (0 <= total_seconds)%Z ->
  timedelta_parts total_seconds <> []
  /\ parts_seconds (timedelta_parts total_seconds) = total_seconds.
Proof.
  intros Hpos. unfold timedelta_parts. split.
  - destruct (0 <? total_seconds / 86400)%Z; [ discriminate | ].
    destruct (0 <? total_seconds mod 86400 / 3600)%Z; [ discriminate | ].
    destruct (0 <? total_seconds mod 3600 / 60)%Z; [ discriminate | ].
    simpl. rewrite orb_true_r. discriminate.
  - pose proof (Z.div_mod total_seconds 86400 ltac:(lia)) as Hd.
    pose proof (Z.mod_pos_bound total_seconds 86400 ltac:(lia)) as Hdb.
    pose proof (Z.div_mod (total_seconds mod 86400) 3600 ltac:(lia)) as Hh.
    pose proof (Z.mod_pos_bound (total_seconds mod 86400) 3600 ltac:(lia)) as Hhb.
    pose proof (Z.div_mod total_seconds 3600 ltac:(lia)) as Hm0.
    pose proof (Z.div_mod (total_seconds mod 3600) 60 ltac:(lia)) as Hm.
    pose proof (Z.mod_pos_bound (total_seconds mod 3600) 60 ltac:(lia)) as Hmb.
    pose proof (Z.div_pos total_seconds 86400 Hpos ltac:(lia)) as Hdp.
    pose proof (Z.div_pos (total_seconds mod 86400) 3600 ltac:(lia) ltac:(lia))
      as Hhp.
    pose proof (Z.mod_pos_bound total_seconds 3600 ltac:(lia)) as Hm0b.
    pose proof (Z.div_pos (total_seconds mod 3600) 60 ltac:(lia) ltac:(lia))
      as Hmp.
    assert (H1 : ((total_seconds mod 86400) mod 3600
                  = total_seconds mod 3600)%Z).
    { apply Z.mod_mod_divide. exists 24%Z. lia. }
    assert (H2 : ((total_seconds mod 3600) mod 60 = total_seconds mod 60)%Z).
    { apply Z.mod_mod_divide. exists 60%Z. lia. }
    rewrite !parts_seconds_app.
    assert (Hpart : forall v u,
              (0 <= v)%Z ->
              parts_seconds (if (0 <? v)%Z then [(v, u)] else [])
              = (v * unit_seconds u)%Z).
    { intros v u Hv. destruct (Z.ltb_spec 0 v); unfold parts_seconds; simpl;
        [ lia | ]. replace v with 0%Z by lia. lia. }
    rewrite !Hpart by lia.
    change (unit_seconds "天") with 86400%Z.
    change (unit_seconds "小时") with 3600%Z.
    change (unit_seconds "分钟") with 60%Z.
    assert (Hsec : parts_seconds
                     (if (0 <? total_seconds mod 60)%Z
                         || match
                              (if (0 <? total_seconds / 86400)%Z
                               then [((total_seconds / 86400)%Z, "天")] else [])
                              ++ (if (0 <? total_seconds mod 86400 / 3600)%Z
                                  then [((total_seconds mod 86400 / 3600)%Z, "小时")]
                                  else [])
                              ++ (if (0 <? total_seconds mod 3600 / 60)%Z
                                  then [((total_seconds mod 3600 / 60)%Z, "分钟")]
                                  else [])
                            with [] => true | _ => false end
                      then [((total_seconds mod 60)%Z, "秒")] else [])
                   = (total_seconds mod 60)%Z).
    { pose proof (Z.mod_pos_bound total_seconds 60 ltac:(lia)) as Hsb.
      destruct (Z.ltb_spec 0 (total_seconds mod 60)) as [Hs | Hs];
        cbn [orb].
      - unfold parts_seconds. simpl. change (unit_seconds "秒") with 1%Z. lia.
      - replace (total_seconds mod 60)%Z with 0%Z by lia.
        destruct (match _ with [] => true | _ => false end);
          unfold parts_seconds; simpl; lia. }
    rewrite Hsec. lia.
Qed.

Lemma timedelta_parts_sum_witness :
  (0 <= 93784)%Z
  /\ timedelta_parts 93784 <> []
  /\ parts_seconds (timedelta_parts 93784) = 93784%Z.
Proof.
  split.
  - lia.
  - apply (timedelta_parts_sum 93784). lia.
Defined.

(** X13.
    A negative duration, which the status query meets when the clock has
    been set back since the start, is printed as the time of day it falls
    on: no day is shown and no sign. *)
Theorem format_timedelta_negative (total_seconds : Z) :
  (total_seconds < 0)%Z ->
  _format_timedelta total_seconds
  = _format_timedelta (total_seconds mod 86400).
Proof.
  intros Hneg. unfold _format_timedelta. f_equal. f_equal.
  unfold timedelta_parts.
  pose proof (Z.mod_pos_bound total_seconds 86400 ltac:(lia)) as Hb.
  assert (Hdays : (0 <? total_seconds / 86400)%Z = false).
  { apply Z.ltb_ge.
    pose proof (Z.div_lt_upper_bound total_seconds 86400 0 ltac:(lia) ltac:(lia)).
    lia. }
  assert (Hdays' : (0 <? total_seconds mod 86400 / 86400)%Z = false).
  { rewrite Z.div_small by lia. reflexivity. }
  rewrite Hdays, Hdays'.
  rewrite (Z.mod_mod total_seconds 86400) by lia.
  replace ((total_seconds mod 86400) mod 3600)%Z
    with (total_seconds mod 3600)%Z
    by (symmetry; apply Z.mod_mod_divide; exists 24%Z; lia).
  replace ((total_seconds mod 86400) mod 60)%Z
    with (total_seconds mod 60)%Z
    by (symmetry; apply Z.mod_mod_divide; exists 1440%Z; lia).
  reflexivity.
Qed.

Lemma format_timedelta_negative_witness :
  (-1 < 0)%Z
  /\ _format_timedelta (-1) = _format_timedelta ((-1) mod 86400).
Proof.
  split.
  - lia.
  - apply (format_timedelta_negative (-1)). lia.
Defined.

End BackendFacts.

(** ** The manager of the Flask application: sequences of operations *)

Section WebAppFacts.
Import PyDatetime WebApp.

Lemma apply_keeps_settled (a : operation) (self : t) :
  state self = Stopped
  \/ (state self = Running
      /\ exists pid since, process self = Some pid /\ start_time self = Some since) ->
  state (apply a self) = Stopped
  \/ (state (apply a self) = Running
      /\ exists pid since,
           process (apply a self) = Some pid
           /\ start_time (apply a self) = Some since).
Proof.
  intros Hinv. destruct a as [sp th now | o | p | lines | log_line];
    cbn [apply].
  - unfold start_main_process, _start_output_monitoring.
    destruct Hinv as [Hs | (Hr & pid & since & Hp & Ht)].
    + rewrite Hs. cbn. destruct sp as [d | pid]; cbn.
      * now left.
      * destruct (output_thread self); [ destruct (thread_alive th) | ];
          cbn; try destruct (thread_start th); cbn;
          try (now left);
          right; (split; [ reflexivity | ]); now exists pid, now.
    + rewrite Hr. cbn. right. split; [ assumption | ]. now exists pid, since.
  - unfold stop_main_process.
    destruct Hinv as [Hs | (Hr & pid & since & Hp & Ht)].
    + rewrite Hs. cbn. now left.
    + rewrite Hr. cbn. rewrite Hp.
      destruct (terminate_and_wait o); cbn; now left.
  - unfold get_status.
    destruct Hinv as [Hs | (Hr & pid & since & Hp & Ht)].
    + rewrite Hs. cbn. now left.
    + rewrite Hr, Hp. destruct p; cbn; try (now left);
        right; (split; [ assumption | ]); now exists pid, since.
  - exact Hinv.
  - exact Hinv.
Qed.

(** X14.
    Whatever operations are run on a new manager, and whatever the
    operating system answers, the state between two operations is stopped
    or running, never one of the transient ones, and a running manager holds
    a process handle and a start time. *)
Theorem run_keeps_settled (operations : list operation) :
  state (run operations init) = Stopped
  \/ (state (run operations init) = Running
      /\ exists pid since,
           process (run operations init) = Some pid
           /\ start_time (run operations init) = Some since).
Proof.
  unfold run.
  assert (H : forall self,
    (state self = Stopped
     \/ (state self = Running
         /\ exists pid since,
              process self = Some pid /\ start_time self = Some since)) ->
    state (fold_left (fun m a => apply a m) operations self) = Stopped
    \/ (state (fold_left (fun m a => apply a m) operations self) = Running
        /\ exists pid since,
             process (fold_left (fun m a => apply a m) operations self) = Some pid
             /\ start_time (fold_left (fun m a => apply a m) operations self)
                = Some since)).
  { induction operations as [ | a operations IH]; intros self Hinv;
      [ exact Hinv | ].
    cbn [fold_left]. apply IH. now apply apply_keeps_settled. }
  apply H. now left.
Qed.

(** X15.
    The status query that finds the worker gone (its exit code is there, or
    the pid is unknown) reports "stopped" while still naming the pid and the
    start time of the dead worker.  The handle, the state and the start time
    of the manager are reset, the thread that reads the output and the queue
    of lines are left as they were, and the next query names no pid and no
    start time. *)
Theorem get_status_reports_exit (p q : probe) (pid : Z) (self : t) :
  state self = Running ->
  process self = Some pid ->
  p = Exited \/ p = Vanished ->
  (info_status (fst (get_status p self)) = "stopped"
   /\ info_pid (fst (get_status p self)) = Some pid
   /\ info_start_time (fst (get_status p self))
      = option_map isoformat (start_time self))
  /\ snd (get_status p self)
     = mk_manager None Stopped None (output_thread self) (log_queue self)
  /\ (info_status (fst (get_status q (snd (get_status p self)))) = "stopped"
      /\ info_pid (fst (get_status q (snd (get_status p self)))) = None
      /\ info_start_time (fst (get_status q (snd (get_status p self)))) = None).
Proof.
  intros Hr Hp Hgone. unfold get_status. rewrite Hr, Hp.
  destruct Hgone as [-> | ->]; cbn; now repeat split.
Qed.

Lemma get_status_reports_exit_witness :
  state Samples.webapp_running = Running
  /\ process Samples.webapp_running = Some 4242%Z
  /\ (Exited = Exited \/ Exited = Vanished)
  /\ (info_status (fst (get_status Exited Samples.webapp_running)) = "stopped"
      /\ info_pid (fst (get_status Exited Samples.webapp_running)) = Some 4242%Z
      /\ info_start_time (fst (get_status Exited Samples.webapp_running))
         = option_map isoformat (start_time Samples.webapp_running))
  /\ snd (get_status Exited Samples.webapp_running)
     = mk_manager None Stopped None (output_thread Samples.webapp_running)
         (log_queue Samples.webapp_running)
  /\ (info_status (fst (get_status Alive
                          (snd (get_status Exited Samples.webapp_running))))
      = "stopped"
      /\ info_pid (fst (get_status Alive
                          (snd (get_status Exited Samples.webapp_running))))
         = None
      /\ info_start_time (fst (get_status Alive
                                 (snd (get_status Exited Samples.webapp_running))))
         = None).
Proof.
  split; [ reflexivity | ].
  split; [ reflexivity | ].
  split; [ now left | ].
  apply (get_status_reports_exit Exited Alive 4242 Samples.webapp_running).
  - reflexivity.
  - reflexivity.
  - now left.
Defined.

(** The manager after the exit of the worker has been noticed is not the one
    [__init__] builds: the thread object and the lines of the queue are
    still there. *)
Lemma get_status_exit_keeps_thread :
  let after := snd (get_status Exited Samples.webapp_running) in
  after <> init
  /\ output_thread after = Some 4242%Z
  /\ log_queue after = ["worker started"].
Proof. cbn. repeat split. discriminate. Qed.

(** X16.
    A start on a manager that is not running, in which the thread that
    reads the output starts if one is needed, followed by a stop in which no
    call raises (the forced kill after a timeout included): both answer with
    success, and the stop clears the handle and the start time and sets the
    state to stopped.  A thread stays in [output_thread], the one of an
    earlier start if it is alive, else the one just started, and the queue
    holds the lines it held. *)
Theorem start_then_stop_keeps_thread (pid : Z) (th : threads)
  (now : datetime) (o : os) (self : t) :
  state self <> Running ->
  thread_start th = None ->
  terminate_and_wait o = Exn.Done tt ->
  let started := start_main_process (Spawned pid) th now self in
  fst (fst started) = true
  /\ output_thread (snd started)
     = match output_thread self with
       | Some earlier => if thread_alive th then Some earlier else Some pid
       | None => Some pid
       end
  /\ stop_main_process o (snd started)
     = ((true, "主进程已停止"),
        mk_manager None Stopped None (output_thread (snd started))
          (log_queue self)).
Proof.
  intros Hs Hstart Hdone. unfold start_main_process, _start_output_monitoring.
  rewrite Hstart.
  destruct (state self) eqn:E; try (now elim Hs); cbn;
    (destruct (output_thread self); [ destruct (thread_alive th) | ]); cbn;
    (split; [ reflexivity | ]); (split; [ reflexivity | ]);
    unfold stop_main_process; cbn; now rewrite Hdone.
Qed.

Lemma start_then_stop_keeps_thread_witness :
  state init <> Running
  /\ thread_start (mk_threads false None) = None
  /\ terminate_and_wait (mk_os None (Some Exn.TimeoutExpired) None None)
     = Exn.Done tt
  /\ let started :=
       start_main_process (Spawned 77) (mk_threads false None) Samples.noon
         init in
     fst (fst started) = true
     /\ output_thread (snd started)
        = match output_thread init with
          | Some earlier =>
              if thread_alive (mk_threads false None) then Some earlier
              else Some 77%Z
          | None => Some 77%Z
          end
     /\ stop_main_process (mk_os None (Some Exn.TimeoutExpired) None None)
          (snd started)
        = ((true, "主进程已停止"),
           mk_manager None Stopped None (output_thread (snd started))
             (log_queue init)).
Proof.
  split; [ discriminate | ].
  split; [ reflexivity | ].
  split; [ reflexivity | ].
  apply (start_then_stop_keeps_thread 77 (mk_threads false None) Samples.noon
           (mk_os None (Some Exn.TimeoutExpired) None None) init).
  - discriminate.
  - reflexivity.
  - reflexivity.
Defined.

(** A second start while the thread of the first is still alive: no thread
    is made for the new worker, and [output_thread] is the thread that was
    started on the output of the first. *)
Lemma restart_keeps_stale_thread :
  let operations :=
    [Start (Spawned 77) (mk_threads false None) Samples.noon;
     Stop (mk_os None None None None);
     Start (Spawned 88) (mk_threads true None) Samples.noon] in
  process (run operations init) = Some 88%Z
  /\ state (run operations init) = Running
  /\ output_thread (run operations init) = Some 77%Z.
Proof. cbn. now repeat split. Qed.

(** A start whose thread cannot be started: the answer is a failure and the
    state is stopped, while the worker runs and its handle, its start time
    and the thread object stay in the manager. *)
Lemma start_thread_failure_keeps_worker :
  start_main_process (Spawned 77)
    (mk_threads false (Some (Exn.OtherError "can't start new thread")))
    Samples.noon init
  = ((false, "启动失败: can't start new thread"),
     mk_manager (Some 77%Z) Stopped (Some Samples.noon) (Some 77%Z) []).
Proof. reflexivity. Qed.

Lemma drain_all (queue : list string) : forall logs temp,
  drain queue logs temp = (logs ++ queue, temp ++ queue).
Proof.
  induction queue as [ | x queue IH]; intros logs temp; simpl.
  - now rewrite !app_nil_r.
  - rewrite IH. now rewrite <- !app_assoc.
Qed.

Lemma refill_all (temp : list string) : forall queue,
  refill temp queue = queue ++ temp.
Proof.
  induction temp as [ | x temp IH]; intros queue; simpl.
  - now rewrite app_nil_r.
  - rewrite IH. now rewrite <- app_assoc.
Qed.

(** X17.
    [get_recent_logs] empties the queue of output lines and fills it again:
    after the call the queue holds the same lines in the same order, and the
    lines returned are the last [lines] of them when [lines] is positive. *)
Theorem get_recent_logs_restores_queue (lines : Z) (log_queue : list string) :
  (0 < lines)%Z ->
  get_recent_logs lines log_queue
  = (PySlice.lastn (Z.to_nat lines) log_queue, log_queue).
Proof.
  intros H. unfold get_recent_logs. rewrite drain_all. simpl.
  now rewrite refill_all, last_if_longer_lastn.
Qed.

Lemma get_recent_logs_restores_queue_witness :
  (0 < 2)%Z
  /\ get_recent_logs 2 ["a"; "b"; "c"]
     = (PySlice.lastn (Z.to_nat 2) ["a"; "b"; "c"], ["a"; "b"; "c"]).
Proof.
  split.
  - lia.
  - apply (get_recent_logs_restores_queue 2 ["a"; "b"; "c"]). lia.
Defined.

End WebAppFacts.

(** ** Registering and removing viewers *)

Section Registrations.
Import Exn ConnectionManager.

Variable websocket : Type.
Variable same : websocket -> websocket -> bool.
Hypothesis same_identity : forall x y, same x y = true <-> x = y.

Lemma disconnect_absent (ws : websocket) (l : list websocket) :
  ~ In ws l -> disconnect websocket same ws l = l.
Proof.
  intros H. unfold disconnect.
  destruct (existsb (same ws) l) eqn:E; [ | reflexivity ].
  apply (existsb_same websocket same same_identity) in E. now elim H.
Qed.

(** X18.
    A socket that [connect] has registered is removed again by
    [disconnect], and the registrations that were there before are left as
    they were. *)
Theorem connect_then_disconnect (ws : websocket) (active : list websocket) :
  ~ In ws active ->
  disconnect websocket same ws (connect websocket ws active) = active.
Proof.
  intros H. unfold connect.
  rewrite (disconnect_after websocket same same_identity ws active []) by assumption.
  apply app_nil_r.
Qed.

(** X19.
    While every socket is registered once, [disconnect] leaves the socket
    unregistered and touches no other registration, and the list stays free
    of duplicates: a session that ends, however it ends, leaves nothing
    behind. *)
Theorem disconnect_unregisters (ws : websocket) (active : list websocket) :
  NoDup active ->
  ~ In ws (disconnect websocket same ws active)
  /\ NoDup (disconnect websocket same ws active)
  /\ (forall c, c <> ws ->
        (In c (disconnect websocket same ws active) <-> In c active)).
Proof.
  intros Hnd.
  destruct (in_dec (fun x y =>
              match Bool.bool_dec (same x y) true with
              | left e => left (proj1 (same_identity x y) e)
              | right n => right (fun e => n (proj2 (same_identity x y) e))
              end) ws active) as [Hin | Hout].
  - destruct (in_split ws active Hin) as (pre & post & ->).
    pose proof (NoDup_remove_2 pre post ws Hnd) as Hnot.
    pose proof (NoDup_remove_1 pre post ws Hnd) as Hnd'.
    rewrite (disconnect_after websocket same same_identity ws pre post)
      by (intros H; apply Hnot; apply in_or_app; now left).
    split; [ assumption | ]. split; [ assumption | ].
    intros c Hc. split; intros H.
    + apply in_app_or in H as [H | H]; apply in_or_app;
        [ now left | right; now right ].
    + apply in_app_or in H as [H | [H | H]]; apply in_or_app;
        [ now left | now elim Hc | now right ].
  - rewrite (disconnect_absent ws active Hout).
    split; [ assumption | ]. split; [ assumption | ]. tauto.
Qed.

End Registrations.

Lemma connect_then_disconnect_witness :
  (forall x y : nat, Nat.eqb x y = true <-> x = y)
  /\ ~ In 4%nat Samples.viewers
  /\ ConnectionManager.disconnect nat Nat.eqb 4%nat
       (ConnectionManager.connect nat 4%nat Samples.viewers)
     = Samples.viewers.
Proof.
  split; [ exact Nat.eqb_eq | ].
  assert (H : ~ In 4%nat Samples.viewers).
  { simpl. intros [H | [H | [H | []]]]; discriminate. }
  split; [ exact H | ].
  exact (connect_then_disconnect nat Nat.eqb Nat.eqb_eq 4%nat Samples.viewers H).
Defined.

Lemma disconnect_unregisters_witness :
  (forall x y : nat, Nat.eqb x y = true <-> x = y)
  /\ NoDup Samples.viewers
  /\ ~ In 2%nat (ConnectionManager.disconnect nat Nat.eqb 2%nat Samples.viewers)
  /\ NoDup (ConnectionManager.disconnect nat Nat.eqb 2%nat Samples.viewers)
  /\ (forall c, c <> 2%nat ->
        (In c (ConnectionManager.disconnect nat Nat.eqb 2%nat Samples.viewers)
         <-> In c Samples.viewers)).
Proof.
  assert (H : NoDup Samples.viewers).
  { unfold Samples.viewers. repeat constructor; simpl; intuition discriminate. }
  split; [ exact Nat.eqb_eq | ].
  split; [ exact H | ].
  exact (disconnect_unregisters nat Nat.eqb Nat.eqb_eq 2%nat Samples.viewers H).
Defined.

(** ** Text: characters, lines and trimming *)

Section TextFacts.

Lemma has_char_app (x : ascii) (a b : string) :
  PyStr.has_char x (a ++ b)%string = PyStr.has_char x a || PyStr.has_char x b.
Proof.
  induction a as [ | c a IH]; simpl; [ reflexivity | ].
  now rewrite IH, orb_assoc.
Qed.

Lemma split_lines_one (l : string) :
  PyStr.has_char PyStr.newline l = false -> PyStr.split_lines l = [l].
Proof.
  induction l as [ | c l IH]; simpl; [ reflexivity | ].
  intros H. apply orb_false_iff in H as [Hc Hl].
  rewrite Hc, (IH Hl). reflexivity.
Qed.

Lemma split_lines_cons (l rest : string) :
  PyStr.has_char PyStr.newline l = false ->
  PyStr.split_lines (l ++ String PyStr.newline rest)%string
  = l :: PyStr.split_lines rest.
Proof.
  induction l as [ | c l IH]; simpl.
  - intros _. reflexivity.
  - intros H. apply orb_false_iff in H as [Hc Hl].
    rewrite Hc, (IH Hl). reflexivity.
Qed.

(** Lines without a line end, joined and split again, are the same
    lines. *)
Lemma split_join_lines (lines : list string) :
  lines <> [] ->
  (forall l, In l lines -> PyStr.has_char PyStr.newline l = false) ->
  PyStr.split_lines (PyStr.join_lines lines) = lines.
Proof.
  induction lines as [ | l lines IH]; intros Hne Hall; [ now elim Hne | ].
  destruct lines as [ | l2 lines].
  - simpl. apply split_lines_one. apply Hall. now left.
  - change (PyStr.join_lines (l :: l2 :: lines))
      with (l ++ String PyStr.newline (PyStr.join_lines (l2 :: lines)))%string.
    rewrite split_lines_cons by (apply Hall; now left).
    rewrite IH; [ reflexivity | discriminate | ].
    intros l' Hl'. apply Hall. now right.
Qed.

Lemma rstrip_nonspace (c : ascii) (s : string) :
  PyStr.isspace c = false ->
  PyStr.rstrip (String c s) = String c (PyStr.rstrip s).
Proof.
  intros Hc. simpl. destruct (PyStr.rstrip s); [ now rewrite Hc | reflexivity ].
Qed.

Lemma rstrip_app (a t : string) :
  PyStr.rstrip t <> EmptyString ->
  PyStr.rstrip (a ++ t) = (a ++ PyStr.rstrip t)%string.
Proof.
  intros Ht. induction a as [ | x a IH]; [ reflexivity | ].
  cbn [append PyStr.rstrip]. rewrite IH.
  destruct (a ++ PyStr.rstrip t)%string eqn:E; [ | reflexivity ].
  destruct a; simpl in E; [ now elim Ht | discriminate ].
Qed.

(** A trimmed text is empty or starts with a character that is not
    whitespace. *)
Lemma stripped_head (c : ascii) (s : string) :
  PyStr.strip (String c s) = String c s -> PyStr.isspace c = false.
Proof.
  intros H. destruct (PyStr.isspace c) eqn:Hc; [ | reflexivity ].
  unfold PyStr.strip in H. simpl in H. rewrite Hc in H.
  pose proof (rstrip_length (PyStr.lstrip s)) as H1.
  pose proof (lstrip_length s) as H2.
  rewrite H in H1. simpl in H1. lia.
Qed.

Lemma lstrip_rstrip (s : string) :
  PyStr.lstrip (PyStr.rstrip s) = PyStr.rstrip (PyStr.lstrip s).
Proof.
  induction s as [ | c s IH]; [ reflexivity | ].
  destruct (PyStr.isspace c) eqn:Hc.
  - assert (Hl : PyStr.lstrip (String c s) = PyStr.lstrip s)
      by (simpl; now rewrite Hc).
    rewrite Hl, <- IH. simpl.
    destruct (PyStr.rstrip s) as [ | c' r] eqn:E.
    + now rewrite Hc.
    + cbn [PyStr.lstrip]. now rewrite Hc.
  - rewrite (rstrip_nonspace c s Hc). cbn [PyStr.lstrip]. rewrite Hc.
    now rewrite (rstrip_nonspace c s Hc).
Qed.

Lemma strip_rstrip (s : string) : PyStr.strip (PyStr.rstrip s) = PyStr.strip s.
Proof.
  unfold PyStr.strip. rewrite lstrip_rstrip. apply rstrip_idempotent.
Qed.

End TextFacts.


(** ** Timestamps: what is printed is read back *)

Section TimestampFacts.
Import PyDatetime LogMonitor.

Lemma digit_char_code (n : Z) :
  PyStr.code (digit_char n) = (48 + Z.to_nat (n mod 10))%nat.
Proof.
  unfold digit_char, PyStr.code. apply nat_ascii_embedding.
  pose proof (Z.mod_pos_bound n 10 ltac:(lia)). lia.
Qed.

Lemma digit_char_isdigit (n : Z) : PyStr.isdigit (digit_char n) = true.
Proof.
  unfold PyStr.isdigit. rewrite digit_char_code.
  pose proof (Z.mod_pos_bound n 10 ltac:(lia)).
  apply andb_true_iff. split; apply Nat.leb_le; lia.
Qed.

Lemma zfill_length (w : nat) : forall n, String.length (zfill w n) = w.
Proof.
  induction w as [ | w IH]; intros n; simpl; [ reflexivity | ].
  rewrite length_append, IH. simpl. lia.
Qed.

Lemma digits_upto_zfill (w : nat) : forall n k rest,
  digits_upto (w + k) (zfill w n ++ rest)%string
  = ((zfill w n ++ fst (digits_upto k rest))%string, snd (digits_upto k rest)).
Proof.
  induction w as [ | w IH]; intros n k rest.
  - simpl. now destruct (digits_upto k rest).
  - cbn [zfill]. rewrite append_assoc.
    replace (S w + k)%nat with (w + S k)%nat by lia.
    rewrite IH. cbn [append digits_upto]. rewrite digit_char_isdigit.
    destruct (digits_upto k rest) as [ds r]. cbn [fst snd].
    now rewrite append_assoc.
Qed.

Lemma field_zfill (lo w : nat) (n : Z) (rest : string) :
  (lo <= w)%nat ->
  field lo w (zfill w n ++ rest)%string = Some (zfill w n, rest).
Proof.
  intros H. unfold field.
  replace w with (w + 0)%nat at 1 by lia.
  rewrite digits_upto_zfill.
  replace (digits_upto 0 rest) with (EmptyString, rest) by now destruct rest.
  cbn [fst snd]. rewrite append_empty, zfill_length.
  apply Nat.leb_le in H. now rewrite H.
Qed.

Lemma int_acc_app (s t : string) : forall acc,
  PyStr.int_acc acc (s ++ t)%string = PyStr.int_acc (PyStr.int_acc acc s) t.
Proof.
  induction s as [ | c s IH]; intros acc; simpl; [ reflexivity | apply IH ].
Qed.

Lemma int_of_zfill (w : nat) : forall n,
  (0 <= n < 10 ^ Z.of_nat w)%Z -> PyStr.int_of (zfill w n) = n.
Proof.
  unfold PyStr.int_of.
  induction w as [ | w IH]; intros n Hn.
  - simpl in *. lia.
  - cbn [zfill]. rewrite int_acc_app. cbn [PyStr.int_acc].
    rewrite IH, digit_char_code.
    + pose proof (Z.div_mod n 10 ltac:(lia)).
      pose proof (Z.mod_pos_bound n 10 ltac:(lia)). lia.
    + rewrite Nat2Z.inj_succ, Z.pow_succ_r in Hn by lia.
      split; [ apply Z.div_pos; lia | ].
      apply Z.div_lt_upper_bound; lia.
Qed.

Lemma parse_lit (c : ascii) (fmt : list directive) (rest : string)
  (d : datetime) :
  parse (DLit c :: fmt) (String c rest) d = parse fmt rest d.
Proof. simpl. now rewrite Ascii.eqb_refl. Qed.

Lemma parse_two (dir : directive) (fmt : list directive) (n : Z)
  (rest : string) (d : datetime) :
  In dir [Dm; Dd; DH; DM; DS] ->
  parse (dir :: fmt) (zfill 2 n ++ rest)%string d
  = parse fmt rest (set_field dir (zfill 2 n) d).
Proof.
  intros [<- | [<- | [<- | [<- | [<- | []]]]]];
    cbn [parse width fst snd]; now rewrite field_zfill by lia.
Qed.

Lemma parse_year (fmt : list directive) (n : Z) (rest : string) (d : datetime) :
  parse (DY :: fmt) (zfill 4 n ++ rest)%string d
  = parse fmt rest (set_field DY (zfill 4 n) d).
Proof. cbn [parse width fst snd]. now rewrite field_zfill by lia. Qed.

Lemma parse_fraction (fmt : list directive) (n : Z) (rest : string)
  (d : datetime) :
  parse (Df :: fmt) (zfill 6 n ++ rest)%string d
  = parse fmt rest (set_field Df (zfill 6 n) d).
Proof. cbn [parse width fst snd]. now rewrite field_zfill by lia. Qed.

Lemma valid_ranges (d : datetime) :
  valid d = true ->
  (0 <= year d < 10 ^ 4 /\ 0 <= month d < 10 ^ 2 /\ 0 <= day d < 10 ^ 2
   /\ 0 <= hour d < 10 ^ 2 /\ 0 <= minute d < 10 ^ 2
   /\ 0 <= second d < 10 ^ 2 /\ 0 <= microsecond d < 10 ^ 6)%Z.
Proof.
  unfold valid. rewrite !andb_true_iff, !Z.leb_le. intros H.
  assert (days_in_month (year d) (month d) <= 31)%Z.
  { unfold days_in_month.
    destruct (month d =? 2)%Z; [ destruct (is_leap (year d)); lia | ].
    destruct ((month d =? 4) || (month d =? 6) || (month d =? 9)
              || (month d =? 11))%Z; lia. }
  lia.
Qed.

(** The text [isoformat] prints, followed by anything, is read by the
    directives of the date and the time; the fields read are the fields
    printed. *)
Lemma parse_iso_seconds (d d0 : datetime) (fmt : list directive) (tail : string) :
  valid d = true ->
  parse (Samples.iso_seconds ++ fmt)
        (date_part d ++ "T" ++ time_part d ++ tail)%string d0
  = parse fmt tail
      (mk_datetime (year d) (month d) (day d) (hour d) (minute d) (second d)
         (microsecond d0)).
Proof.
  intros Hv. apply valid_ranges in Hv.
  unfold Samples.iso_seconds, date_part, time_part.
  rewrite !append_assoc. cbn [app append].
  rewrite parse_year, parse_lit.
  rewrite parse_two, parse_lit by (simpl; tauto).
  rewrite parse_two, parse_lit by (simpl; tauto).
  rewrite parse_two, parse_lit by (simpl; tauto).
  rewrite parse_two, parse_lit by (simpl; tauto).
  rewrite parse_two by (simpl; tauto).
  unfold set_field. cbn [year month day hour minute second microsecond].
  rewrite (int_of_zfill 4), !(int_of_zfill 2) by (cbn [Z.of_nat]; lia).
  reflexivity.
Qed.

Lemma fromisoformat_isoformat (d : datetime) :
  valid d = true ->
  Samples.fromisoformat (isoformat d) = Some (mk_stamp d None).
Proof.
  intros Hv. pose proof (valid_ranges d Hv) as Hr.
  unfold Samples.fromisoformat, strptime, isoformat.
  destruct (Z.eqb_spec (microsecond d) 0) as [Hz | Hnz].
  - rewrite !parse_iso_seconds by assumption. cbn [parse].
    rewrite <- (app_nil_r Samples.iso_seconds) at 1.
    rewrite parse_iso_seconds by assumption. cbn [parse microsecond epoch].
    rewrite <- Hz. destruct d; cbn in *. now rewrite Hv.
  - rewrite parse_iso_seconds by assumption.
    cbn [append]. rewrite parse_lit.
    rewrite <- (append_empty (zfill 6 (microsecond d))), parse_fraction.
    cbn [parse set_field year month day hour minute second microsecond].
    unfold micro_of. rewrite zfill_length, (int_of_zfill 6) by (cbn [Z.of_nat]; lia).
    replace (microsecond d * 10 ^ Z.of_nat (6 - 6))%Z with (microsecond d)
      by (cbn; lia).
    destruct d; cbn in *. now rewrite Hv.
Qed.

Lemma strptime_valid (s : string) (fmt : list directive) (d : datetime) :
  strptime s fmt = Some d -> valid d = true.
Proof.
  unfold strptime. destruct (parse fmt s epoch) as [d' | ]; [ | discriminate ].
  destruct (valid d') eqn:E; [ | discriminate ].
  intros H. injection H as <-. exact E.
Qed.

Lemma normalize_timestamp_iso (now : datetime) (s : string) :
  valid now = true ->
  exists d, valid d = true /\ _normalize_timestamp now s = isoformat d.
Proof.
  intros Hnow. unfold _normalize_timestamp.
  destruct (negb (PyStr.truthy s)); [ now exists now | ].
  destruct (strptime s fmt_dot) as [d | ] eqn:E1;
    [ exists d; split; [ now apply strptime_valid in E1 | reflexivity ] | ].
  destruct (strptime s fmt_comma) as [d | ] eqn:E2;
    [ exists d; split; [ now apply strptime_valid in E2 | reflexivity ] | ].
  destruct (strptime s fmt_seconds) as [d | ] eqn:E3;
    [ exists d; split; [ now apply strptime_valid in E3 | reflexivity ] | ].
  now exists now.
Qed.

(** X20.
    Every entry [_parse_log_line] builds carries a timestamp in the format
    of [isoformat], whatever the line held: [fromisoformat], which
    [search_logs] applies to it, reads it back as a naive value of the
    calendar. *)
Theorem parsed_timestamp_reads_back (now : datetime) (line_text : string)
  (e : log_entry) :
  valid now = true ->
  _parse_log_line now line_text = Some e ->
  exists d,
    valid d = true
    /\ timestamp e = isoformat d
    /\ Samples.fromisoformat (timestamp e) = Some (mk_stamp d None).
Proof.
  intros Hnow. unfold _parse_log_line.
  destruct (first_match log_patterns (PyStr.strip line_text)) as [[name g] | ];
    [ destruct (line_number g) as [line_value | ]; [ | discriminate ] | ];
    intros H; injection H as <-; cbn [timestamp].
  - destruct (normalize_timestamp_iso now (Regex.get_or "timestamp" "" g) Hnow)
      as (d & Hd & ->).
    exists d. repeat split; [ assumption | now apply fromisoformat_isoformat ].
  - exists now. repeat split; [ assumption | now apply fromisoformat_isoformat ].
Qed.

Lemma parsed_timestamp_reads_back_witness :
  valid Samples.noon = true
  /\ _parse_log_line Samples.noon Samples.loguru_line
     = Some (mk_entry "2024-01-20T10:30:00.123000" "INFO" "main" "hello" "main"
               "handle" (Some 42%Z) Samples.loguru_line "loguru")
  /\ exists d,
       valid d = true
       /\ timestamp (mk_entry "2024-01-20T10:30:00.123000" "INFO" "main" "hello"
                       "main" "handle" (Some 42%Z) Samples.loguru_line "loguru")
          = isoformat d
       /\ Samples.fromisoformat
            (timestamp (mk_entry "2024-01-20T10:30:00.123000" "INFO" "main"
                          "hello" "main" "handle" (Some 42%Z)
                          Samples.loguru_line "loguru"))
          = Some (mk_stamp d None).
Proof.
  split; [ reflexivity | ].
  split; [ vm_compute; reflexivity | ].
  apply (parsed_timestamp_reads_back Samples.noon Samples.loguru_line).
  - reflexivity.
  - vm_compute. reflexivity.
Defined.

End TimestampFacts.


(** ** [ConfigManager]: the text of [.env] *)

Section EnvText.
Import PyDatetime ConfigManager.

Lemma digit_char_not (x : ascii) (n : Z) :
  PyStr.isdigit x = false -> Ascii.eqb (digit_char n) x = false.
Proof.
  intros Hx. destruct (Ascii.eqb_spec (digit_char n) x) as [<- | ];
    [ | reflexivity ].
  now rewrite digit_char_isdigit in Hx.
Qed.

Lemma zfill_has_char (x : ascii) (w : nat) : forall n,
  PyStr.isdigit x = false -> PyStr.has_char x (zfill w n) = false.
Proof.
  induction w as [ | w IH]; intros n Hx; cbn [zfill]; [ reflexivity | ].
  rewrite has_char_app, IH by assumption. cbn [PyStr.has_char orb].
  now rewrite digit_char_not.
Qed.

Lemma drop_zeros_has_char (x : ascii) (s : string) :
  PyStr.has_char x s = false -> PyStr.has_char x (drop_zeros s) = false.
Proof.
  induction s as [ | c s IH]; [ reflexivity | ].
  destruct s as [ | c' s']; [ trivial | ].
  intros H. cbn [drop_zeros].
  destruct (Ascii.eqb c "0"); [ | exact H ].
  apply IH. cbn [PyStr.has_char] in H. now apply orb_false_iff in H as [_ H].
Qed.

Lemma strftime_seconds_one_line (x : ascii) (now : datetime) :
  x = PyStr.newline \/ x = PyStr.carriage_return ->
  PyStr.has_char x (strftime_seconds now) = false.
Proof.
  intros [-> | ->]; unfold strftime_seconds, time_part;
    rewrite !has_char_app, drop_zeros_has_char, !zfill_has_char;
    try reflexivity; now apply zfill_has_char.
Qed.

Lemma plain_key_facts (k : string) :
  plain_key k = true ->
  PyStr.strip k = k
  /\ PyStr.has_char PyStr.newline k = false
  /\ PyStr.has_char PyStr.carriage_return k = false
  /\ PyStr.has_char "=" k = false
  /\ PyStr.startswith k "#" = false.
Proof.
  unfold plain_key, single_line. rewrite !andb_true_iff, !negb_true_iff.
  intros [[[Hs [Hn Hr]] He] Hc]. apply String.eqb_eq in Hs. tauto.
Qed.

Lemma split_first_equals_app (k w : string) :
  PyStr.has_char "=" k = false ->
  split_first_equals (k ++ String "=" w) = (k, w).
Proof.
  induction k as [ | c k IH]; simpl; [ reflexivity | ].
  intros H. apply orb_false_iff in H as [Hc Hk].
  rewrite Hc, (IH Hk). reflexivity.
Qed.

Lemma contains_equals (k w : string) :
  PyStr.contains "=" (k ++ String "=" w) = true.
Proof.
  induction k as [ | c k IH]; simpl.
  - now destruct w.
  - rewrite IH. apply orb_true_r.
Qed.

Lemma strip_binding (k v : string) :
  PyStr.strip k = k ->
  PyStr.strip (k ++ String "=" v)
  = (k ++ String "=" (PyStr.rstrip v))%string.
Proof.
  intros Hk. unfold PyStr.strip.
  assert (Hl : PyStr.lstrip (k ++ String "=" v) = (k ++ String "=" v)%string).
  { destruct k as [ | c k']; [ reflexivity | ].
    cbn [append PyStr.lstrip]. now rewrite (stripped_head c k' Hk). }
  rewrite Hl, rstrip_app.
  - now rewrite rstrip_nonspace by reflexivity.
  - rewrite rstrip_nonspace by reflexivity. discriminate.
Qed.

Lemma prefix_empty (s : string) : String.prefix EmptyString s = true.
Proof. now destruct s. Qed.

Lemma binding_not_comment (k w : string) :
  PyStr.startswith k "#" = false ->
  PyStr.startswith (k ++ String "=" w) "#" = false.
Proof.
  unfold PyStr.startswith. destruct k as [ | c k']; [ reflexivity | ].
  cbn [append String.prefix].
  destruct (ascii_dec "#" c); [ | reflexivity ].
  now rewrite prefix_empty.
Qed.

(** A line [key=value] sets the key to the value as [read_value] reads
    it. *)
Lemma parse_line_binding (config : dict) (k v : string) :
  plain_key k = true ->
  parse_line config (k ++ "=" ++ v) = set k (read_value v) config.
Proof.
  intros Hk. destruct (plain_key_facts k Hk) as (Hs & _ & _ & He & Hc).
  unfold parse_line. cbn [append]. rewrite (strip_binding k v Hs).
  rewrite (binding_not_comment k _ Hc), contains_equals,
    (split_first_equals_app k _ He), Hs.
  replace (PyStr.truthy (k ++ String "=" (PyStr.rstrip v))) with true
    by now destruct k.
  cbn [negb orb]. unfold read_value. now rewrite strip_rstrip.
Qed.

Lemma parse_line_comment (config : dict) (text : string) :
  parse_line config (String "#" text) = config.
Proof.
  unfold parse_line, PyStr.strip. cbn [PyStr.lstrip].
  replace (PyStr.isspace "#") with false by reflexivity.
  destruct (rstrip_head "#" text eq_refl) as [r ->].
  now rewrite startswith_head, orb_true_r.
Qed.

Lemma parse_line_remark (config : dict) (text : string) :
  parse_line config ("# " ++ text) = config.
Proof. exact (parse_line_comment config (String " " text)). Qed.

Lemma parse_line_blank (config : dict) : parse_line config EmptyString = config.
Proof. reflexivity. Qed.

Lemma get_set (k k' v : string) (d : dict) :
  get k (set k' v d) = if String.eqb k' k then Some v else get k d.
Proof.
  induction d as [ | [k0 v0] d IH]; simpl; [ reflexivity | ].
  destruct (String.eqb_spec k0 k') as [-> | Hne]; simpl.
  - now destruct (String.eqb k' k).
  - rewrite IH. destruct (String.eqb_spec k0 k) as [-> | Hne'];
      [ | reflexivity ].
    destruct (String.eqb_spec k' k) as [-> | _]; [ now elim Hne | reflexivity ].
Qed.

Lemma fold_definition_lines (config : dict) (d : definition) (c : dict) :
  plain_key (key d) = true ->
  fold_left parse_line (definition_lines config d) c
  = if PyStr.truthy (get_or_empty (key d) config)
    then set (key d) (read_value (get_or_empty (key d) config)) c
    else c.
Proof.
  intros Hk. unfold definition_lines.
  rewrite !fold_left_app. cbn [fold_left].
  rewrite parse_line_remark.
  replace (fold_left parse_line
             (if is_required d then ["# 必需配置项"] else []) c) with c
    by (destruct (is_required d); [ cbn [fold_left];
                                    now rewrite parse_line_comment
                                  | reflexivity ]).
  destruct (PyStr.truthy (get_or_empty (key d) config)).
  - now rewrite (parse_line_binding c (key d) _ Hk), parse_line_blank.
  - now rewrite parse_line_remark, parse_line_blank.
Qed.

Lemma get_fold_definitions (config : dict) (k : string)
  (ds : list definition) :
  (forall d, In d ds -> plain_key (key d) = true) ->
  forall c,
  get k (fold_left parse_line (flat_map (definition_lines config) ds) c)
  = if existsb (fun d => String.eqb (key d) k) ds
       && PyStr.truthy (get_or_empty k config)
    then Some (read_value (get_or_empty k config))
    else get k c.
Proof.
  induction ds as [ | d ds IH]; intros Hplain c; [ reflexivity | ].
  cbn [flat_map existsb]. rewrite fold_left_app, IH
    by (intros d' Hd'; apply Hplain; now right).
  rewrite fold_definition_lines by (apply Hplain; now left).
  destruct (existsb (fun d0 => String.eqb (key d0) k) ds
            && PyStr.truthy (get_or_empty k config)) eqn:E.
  - apply andb_true_iff in E as [E1 E2]. now rewrite E1, E2, orb_true_r.
  - destruct (String.eqb_spec (key d) k) as [-> | Hne].
    + cbn [orb andb].
      destruct (PyStr.truthy (get_or_empty k config)) eqn:Et.
      * rewrite get_set, String.eqb_refl. reflexivity.
      * reflexivity.
    + cbn [orb]. rewrite E.
      destruct (PyStr.truthy (get_or_empty (key d) config));
        [ | reflexivity ].
      rewrite get_set.
      destruct (String.eqb_spec (key d) k); [ contradiction | reflexivity ].
Qed.

Lemma find_existsb {A : Type} (f : A -> bool) (l : list A) :
  match find f l with Some _ => true | None => false end = existsb f l.
Proof.
  induction l as [ | x l IH]; simpl; [ reflexivity | ].
  now destruct (f x).
Qed.

Lemma get_absent (k : string) (d : dict) :
  ~ In k (map fst d) -> get k d = None.
Proof.
  induction d as [ | [k0 v0] d IH]; simpl; [ reflexivity | ].
  intros H. destruct (String.eqb_spec k0 k) as [-> | _]; [ tauto | ].
  apply IH. tauto.
Qed.

Lemma get_fold_undefined (k : string) (items : dict) :
  NoDup (map fst items) ->
  (forall item, In item items -> is_defined (fst item) = false ->
                plain_key (fst item) = true) ->
  forall c,
  get k (fold_left parse_line (undefined_items items) c)
  = if is_defined k then get k c
    else match get k items with
         | Some v => Some (read_value v)
         | None => get k c
         end.
Proof.
  induction items as [ | [k0 v0] items IH]; intros Hnd Hplain c.
  - simpl. now destruct (is_defined k).
  - inversion Hnd as [ | ? ? Hnotin Hnd']; subst.
    unfold undefined_items. cbn [flat_map fst snd].
    rewrite fold_left_app.
    fold (undefined_items items).
    rewrite IH by (try assumption; intros i Hi; apply Hplain; now right).
    cbn [get].
    destruct (is_defined k0) eqn:Ed0; cbn [fold_left].
    + destruct (is_defined k) eqn:Ed; [ reflexivity | ].
      destruct (String.eqb_spec k0 k) as [-> | _]; [ congruence | reflexivity ].
    + rewrite (parse_line_binding c k0 v0)
        by (apply (Hplain (k0, v0)); [ now left | exact Ed0 ]).
      rewrite get_set.
      destruct (is_defined k) eqn:Ed.
      * destruct (String.eqb_spec k0 k) as [-> | _]; [ congruence | reflexivity ].
      * destruct (String.eqb_spec k0 k) as [-> | _]; [ | reflexivity ].
        now rewrite (get_absent k items Hnotin).
Qed.

Lemma get_in (k v : string) (d : dict) :
  get k d = Some v -> In (k, v) d.
Proof.
  induction d as [ | [k0 v0] d IH]; simpl; [ discriminate | ].
  destruct (String.eqb_spec k0 k) as [-> | _].
  - intros H. injection H as ->. now left.
  - intros H. right. now apply IH.
Qed.

Lemma get_or_empty_one_line (x : ascii) (k : string) (d : dict) :
  (forall item, In item d -> PyStr.has_char x (snd item) = false) ->
  PyStr.has_char x (get_or_empty k d) = false.
Proof.
  intros H. unfold get_or_empty. destruct (get k d) as [v | ] eqn:E;
    [ | reflexivity ].
  apply (H (k, v)). now apply get_in.
Qed.

Lemma table_plain (d : definition) :
  In d config_definitions ->
  plain_key (key d) = true /\ single_line (description d) = true.
Proof.
  assert (H : forallb (fun d => plain_key (key d)
                                && single_line (description d))
                config_definitions = true) by (vm_compute; reflexivity).
  intros Hd. rewrite forallb_forall in H. specialize (H d Hd).
  now apply andb_true_iff in H.
Qed.

Lemma single_line_char (x : ascii) (s : string) :
  x = PyStr.newline \/ x = PyStr.carriage_return ->
  single_line s = true -> PyStr.has_char x s = false.
Proof.
  unfold single_line. rewrite andb_true_iff, !negb_true_iff.
  now intros [-> | ->] [Hn Hr].
Qed.

Lemma generated_lines_one_line (x : ascii) (now : datetime) (config : dict)
  (l : string) :
  x = PyStr.newline \/ x = PyStr.carriage_return ->
  (forall item, In item config -> PyStr.has_char x (snd item) = false) ->
  (forall item, In item config -> is_defined (fst item) = false ->
                plain_key (fst item) = true) ->
  In l (["# XianyuAutoAgent 配置文件";
         ("# 更新时间: " ++ strftime_seconds now)%string;
         EmptyString]
        ++ flat_map (definition_lines config) config_definitions
        ++ match undefined_items config with
           | [] => []
           | items => ["# 用户自定义配置项"] ++ items ++ [EmptyString]
           end) ->
  PyStr.has_char x l = false.
Proof.
  intros Hx Hval Hplain Hl.
  assert (Hkey : forall k, plain_key k = true -> PyStr.has_char x k = false).
  { intros k Hk. destruct (plain_key_facts k Hk) as (_ & Hn & Hr & _).
    now destruct Hx as [-> | ->]. }
  assert (Hlit : forall w,
            PyStr.has_char PyStr.newline w = false ->
            PyStr.has_char PyStr.carriage_return w = false ->
            PyStr.has_char x w = false)
    by (intros w Hn Hr; now destruct Hx as [-> | ->]).
  assert (Hundef : In l (undefined_items config) ->
                   PyStr.has_char x l = false).
  { unfold undefined_items. rewrite in_flat_map.
    intros ([k0 v0] & Hin & Hl0). cbn [fst snd] in Hl0.
    destruct (is_defined k0) eqn:Ed; [ now elim Hl0 | ].
    destruct Hl0 as [<- | []].
    pose proof (Hval (k0, v0) Hin) as Hv. cbn [snd] in Hv.
    rewrite !has_char_app, (Hkey k0 (Hplain (k0, v0) Hin Ed)), Hv.
    now rewrite (Hlit "="). }
  apply in_app_or in Hl as [Hl | Hl].
  - destruct Hl as [<- | [<- | [<- | []]]]; try (now apply Hlit).
    rewrite has_char_app, (strftime_seconds_one_line x now Hx).
    now rewrite (Hlit "# 更新时间: ").
  - apply in_app_or in Hl as [Hl | Hl].
    + apply in_flat_map in Hl as (d & Hd & Hl).
      destruct (table_plain d Hd) as [Hk Hdesc].
      unfold definition_lines in Hl.
      apply in_app_or in Hl as [[<- | []] | Hl].
      { rewrite has_char_app, (single_line_char x _ Hx Hdesc).
        now rewrite (Hlit "# "). }
      apply in_app_or in Hl as [Hl | Hl].
      { destruct (is_required d); [ | now elim Hl ].
        destruct Hl as [<- | []]. now apply Hlit. }
      apply in_app_or in Hl as [[<- | []] | [<- | []]]; [ | now apply Hlit ].
      destruct (PyStr.truthy (get_or_empty (key d) config)).
      * rewrite !has_char_app, (Hkey _ Hk), get_or_empty_one_line by assumption.
        now rewrite (Hlit "=").
      * rewrite !has_char_app, (Hkey _ Hk).
        now rewrite (Hlit "# "), (Hlit "=").
    + remember (undefined_items config) as u eqn:E.
      destruct u as [ | i items]; [ now elim Hl | ].
      apply in_app_or in Hl as [[<- | []] | Hl]; [ now apply Hlit | ].
      apply in_app_or in Hl as [Hl | [<- | []]]; [ | now apply Hlit ].
      now apply Hundef.
Qed.

Lemma join_lines_has_char (x : ascii) (lines : list string) :
  Ascii.eqb PyStr.newline x = false ->
  (forall l, In l lines -> PyStr.has_char x l = false) ->
  PyStr.has_char x (PyStr.join_lines lines) = false.
Proof.
  intros Hx. induction lines as [ | l lines IH]; intros Hall; [ reflexivity | ].
  destruct lines as [ | l2 lines]; [ apply Hall; now left | ].
  change (PyStr.join_lines (l :: l2 :: lines))
    with (l ++ String PyStr.newline (PyStr.join_lines (l2 :: lines)))%string.
  rewrite has_char_app, (Hall l (or_introl eq_refl)).
  cbn [orb PyStr.has_char]. rewrite Hx. apply IH.
  intros l' Hl'. apply Hall. now right.
Qed.

(** The text [_generate_env_content] builds holds no carriage return when
    the values hold none: a reader in text mode gets it as it was
    written. *)
Lemma generated_env_read_back (now : datetime) (config : dict) :
  (forall item, In item config ->
                PyStr.has_char PyStr.carriage_return (snd item) = false) ->
  (forall item, In item config -> is_defined (fst item) = false ->
                plain_key (fst item) = true) ->
  PyStr.has_char PyStr.carriage_return (_generate_env_content now config)
  = false.
Proof.
  intros Hval Hplain. unfold _generate_env_content. cbv zeta.
  apply join_lines_has_char; [ reflexivity | ].
  intros l Hl.
  apply (generated_lines_one_line PyStr.carriage_return now config l);
    auto.
Qed.

Lemma generated_env_parsed (now : datetime) (config : dict) (k : string) :
  NoDup (map fst config) ->
  (forall item, In item config ->
                PyStr.has_char PyStr.newline (snd item) = false) ->
  (forall item, In item config -> is_defined (fst item) = false ->
                plain_key (fst item) = true) ->
  get_or_empty k (_parse_env_content (_generate_env_content now config))
  = read_value (get_or_empty k config).
Proof.
  intros Hnd Hval Hplain.
  unfold _parse_env_content, _generate_env_content. cbv zeta.
  rewrite split_join_lines;
    [ | discriminate
      | intros l Hl;
        apply (generated_lines_one_line PyStr.newline now config l);
        auto ].
  rewrite !fold_left_app.
  replace (fold_left parse_line
             ["# XianyuAutoAgent 配置文件";
              ("# 更新时间: " ++ strftime_seconds now)%string;
              EmptyString] [])
    with (@nil (string * string))
    by (cbn [fold_left];
        change ("# 更新时间: " ++ strftime_seconds now)%string
          with (String "#" (" 更新时间: " ++ strftime_seconds now));
        now rewrite !parse_line_comment).
  set (defined := fold_left parse_line
                    (flat_map (definition_lines config) config_definitions) []).
  assert (Htail :
    get k (fold_left parse_line
             match undefined_items config with
             | [] => []
             | items => ["# 用户自定义配置项"] ++ items ++ [EmptyString]
             end defined)
    = get k (fold_left parse_line (undefined_items config) defined)).
  { destruct (undefined_items config) as [ | i items]; [ reflexivity | ].
    rewrite !fold_left_app. cbn [fold_left].
    now rewrite parse_line_blank, parse_line_comment. }
  unfold get_or_empty at 1. rewrite Htail.
  rewrite (get_fold_undefined k config Hnd Hplain). unfold defined.
  rewrite get_fold_definitions by (intros d Hd; now apply table_plain).
  unfold is_defined, find_definition. rewrite find_existsb.
  destruct (existsb (fun d => String.eqb (key d) k) config_definitions).
  - cbn [andb]. destruct (PyStr.truthy (get_or_empty k config)) eqn:Et;
      [ reflexivity | ].
    destruct (get_or_empty k config); [ reflexivity | discriminate ].
  - cbn [andb get]. unfold get_or_empty.
    destruct (get k config); reflexivity.
Qed.

(** X21.
    What [_generate_env_content] writes, [_parse_env_content] reads back:
    for every key, defined in the table or not, the value read is the value
    written, trimmed and without the quotes around it.  The dictionary holds
    each key once, its values hold no line end, and the keys outside the
    table are plain. *)
Theorem parse_generated_env (now : datetime) (config : dict) (k : string) :
  NoDup (map fst config) ->
  (forall item, In item config ->
                PyStr.has_char PyStr.newline (snd item) = false) ->
  (forall item, In item config -> is_defined (fst item) = false ->
                plain_key (fst item) = true) ->
  get_or_empty k (_parse_env_content (_generate_env_content now config))
  = read_value (get_or_empty k config).
Proof. apply generated_env_parsed. Qed.

Lemma parse_generated_env_witness :
  NoDup (map fst Samples.env_config)
  /\ (forall item, In item Samples.env_config ->
                   PyStr.has_char PyStr.newline (snd item) = false)
  /\ (forall item, In item Samples.env_config ->
                   is_defined (fst item) = false ->
                   plain_key (fst item) = true)
  /\ get_or_empty "REGION"
       (_parse_env_content (_generate_env_content Samples.noon Samples.env_config))
     = read_value (get_or_empty "REGION" Samples.env_config).
Proof.
  assert (H1 : NoDup (map fst Samples.env_config)).
  { repeat constructor; simpl; intuition discriminate. }
  assert (H2 : forall item, In item Samples.env_config ->
                 PyStr.has_char PyStr.newline (snd item) = false).
  { intros item [<- | [<- | []]]; reflexivity. }
  assert (H3 : forall item, In item Samples.env_config ->
                 is_defined (fst item) = false -> plain_key (fst item) = true).
  { intros item [<- | [<- | []]] _; reflexivity. }
  split; [ exact H1 | ]. split; [ exact H2 | ]. split; [ exact H3 | ].
  exact (parse_generated_env Samples.noon Samples.env_config "REGION" H1 H2 H3).
Defined.

End EnvText.

(** ** [ConfigManager]: updating *)

Section ConfigUpdate.
Import Exn PyDatetime ConfigManager.

Lemma has_char_lstrip (x : ascii) (s : string) :
  PyStr.has_char x s = false -> PyStr.has_char x (PyStr.lstrip s) = false.
Proof.
  induction s as [ | c s IH]; simpl; [ trivial | ].
  intros H. destruct (PyStr.isspace c); [ | exact H ].
  apply IH. now apply orb_false_iff in H as [_ H].
Qed.

Lemma has_char_rstrip (x : ascii) (s : string) :
  PyStr.has_char x s = false -> PyStr.has_char x (PyStr.rstrip s) = false.
Proof.
  induction s as [ | c s IH]; simpl; [ trivial | ].
  intros H. apply orb_false_iff in H as [Hc Hs]. specialize (IH Hs).
  destruct (PyStr.rstrip s) as [ | c' r].
  - destruct (PyStr.isspace c); simpl; [ reflexivity | now rewrite Hc ].
  - cbn [PyStr.has_char]. cbn [PyStr.has_char] in IH. now rewrite Hc.
Qed.

Lemma has_char_strip (x : ascii) (s : string) :
  PyStr.has_char x s = false -> PyStr.has_char x (PyStr.strip s) = false.
Proof.
  intros H. unfold PyStr.strip. now apply has_char_rstrip, has_char_lstrip.
Qed.

Lemma has_char_tail_chars (x : ascii) (s : string) :
  PyStr.has_char x s = false -> PyStr.has_char x (PyStr.tail_chars s) = false.
Proof.
  destruct s as [ | c s]; [ trivial | ].
  cbn [PyStr.tail_chars PyStr.has_char]. intros H.
  apply orb_false_iff in H as [_ H].
  induction s as [ | c' s IH]; [ reflexivity | ].
  destruct (PyStr.is_continuation c'); [ | exact H ].
  apply IH. cbn [PyStr.has_char] in H. now apply orb_false_iff in H as [_ H].
Qed.

Lemma has_char_init_chars (x : ascii) (s : string) :
  PyStr.has_char x s = false -> PyStr.has_char x (PyStr.init_chars s) = false.
Proof.
  induction s as [ | c s IH]; [ trivial | ].
  cbn [PyStr.init_chars PyStr.has_char]. intros H.
  apply orb_false_iff in H as [Hc Hs].
  destruct (PyStr.len s =? 0)%nat; [ reflexivity | ].
  cbn [PyStr.has_char]. now rewrite Hc, IH.
Qed.

Lemma has_char_read_value (x : ascii) (s : string) :
  PyStr.has_char x s = false -> PyStr.has_char x (read_value s) = false.
Proof.
  intros H. unfold read_value.
  destruct (is_quoted (PyStr.strip s)).
  - now apply has_char_init_chars, has_char_tail_chars, has_char_strip.
  - now apply has_char_strip.
Qed.

Lemma has_char_split (x : ascii) (s : string) :
  PyStr.has_char x s = false ->
  PyStr.has_char x (fst (split_first_equals s)) = false
  /\ PyStr.has_char x (snd (split_first_equals s)) = false.
Proof.
  induction s as [ | c s IH]; [ now split | ].
  cbn [split_first_equals PyStr.has_char]. intros H.
  apply orb_false_iff in H as [Hc Hs]. specialize (IH Hs).
  destruct (Ascii.eqb c "="); [ now split | ].
  destruct (split_first_equals s) as [k v]. cbn [fst snd] in *.
  cbn [PyStr.has_char]. now rewrite Hc.
Qed.

Lemma split_key_no_equals (s : string) :
  PyStr.has_char "=" (fst (split_first_equals s)) = false.
Proof.
  induction s as [ | c s IH]; [ reflexivity | ].
  cbn [split_first_equals]. destruct (Ascii.eqb c "=") eqn:E; [ reflexivity | ].
  destruct (split_first_equals s) as [k v]. cbn [fst] in *.
  cbn [PyStr.has_char]. now rewrite E.
Qed.

Lemma single_line_facts (s : string) :
  single_line s = true <->
  PyStr.has_char PyStr.newline s = false
  /\ PyStr.has_char PyStr.carriage_return s = false.
Proof.
  unfold single_line. now rewrite andb_true_iff, !negb_true_iff.
Qed.

(** The key a line carries is plain. *)
Lemma parsed_key_plain (raw : string) :
  single_line raw = true ->
  PyStr.startswith (PyStr.strip raw) "#" = false ->
  plain_key (PyStr.strip (fst (split_first_equals (PyStr.strip raw)))) = true.
Proof.
  intros Hline Hc. apply single_line_facts in Hline as [Hn Hr].
  set (line := PyStr.strip raw) in *.
  assert (Hidem : PyStr.strip line = line) by apply strip_idempotent.
  unfold plain_key. rewrite strip_idempotent, String.eqb_refl.
  assert (Hsingle : single_line (PyStr.strip (fst (split_first_equals line)))
                    = true).
  { apply single_line_facts. split; apply has_char_strip, has_char_split;
      now apply has_char_strip. }
  rewrite Hsingle.
  rewrite (has_char_strip "=" _ (split_key_no_equals line)).
  cbn [andb negb]. apply negb_true_iff.
  destruct line as [ | c0 rest]; [ reflexivity | ].
  pose proof (stripped_head c0 rest Hidem) as Hc0.
  cbn [split_first_equals].
  destruct (Ascii.eqb c0 "="); [ reflexivity | ].
  destruct (split_first_equals rest) as [k v]. cbn [fst].
  unfold PyStr.strip. cbn [PyStr.lstrip]. rewrite Hc0.
  destruct (rstrip_head c0 k Hc0) as [r ->].
  unfold PyStr.startswith in *. cbn [String.prefix] in *.
  destruct (ascii_dec "#" c0); [ | reflexivity ].
  now rewrite prefix_empty in Hc.
Qed.

Lemma set_keys (k v : string) (d : dict) :
  map fst (set k v d)
  = if existsb (String.eqb k) (map fst d) then map fst d
    else map fst d ++ [k].
Proof.
  induction d as [ | [k0 v0] d IH]; [ reflexivity | ].
  cbn [set map fst existsb].
  rewrite (String.eqb_sym k k0).
  destruct (String.eqb k0 k); [ reflexivity | ].
  cbn [map fst orb]. rewrite IH.
  now destruct (existsb (String.eqb k) (map fst d)).
Qed.

Lemma set_in (k v : string) (d : dict) (item : string * string) :
  In item (set k v d) -> item = (k, v) \/ In item d.
Proof.
  induction d as [ | [k0 v0] d IH]; simpl.
  - intros [<- | []]. now left.
  - destruct (String.eqb_spec k0 k) as [-> | _]; simpl.
    + intros [<- | H]; [ now left | right; now right ].
    + intros [<- | H]; [ right; now left | ].
      destruct (IH H) as [-> | H']; [ now left | right; now right ].
Qed.

Lemma existsb_eqb_in (k : string) (l : list string) :
  existsb (String.eqb k) l = false -> ~ In k l.
Proof.
  induction l as [ | x l IH]; simpl; [ tauto | ].
  intros H. apply orb_false_iff in H as [Hx Hl].
  intros [-> | Hin]; [ now rewrite String.eqb_refl in Hx | now apply IH ].
Qed.

Lemma set_nodup (k v : string) (d : dict) :
  NoDup (map fst d) -> NoDup (map fst (set k v d)).
Proof.
  intros H. rewrite set_keys.
  destruct (existsb (String.eqb k) (map fst d)) eqn:E; [ exact H | ].
  apply NoDup_app; [ exact H | repeat constructor; simpl; tauto | ].
  intros a Ha [Heq | []]. subst a. now apply (existsb_eqb_in k (map fst d) E).
Qed.

(** A dictionary as [_parse_env_content] and [update_config] build it: each
    key once, the keys plain, each value on one line. *)
Lemma set_well_formed (k v : string) (d : dict) :
  plain_key k = true -> single_line v = true ->
  (NoDup (map fst d)
   /\ forall item, In item d ->
        plain_key (fst item) = true /\ single_line (snd item) = true) ->
  NoDup (map fst (set k v d))
  /\ forall item, In item (set k v d) ->
       plain_key (fst item) = true /\ single_line (snd item) = true.
Proof.
  intros Hk Hv [Hnd Hall]. split; [ now apply set_nodup | ].
  intros item Hin. destruct (set_in k v d item Hin) as [-> | H];
    [ now split | now apply Hall ].
Qed.

Lemma parse_line_well_formed (raw : string) (d : dict) :
  single_line raw = true ->
  (NoDup (map fst d)
   /\ forall item, In item d ->
        plain_key (fst item) = true /\ single_line (snd item) = true) ->
  NoDup (map fst (parse_line d raw))
  /\ forall item, In item (parse_line d raw) ->
       plain_key (fst item) = true /\ single_line (snd item) = true.
Proof.
  intros Hraw Hd. unfold parse_line.
  destruct (negb (PyStr.truthy (PyStr.strip raw))); [ exact Hd | ].
  destruct (PyStr.startswith (PyStr.strip raw) "#") eqn:Hc; [ exact Hd | ].
  cbn [orb]. destruct (PyStr.contains "=" (PyStr.strip raw)); [ | exact Hd ].
  pose proof (parsed_key_plain raw Hraw Hc) as Hk.
  pose proof (proj1 (single_line_facts raw) Hraw) as [Hn Hr].
  assert (Hv : single_line (read_value
                              (snd (split_first_equals (PyStr.strip raw))))
               = true).
  { apply single_line_facts.
    split; apply has_char_read_value, has_char_split; now apply has_char_strip. }
  destruct (split_first_equals (PyStr.strip raw)) as [k v]. cbn [fst snd] in *.
  now apply set_well_formed.
Qed.

Lemma split_lines_has_char (x : ascii) (s l : string) :
  PyStr.has_char x s = false -> In l (PyStr.split_lines s) ->
  PyStr.has_char x l = false.
Proof.
  revert l. induction s as [ | c s IH]; intros l Hs Hl.
  - destruct Hl as [<- | []]. reflexivity.
  - cbn [PyStr.split_lines] in Hl. cbn [PyStr.has_char] in Hs.
    apply orb_false_iff in Hs as [Hc Hs].
    destruct (Ascii.eqb c PyStr.newline).
    + destruct Hl as [<- | Hl]; [ reflexivity | now apply IH ].
    + destruct (PyStr.split_lines s) as [ | h t] eqn:E.
      * destruct Hl as [<- | []]. cbn [PyStr.has_char]. now rewrite Hc.
      * destruct Hl as [<- | Hl].
        -- cbn [PyStr.has_char]. rewrite Hc. apply IH; [ assumption | now left ].
        -- apply IH; [ assumption | now right ].
Qed.

Lemma split_lines_no_newline (s l : string) :
  In l (PyStr.split_lines s) -> PyStr.has_char PyStr.newline l = false.
Proof.
  revert l. induction s as [ | c s IH]; intros l Hl.
  - destruct Hl as [<- | []]. reflexivity.
  - cbn [PyStr.split_lines] in Hl.
    destruct (Ascii.eqb c PyStr.newline) eqn:Ec.
    + destruct Hl as [<- | Hl]; [ reflexivity | now apply IH ].
    + destruct (PyStr.split_lines s) as [ | h t] eqn:E.
      * destruct Hl as [<- | []]. cbn [PyStr.has_char]. now rewrite Ec.
      * destruct Hl as [<- | Hl].
        -- cbn [PyStr.has_char]. rewrite Ec. apply IH. now left.
        -- apply IH. now right.
Qed.

Lemma fold_parse_well_formed (lines : list string) : forall d,
  (forall l, In l lines -> single_line l = true) ->
  (NoDup (map fst d)
   /\ forall item, In item d ->
        plain_key (fst item) = true /\ single_line (snd item) = true) ->
  NoDup (map fst (fold_left parse_line lines d))
  /\ forall item, In item (fold_left parse_line lines d) ->
       plain_key (fst item) = true /\ single_line (snd item) = true.
Proof.
  induction lines as [ | l lines IH]; intros d Hlines Hd; [ exact Hd | ].
  cbn [fold_left]. apply IH.
  - intros l' Hl'. apply Hlines. now right.
  - apply parse_line_well_formed; [ apply Hlines; now left | exact Hd ].
Qed.

Lemma universal_newlines_no_return (s : string) :
  PyStr.has_char PyStr.carriage_return (PyStr.universal_newlines s) = false.
Proof.
  assert (H : forall n s, (String.length s <= n)%nat ->
    PyStr.has_char PyStr.carriage_return (PyStr.universal_newlines s) = false).
  { clear s. induction n as [ | n IH]; intros [ | c s] Hlen;
      try reflexivity; simpl in Hlen; [ lia | ].
    cbn [PyStr.universal_newlines].
    destruct (Ascii.eqb c PyStr.carriage_return) eqn:Ec.
    - cbn [PyStr.has_char]. replace (Ascii.eqb PyStr.newline PyStr.carriage_return)
        with false by reflexivity. cbn [orb].
      destruct s as [ | c' s']; [ reflexivity | ].
      destruct (Ascii.eqb c' PyStr.newline).
      + apply IH. simpl in Hlen. lia.
      + apply IH. lia.
    - cbn [PyStr.has_char]. rewrite Ec. apply IH. lia. }
  now apply (H (String.length s)).
Qed.

Lemma universal_newlines_fixed (s : string) :
  PyStr.has_char PyStr.carriage_return s = false ->
  PyStr.universal_newlines s = s.
Proof.
  induction s as [ | c s IH]; [ reflexivity | ].
  cbn [PyStr.has_char PyStr.universal_newlines]. intros H.
  apply orb_false_iff in H as [Hc Hs]. rewrite Hc. now rewrite IH.
Qed.

(** The dictionary read from a file is well formed, whatever the file
    holds. *)
Lemma parsed_env_well_formed (text : string) :
  NoDup (map fst (_parse_env_content (PyStr.universal_newlines text)))
  /\ forall item,
       In item (_parse_env_content (PyStr.universal_newlines text)) ->
       plain_key (fst item) = true /\ single_line (snd item) = true.
Proof.
  unfold _parse_env_content. apply fold_parse_well_formed.
  - intros l Hl. apply single_line_facts. split.
    + now apply (split_lines_no_newline _ l Hl).
    + apply (split_lines_has_char _ _ l (universal_newlines_no_return text) Hl).
  - split; [ constructor | intros item [] ].
Qed.

Lemma apply_updates_well_formed (configs : list (string * string)) :
  forall d n,
  (forall item, In item configs ->
     plain_key (fst item) = true /\ single_line (snd item) = true) ->
  (NoDup (map fst d)
   /\ forall item, In item d ->
        plain_key (fst item) = true /\ single_line (snd item) = true) ->
  NoDup (map fst (fst (apply_updates configs d n)))
  /\ forall item, In item (fst (apply_updates configs d n)) ->
       plain_key (fst item) = true /\ single_line (snd item) = true.
Proof.
  induction configs as [ | [k v] configs IH]; intros d n Hc Hd; [ exact Hd | ].
  cbn [apply_updates].
  assert (Hrest : forall item, In item configs ->
            plain_key (fst item) = true /\ single_line (snd item) = true)
    by (intros item Hi; apply Hc; now right).
  destruct (Hc (k, v) (or_introl eq_refl)) as [Hk Hv]. cbn [fst snd] in Hk, Hv.
  destruct (negb (String.eqb (get_or_empty k d) v)).
  - apply IH; [ exact Hrest | now apply set_well_formed ].
  - now apply IH.
Qed.

Lemma get_or_empty_set (k k' v : string) (d : dict) :
  get_or_empty k (set k' v d)
  = if String.eqb k' k then v else get_or_empty k d.
Proof.
  unfold get_or_empty. rewrite get_set. now destruct (String.eqb k' k).
Qed.

Lemma apply_updates_other (k : string) (configs : list (string * string)) :
  forall d n,
  ~ In k (map fst configs) ->
  get_or_empty k (fst (apply_updates configs d n)) = get_or_empty k d.
Proof.
  induction configs as [ | [k0 v0] configs IH]; intros d n Hk; [ reflexivity | ].
  cbn [apply_updates]. cbn [map fst In] in Hk.
  destruct (negb (String.eqb (get_or_empty k0 d) v0)).
  - rewrite IH by tauto. rewrite get_or_empty_set.
    destruct (String.eqb_spec k0 k); [ tauto | reflexivity ].
  - apply IH. tauto.
Qed.

Lemma apply_updates_requested (k v : string)
  (configs : list (string * string)) :
  forall d n,
  NoDup (map fst configs) -> In (k, v) configs ->
  get_or_empty k (fst (apply_updates configs d n)) = v.
Proof.
  induction configs as [ | [k0 v0] configs IH]; intros d n Hnd Hin;
    [ now elim Hin | ].
  cbn [map fst] in Hnd. inversion Hnd as [ | ? ? Hnotin Hnd']; subst.
  cbn [apply_updates].
  destruct Hin as [Heq | Hin].
  - injection Heq as -> ->.
    destruct (String.eqb_spec (get_or_empty k d) v) as [He | Hne]; cbn [negb].
    + now rewrite apply_updates_other.
    + rewrite apply_updates_other by assumption.
      now rewrite get_or_empty_set, String.eqb_refl.
  - destruct (negb (String.eqb (get_or_empty k0 d) v0)); now apply IH.
Qed.

Lemma put_in (name content : string) (dir : list (string * string)) :
  In (name, content) (put name content dir).
Proof.
  induction dir as [ | [n c] dir IH]; simpl; [ now left | ].
  destruct (String.eqb_spec n name) as [-> | _]; [ now left | now right ].
Qed.

Lemma update_config_written (o : os) (backup_time write_time : datetime)
  (configs : list (string * string)) (fs : files) (text : string) :
  env_file fs = Some text ->
  copy o = None -> open_read o = None -> open_write o = None ->
  validation_errors configs = [] ->
  (forall item, In item configs ->
     plain_key (fst item) = true /\ single_line (snd item) = true) ->
  let updated :=
    fst (apply_updates configs
           (_parse_env_content (PyStr.universal_newlines text)) 0) in
  success (fst (update_config o backup_time write_time configs fs)) = true
  /\ snd (update_config o backup_time write_time configs fs)
     = mk_files (Some (_generate_env_content write_time updated))
         (put (backup_filename backup_time) text (backups fs))
  /\ forall k,
       bind (_read_env_file o
               (snd (update_config o backup_time write_time configs fs)))
         (fun env_content =>
            Done (get_or_empty k (_parse_env_content env_content)))
       = Done (read_value (get_or_empty k updated)).
Proof.
  intros Henv Hcopy Hread Hwrite Hvalid Hconfigs updated.
  destruct (apply_updates_well_formed configs
              (_parse_env_content (PyStr.universal_newlines text)) 0 Hconfigs
              (parsed_env_well_formed text)) as [Hnd Hall].
  fold updated in Hnd, Hall.
  assert (Hupd : update_config o backup_time write_time configs fs
                 = (mk_reply true
                      ("配置更新成功，共更新"
                       ++ PyStr.str_of_int
                            (Z.of_nat
                               (snd (apply_updates configs
                                       (_parse_env_content
                                          (PyStr.universal_newlines text)) 0)))
                       ++ "个配置项")%string
                      [] (Some (snd (apply_updates configs
                                       (_parse_env_content
                                          (PyStr.universal_newlines text)) 0)))
                      (Some (backup_filename backup_time)),
                    mk_files (Some (_generate_env_content write_time updated))
                      (put (backup_filename backup_time) text (backups fs)))).
  { unfold update_config, _read_env_file. rewrite Hvalid, Henv, Hcopy.
    cbn [env_file]. rewrite Hread, Hwrite. unfold updated.
    now destruct (apply_updates configs
                    (_parse_env_content (PyStr.universal_newlines text)) 0). }
  rewrite Hupd. cbn [fst snd success].
  split; [ reflexivity | ]. split; [ reflexivity | ].
  intros k. unfold _read_env_file. cbn [env_file]. rewrite Hread.
  cbn [bind]. f_equal.
  rewrite universal_newlines_fixed.
  - apply generated_env_parsed; [ exact Hnd | | ].
    + intros item Hi. destruct (Hall item Hi) as [_ Hs].
      now apply single_line_facts in Hs.
    + intros item Hi _. now destruct (Hall item Hi).
  - apply generated_env_read_back.
    + intros item Hi. destruct (Hall item Hi) as [_ Hs].
      now apply single_line_facts in Hs.
    + intros item Hi _. now destruct (Hall item Hi).
Qed.

(** X22.
    One item that fails the validator of its key blocks the whole request:
    [update_config] answers with the validation failure, and neither the
    file nor the backups are touched. *)
Theorem update_config_rejects_invalid (o : os)
  (backup_time write_time : datetime) (configs : list (string * string))
  (fs : files) (k v : string) (d : definition) :
  In (k, v) configs ->
  find_definition k = Some d ->
  fst (validate (validator_of d) v) = false ->
  success (fst (update_config o backup_time write_time configs fs)) = false
  /\ message (fst (update_config o backup_time write_time configs fs))
     = "配置验证失败"
  /\ snd (update_config o backup_time write_time configs fs) = fs.
Proof.
  intros Hin Hdef Hbad. unfold update_config.
  destruct (validation_errors configs) as [ | e errs] eqn:E;
    [ | now repeat split ].
  exfalso.
  assert (Hmem : In (k ++ ": " ++ snd (validate (validator_of d) v))%string
                    (validation_errors configs)).
  { unfold validation_errors. apply in_flat_map. exists (k, v).
    split; [ exact Hin | ]. cbn [fst snd]. rewrite Hdef.
    destruct (validate (validator_of d) v) as [b msg]. cbn [fst snd] in *.
    rewrite Hbad. now left. }
  rewrite E in Hmem. exact Hmem.
Qed.

(** X23.
    After an update that goes through, the value of every key of the
    request, read again from the file, is the value asked for, trimmed and
    without quotes around it; the text the file held before is in the
    backup.  The keys of the request are plain and distinct and its values
    fit on one line. *)
Theorem update_config_then_read (o : os) (backup_time write_time : datetime)
  (configs : list (string * string)) (fs : files) (text k v : string) :
  env_file fs = Some text ->
  copy o = None -> open_read o = None -> open_write o = None ->
  validation_errors configs = [] ->
  NoDup (map fst configs) ->
  (forall item, In item configs ->
     plain_key (fst item) = true /\ single_line (snd item) = true) ->
  In (k, v) configs ->
  success (fst (update_config o backup_time write_time configs fs)) = true
  /\ In (backup_filename backup_time, text)
        (backups (snd (update_config o backup_time write_time configs fs)))
  /\ bind (_read_env_file o
             (snd (update_config o backup_time write_time configs fs)))
       (fun env_content =>
          Done (get_or_empty k (_parse_env_content env_content)))
     = Done (read_value v).
Proof.
  intros Henv Hcopy Hread Hwrite Hvalid Hnd Hconfigs Hin.
  destruct (update_config_written o backup_time write_time configs fs text
              Henv Hcopy Hread Hwrite Hvalid Hconfigs) as (Hs & Hfs & Hk).
  split; [ exact Hs | ]. split.
  - rewrite Hfs. cbn [backups]. apply put_in.
  - rewrite Hk. now rewrite (apply_updates_requested k v configs _ _ Hnd Hin).
Qed.

(** X24.
    The same update leaves the keys it does not name with the value they
    had, read once more: a value that was written between two pairs of
    quotes loses the outer pair. *)
Theorem update_config_keeps_others (o : os)
  (backup_time write_time : datetime) (configs : list (string * string))
  (fs : files) (text k : string) :
  env_file fs = Some text ->
  copy o = None -> open_read o = None -> open_write o = None ->
  validation_errors configs = [] ->
  (forall item, In item configs ->
     plain_key (fst item) = true /\ single_line (snd item) = true) ->
  ~ In k (map fst configs) ->
  bind (_read_env_file o
          (snd (update_config o backup_time write_time configs fs)))
    (fun env_content =>
       Done (get_or_empty k (_parse_env_content env_content)))
  = bind (_read_env_file o fs)
      (fun env_content =>
         Done (read_value (get_or_empty k (_parse_env_content env_content)))).
Proof.
  intros Henv Hcopy Hread Hwrite Hvalid Hconfigs Hout.
  destruct (update_config_written o backup_time write_time configs fs text
              Henv Hcopy Hread Hwrite Hvalid Hconfigs) as (_ & _ & Hk).
  rewrite Hk, (apply_updates_other k configs _ _ Hout).
  unfold _read_env_file. now rewrite Henv, Hread.
Qed.

Lemma update_config_rejects_invalid_witness :
  In ("HEARTBEAT_INTERVAL", "0") [("MODEL_NAME", "qwen-plus");
                                  ("HEARTBEAT_INTERVAL", "0")]
  /\ find_definition "HEARTBEAT_INTERVAL"
     = Some (mk_definition "HEARTBEAT_INTERVAL" "心跳检测间隔（秒）" false false
               PositiveInteger (Some "15"))
  /\ fst (validate PositiveInteger "0") = false
  /\ success (fst (update_config Samples.config_quiet Samples.noon Samples.noon
                     [("MODEL_NAME", "qwen-plus"); ("HEARTBEAT_INTERVAL", "0")]
                     Samples.config_files)) = false
  /\ message (fst (update_config Samples.config_quiet Samples.noon Samples.noon
                     [("MODEL_NAME", "qwen-plus"); ("HEARTBEAT_INTERVAL", "0")]
                     Samples.config_files)) = "配置验证失败"
  /\ snd (update_config Samples.config_quiet Samples.noon Samples.noon
            [("MODEL_NAME", "qwen-plus"); ("HEARTBEAT_INTERVAL", "0")]
            Samples.config_files) = Samples.config_files.
Proof.
  split; [ right; now left | ].
  split; [ reflexivity | ].
  split; [ reflexivity | ].
  apply (update_config_rejects_invalid Samples.config_quiet Samples.noon
           Samples.noon
           [("MODEL_NAME", "qwen-plus"); ("HEARTBEAT_INTERVAL", "0")]
           Samples.config_files "HEARTBEAT_INTERVAL" "0"
           (mk_definition "HEARTBEAT_INTERVAL" "心跳检测间隔（秒）" false false
              PositiveInteger (Some "15"))).
  - right. now left.
  - reflexivity.
  - reflexivity.
Defined.

Lemma update_config_then_read_witness :
  env_file Samples.config_files = Some Samples.env_text
  /\ copy Samples.config_quiet = None
  /\ open_read Samples.config_quiet = None
  /\ open_write Samples.config_quiet = None
  /\ validation_errors Samples.config_request = []
  /\ NoDup (map fst Samples.config_request)
  /\ (forall item, In item Samples.config_request ->
         plain_key (fst item) = true /\ single_line (snd item) = true)
  /\ In ("REGION", " cn-east ") Samples.config_request
  /\ success (fst (update_config Samples.config_quiet Samples.noon Samples.noon
                     Samples.config_request Samples.config_files)) = true
  /\ In (backup_filename Samples.noon, Samples.env_text)
        (backups (snd (update_config Samples.config_quiet Samples.noon
                         Samples.noon Samples.config_request
                         Samples.config_files)))
  /\ bind (_read_env_file Samples.config_quiet
             (snd (update_config Samples.config_quiet Samples.noon Samples.noon
                     Samples.config_request Samples.config_files)))
       (fun env_content =>
          Done (get_or_empty "REGION" (_parse_env_content env_content)))
     = Done (read_value " cn-east ").
Proof.
  assert (H1 : NoDup (map fst Samples.config_request)).
  { repeat constructor; simpl; intuition discriminate. }
  assert (H2 : forall item, In item Samples.config_request ->
                 plain_key (fst item) = true /\ single_line (snd item) = true).
  { intros item [<- | [<- | []]]; split; reflexivity. }
  assert (H3 : In ("REGION", " cn-east ") Samples.config_request).
  { right. now left. }
  split; [ reflexivity | ]. split; [ reflexivity | ].
  split; [ reflexivity | ]. split; [ reflexivity | ].
  split; [ vm_compute; reflexivity | ].
  split; [ exact H1 | ]. split; [ exact H2 | ]. split; [ exact H3 | ].
  exact (update_config_then_read Samples.config_quiet Samples.noon Samples.noon
           Samples.config_request Samples.config_files Samples.env_text
           "REGION" " cn-east " eq_refl eq_refl eq_refl eq_refl eq_refl
           H1 H2 H3).
Defined.

Lemma update_config_keeps_others_witness :
  env_file Samples.config_files = Some Samples.env_text
  /\ copy Samples.config_quiet = None
  /\ open_read Samples.config_quiet = None
  /\ open_write Samples.config_quiet = None
  /\ validation_errors Samples.config_request = []
  /\ (forall item, In item Samples.config_request ->
         plain_key (fst item) = true /\ single_line (snd item) = true)
  /\ ~ In "API_KEY" (map fst Samples.config_request)
  /\ bind (_read_env_file Samples.config_quiet
             (snd (update_config Samples.config_quiet Samples.noon Samples.noon
                     Samples.config_request Samples.config_files)))
       (fun env_content =>
          Done (get_or_empty "API_KEY" (_parse_env_content env_content)))
     = bind (_read_env_file Samples.config_quiet Samples.config_files)
         (fun env_content =>
            Done (read_value
                    (get_or_empty "API_KEY" (_parse_env_content env_content)))).
Proof.
  assert (H2 : forall item, In item Samples.config_request ->
                 plain_key (fst item) = true /\ single_line (snd item) = true).
  { intros item [<- | [<- | []]]; split; reflexivity. }
  assert (H3 : ~ In "API_KEY" (map fst Samples.config_request)).
  { simpl. intuition discriminate. }
  split; [ reflexivity | ]. split; [ reflexivity | ].
  split; [ reflexivity | ]. split; [ reflexivity | ].
  split; [ vm_compute; reflexivity | ].
  split; [ exact H2 | ]. split; [ exact H3 | ].
  exact (update_config_keeps_others Samples.config_quiet Samples.noon
           Samples.noon Samples.config_request Samples.config_files
           Samples.env_text "API_KEY" eq_refl eq_refl eq_refl eq_refl eq_refl
           H2 H3).
Defined.

End ConfigUpdate.

(** ** [PromptManager]: updating a prompt *)

Section PromptFacts.
Import Exn PromptManager.

Lemma lookup_put (name content : string) (dir : list (string * string)) :
  lookup name (put name content dir) = Some content.
Proof.
  induction dir as [ | [n c] dir IH]; simpl.
  - now rewrite String.eqb_refl.
  - destruct (String.eqb_spec n name) as [-> | Hne]; simpl.
    + now rewrite String.eqb_refl.
    + destruct (String.eqb_spec n name); [ contradiction | exact IH ].
Qed.

(** X25.
    An update that succeeds was made on a file that is not excluded, with a
    content that passes the validation; the backup holds what the file held
    before, and [get_prompt_content] then returns the new content, as a
    reader in text mode sees it: with ["\n"] for every line end. *)
Theorem update_prompt_then_get (o : os) (backup_name filename content : string)
  (fs : files) :
  success (fst (update_prompt_content o backup_name filename content fs))
  = true ->
  open_read o = None ->
  _should_exclude_file filename = false
  /\ is_valid (_validate_prompt_content content) = true
  /\ (exists previous,
        prompt_file fs = Some previous
        /\ lookup backup_name
             (backups (snd (update_prompt_content o backup_name filename
                              content fs)))
           = Some previous)
  /\ get_prompt_content o filename
       (snd (update_prompt_content o backup_name filename content fs))
     = Done (PyStr.universal_newlines content).
Proof.
  unfold update_prompt_content, get_prompt_content.
  destruct (_should_exclude_file filename); [ discriminate | ].
  destruct (prompt_file fs) as [previous | ] eqn:Ef; [ | discriminate ].
  destruct (is_valid (_validate_prompt_content content)); [ | discriminate ].
  cbn [negb]. destruct (copy o); [ discriminate | ].
  destruct (open_write o); [ discriminate | ].
  intros _ Hread. cbn [fst snd prompt_file backups]. rewrite Hread.
  split; [ reflexivity | ]. split; [ reflexivity | ].
  split; [ | reflexivity ].
  exists previous. split; [ reflexivity | apply lookup_put ].
Qed.

(** X26.
    An update that fails leaves the prompt file as it was, in every case but
    one: the copy was made and [open(file_path, 'w')] returned, which
    empties the file, before the write raised.  The file then holds the part
    of the new content written so far, and the backup made by the same call
    holds what the file held before. *)
Theorem update_prompt_failure_recoverable (o : os)
  (backup_name filename content : string) (fs : files) :
  success (fst (update_prompt_content o backup_name filename content fs))
  = false ->
  let after := snd (update_prompt_content o backup_name filename content fs) in
  prompt_file after = prompt_file fs
  \/ (exists e written,
        copy o = None
        /\ open_write o = Some (WriteFails e written)
        /\ prompt_file after = Some (PyStr.take written content)
        /\ lookup backup_name (backups after) = prompt_file fs).
Proof.
  unfold update_prompt_content.
  destruct (_should_exclude_file filename); [ intros _; now left | ].
  destruct (prompt_file fs) as [previous | ] eqn:Ef;
    [ | intros _; left; cbn [snd]; congruence ].
  destruct (is_valid (_validate_prompt_content content)); cbn [negb];
    [ | intros _; left; cbn [snd]; congruence ].
  destruct (copy o) as [w | ];
    [ intros _; left; cbn [snd prompt_file]; congruence | ].
  destruct (open_write o) as [[e | e written] | ]; [ | | discriminate ].
  - intros _. left. cbn [snd prompt_file left_by]. congruence.
  - intros _. right. exists e, written.
    cbn [snd prompt_file backups left_by].
    repeat split. apply lookup_put.
Qed.

Lemma update_prompt_then_get_witness :
  success (fst (update_prompt_content Samples.prompt_quiet "classify.backup"
                  "classify_prompt.txt" Samples.prompt_text
                  Samples.prompt_files)) = true
  /\ open_read Samples.prompt_quiet = None
  /\ _should_exclude_file "classify_prompt.txt" = false
  /\ is_valid (_validate_prompt_content Samples.prompt_text) = true
  /\ (exists previous,
        prompt_file Samples.prompt_files = Some previous
        /\ lookup "classify.backup"
             (backups (snd (update_prompt_content Samples.prompt_quiet
                              "classify.backup" "classify_prompt.txt"
                              Samples.prompt_text Samples.prompt_files)))
           = Some previous)
  /\ get_prompt_content Samples.prompt_quiet "classify_prompt.txt"
       (snd (update_prompt_content Samples.prompt_quiet "classify.backup"
               "classify_prompt.txt" Samples.prompt_text Samples.prompt_files))
     = Done (PyStr.universal_newlines Samples.prompt_text).
Proof.
  split; [ vm_compute; reflexivity | ].
  split; [ reflexivity | ].
  apply (update_prompt_then_get Samples.prompt_quiet "classify.backup"
           "classify_prompt.txt" Samples.prompt_text Samples.prompt_files).
  - vm_compute. reflexivity.
  - reflexivity.
Defined.

Lemma update_prompt_failure_recoverable_witness :
  success (fst (update_prompt_content Samples.prompt_disk_full "classify.backup"
                  "classify_prompt.txt" Samples.prompt_text
                  Samples.prompt_files)) = false
  /\ (let after :=
        snd (update_prompt_content Samples.prompt_disk_full "classify.backup"
               "classify_prompt.txt" Samples.prompt_text Samples.prompt_files) in
      prompt_file after = prompt_file Samples.prompt_files
      \/ (exists e written,
            copy Samples.prompt_disk_full = None
            /\ open_write Samples.prompt_disk_full = Some (WriteFails e written)
            /\ prompt_file after = Some (PyStr.take written Samples.prompt_text)
            /\ lookup "classify.backup" (backups after)
               = prompt_file Samples.prompt_files)).
Proof.
  split; [ vm_compute; reflexivity | ].
  apply (update_prompt_failure_recoverable Samples.prompt_disk_full
           "classify.backup" "classify_prompt.txt" Samples.prompt_text
           Samples.prompt_files).
  vm_compute. reflexivity.
Defined.

(** The write that fails on a full disk: the prompt file is left empty, and
    what it held is in the backup. *)
Lemma update_prompt_disk_full :
  let after :=
    snd (update_prompt_content Samples.prompt_disk_full "classify.backup"
           "classify_prompt.txt" Samples.prompt_text Samples.prompt_files) in
  prompt_file Samples.prompt_files = Some "role: assistant"
  /\ prompt_file after = Some EmptyString
  /\ lookup "classify.backup" (backups after) = Some "role: assistant".
Proof. vm_compute. now repeat split. Qed.

End PromptFacts.

(** ** [ConfigManager]: the validator of the model name *)

Section ModelName.
Import Pattern ConfigManager.

Lemma nothing_to_end (s : string) : accepts_to_end Nothing s = false.
Proof.
  induction s as [ | c s IH]; [ reflexivity | ].
  cbn [accepts_to_end deriv nullable]. now rewrite andb_false_r, IH.
Qed.

Lemma deriv_star_class (p : ascii -> bool) (c : ascii) :
  deriv c (Star (Class p)) = if p c then Star (Class p) else Nothing.
Proof. cbn [deriv]. now destruct (p c). Qed.

Lemma deriv_plus_class (p : ascii -> bool) (c : ascii) :
  deriv c (plus (Class p)) = if p c then Star (Class p) else Nothing.
Proof. unfold plus. cbn [deriv nullable]. now destruct (p c). Qed.

Lemma star_class_to_end (p : ascii -> bool) (s : string) :
  accepts_to_end (Star (Class p)) s = true <->
  exists t,
    PyStr.all_chars p t = true
    /\ (s = t \/ s = (t ++ String PyStr.newline EmptyString)%string).
Proof.
  induction s as [ | c s IH].
  - split; [ intros _; exists EmptyString; now split; [ | left ] | reflexivity ].
  - cbn [accepts_to_end nullable]. rewrite deriv_star_class, andb_true_r.
    rewrite orb_true_iff, andb_true_iff. split.
    + intros [[Hc Hs] | H].
      * apply Ascii.eqb_eq in Hc. subst c. destruct s; [ | discriminate ].
        exists EmptyString. split; [ reflexivity | now right ].
      * destruct (p c) eqn:Hp; [ | now rewrite nothing_to_end in H ].
        apply IH in H as (t & Ht & Hst).
        exists (String c t). split; [ cbn; now rewrite Hp | ].
        destruct Hst as [-> | ->]; [ now left | now right ].
    + intros (t & Ht & Hst). destruct t as [ | c' t'].
      * destruct Hst as [Hst | Hst]; [ discriminate | ].
        injection Hst as -> ->. left. now split.
      * cbn [PyStr.all_chars] in Ht. apply andb_true_iff in Ht as [Hp Ht].
        assert (Hc : c = c')
          by (destruct Hst as [Hst | Hst]; now injection Hst).
        subst c'. right. rewrite Hp. apply IH. exists t'.
        split; [ exact Ht | ].
        destruct Hst as [Hst | Hst]; injection Hst as ->; [ now left | now right ].
Qed.

(** X27.
    [_validate_model_name] accepts the empty text, the texts made of
    letters, digits, dots, underscores and hyphens, and such a text that is
    not empty followed by one newline, which [$] lets through; it accepts
    nothing else. *)
Theorem validate_model_name_accepts (value : string) :
  fst (_validate_model_name value) = true <->
  exists name,
    PyStr.all_chars name_char name = true
    /\ (value = name
        \/ (name <> EmptyString
            /\ value = (name ++ String PyStr.newline EmptyString)%string)).
Proof.
  unfold _validate_model_name.
  destruct value as [ | c value].
  - split; [ intros _ | reflexivity ].
    exists EmptyString. split; [ reflexivity | now left ].
  - cbn [PyStr.truthy negb accepts_to_end]. rewrite deriv_plus_class.
    replace (nullable (plus (Class name_char))) with false by reflexivity.
    rewrite andb_false_r. cbn [orb].
    split.
    + intros H.
      destruct (name_char c) eqn:Hp;
        [ | rewrite nothing_to_end in H; discriminate ].
      destruct (accepts_to_end (Star (Class name_char)) value) eqn:E;
        [ | discriminate ].
      apply star_class_to_end in E as (t & Ht & Hst).
      exists (String c t). split; [ cbn; now rewrite Hp | ].
      destruct Hst as [-> | ->]; [ now left | right; now split ].
    + intros (name & Hname & Hv).
      assert (Hacc : name_char c = true
                     /\ accepts_to_end (Star (Class name_char)) value = true).
      { destruct name as [ | c' name'].
        - destruct Hv as [Hv | [Hne _]]; [ discriminate | now elim Hne ].
        - cbn [PyStr.all_chars] in Hname.
          apply andb_true_iff in Hname as [Hp Ht].
          assert (Hc : c = c')
            by (destruct Hv as [Hv | [_ Hv]]; now injection Hv).
          subst c'. split; [ exact Hp | ].
          apply star_class_to_end. exists name'. split; [ exact Ht | ].
          destruct Hv as [Hv | [_ Hv]]; injection Hv as ->;
            [ now left | now right ]. }
      destruct Hacc as [Hp Hacc]. now rewrite Hp, Hacc.
Qed.

End ModelName.

(** ** The history, the tail loop and the search, for every input *)

Section MonitorSummary.
Import LogFile LogMonitor.

(** X28.
    After any sequence of pushes onto the buffer [__init__] builds, the
    buffer holds the 1000 most recently pushed entries in arrival order, and
    so at most 1000 of them. *)
Theorem buffer_keeps_last_thousand (es : list log_entry) :
  log_buffer (process_all es init) = PySlice.lastn 1000 es
  /\ (length (log_buffer (process_all es init)) <= 1000)%nat.
Proof. apply history_buffer_bounded. Qed.

(** X29.
    The file only grows, each time by text as it is written (well-formed
    UTF-8 without a carriage return) whose lines have at most 4300 bytes; it
    does not change while an iteration runs, and every read succeeds.  Then
    each iteration of [_monitoring_loop] reads exactly what was appended
    since the one before, and the offset ends at the size of the file:
    nothing is skipped and nothing comes twice. *)
Theorem loop_reads_each_chunk_once (now : PyDatetime.datetime)
  (chunks : list string) (base : string) (self : t) :
  Forall (fun d =>
            PyStr.as_written d
            /\ forallb within_int_limit (PyStr.split_lines (PyStr.strip d))
               = true) chunks ->
  snd (fst (monitoring_loop now (appended_views base chunks)
              (String.length base) self))
  = chunks
  /\ fst (fst (monitoring_loop now (appended_views base chunks)
                 (String.length base) self))
     = String.length
         (base ++ fold_right String.append EmptyString chunks)%string.
Proof.
  intros Hchunks.
  assert (Hparsed :
    Forall (fun d => PyStr.as_written d /\ _parse_log_content now d <> None)
           chunks).
  { apply (Forall_impl _ (P := fun d =>
             PyStr.as_written d
             /\ forallb within_int_limit (PyStr.split_lines (PyStr.strip d))
                = true)); [ | exact Hchunks ].
    intros d [Htext Hlines]. split; [ exact Htext | ].
    destruct (parse_log_content_lines now d Hlines) as (entries & -> & _).
    discriminate. }
  pose proof (append_only_delivery now chunks Hparsed base self) as H.
  destruct (monitoring_loop now (appended_views base chunks)
              (String.length base) self) as [[position texts] m].
  exact H.
Qed.

Lemma loop_reads_each_chunk_once_witness :
  Forall (fun d =>
            PyStr.as_written d
            /\ forallb within_int_limit (PyStr.split_lines (PyStr.strip d))
               = true)
    [Samples.with_newline Samples.loguru_line; EmptyString;
     Samples.with_newline Samples.keyword_line]
  /\ snd (fst (monitoring_loop Samples.noon
                 (appended_views Samples.started
                    [Samples.with_newline Samples.loguru_line; EmptyString;
                     Samples.with_newline Samples.keyword_line])
                 (String.length Samples.started) init))
     = [Samples.with_newline Samples.loguru_line; EmptyString;
        Samples.with_newline Samples.keyword_line]
  /\ fst (fst (monitoring_loop Samples.noon
                 (appended_views Samples.started
                    [Samples.with_newline Samples.loguru_line; EmptyString;
                     Samples.with_newline Samples.keyword_line])
                 (String.length Samples.started) init))
     = String.length
         (Samples.started
          ++ fold_right String.append EmptyString
               [Samples.with_newline Samples.loguru_line; EmptyString;
                Samples.with_newline Samples.keyword_line])%string.
Proof.
  assert (H : Forall (fun d =>
            PyStr.as_written d
            /\ forallb within_int_limit (PyStr.split_lines (PyStr.strip d))
               = true)
    [Samples.with_newline Samples.loguru_line; EmptyString;
     Samples.with_newline Samples.keyword_line]).
  { repeat (constructor; [ split; [ split | ]; vm_compute; reflexivity | ]).
    constructor. }
  split; [ exact H | ].
  exact (loop_reads_each_chunk_once Samples.noon
           [Samples.with_newline Samples.loguru_line; EmptyString;
            Samples.with_newline Samples.keyword_line]
           Samples.started init H).
Defined.

(** A file that grows while an iteration runs.  The size is taken when the
    file ends with the line ["é"], three bytes; [read(3)] asks for three
    characters, and by then the next line is there: its first letter is read
    with the three bytes, and the iteration that follows, which starts at
    the size taken, reads it again. *)
Lemma growth_during_read_comes_twice :
  let first :=
    monitoring_step Samples.noon
      (Present (Samples.started ++ Samples.accented) true)
      (Present (Samples.started ++ Samples.accented ++ "ab") true)
      (String.length Samples.started) init in
  let second :=
    monitoring_iteration Samples.noon
      (Present (Samples.started ++ Samples.accented ++ "ab") true)
      (last_position first) (monitor first) in
  String.length Samples.accented = 3%nat
  /\ new_content first = (Samples.accented ++ "a")%string
  /\ new_content second = "ab".
Proof. vm_compute. now repeat split. Qed.

(** A line whose number has 4301 digits, one more than [int] converts.
    [_parse_log_line] raises on it; the iteration that reads it hands
    nothing on and leaves the offset where it was, and so does every
    iteration after it: what the worker writes from then on is read and
    never handed on. *)
Lemma long_line_number_stops_delivery :
  let line := Samples.with_newline Samples.long_number_line in
  _parse_log_line Samples.noon Samples.long_number_line = None
  /\ monitoring_loop Samples.noon
       [Present line true;
        Present (line ++ Samples.started) true;
        Present (line ++ Samples.started) true]
       0 init
     = (0%nat, [line; (line ++ Samples.started)%string;
                (line ++ Samples.started)%string], init).
Proof. vm_compute. now split. Qed.

(** X30.
    With a positive [limit], [search_logs] returns the last [limit] entries
    of the buffer that pass every filter given, in buffer order, and leaves
    the monitor as it was. *)
Theorem search_logs_latest_matches (fromisoformat : string -> option stamp)
  (keyword level_filter start_time end_time : option string) (limit : Z)
  (self : t) (res : list log_entry) (self' : t) :
  (0 < limit)%Z ->
  search_logs fromisoformat keyword level_filter start_time end_time limit self
  = (Returned res, self') ->
  self' = self
  /\ res = PySlice.lastn (Z.to_nat limit)
             (filter (kept fromisoformat keyword level_filter start_time end_time)
                (log_buffer self))
  /\ (Z.of_nat (length res) <= limit)%Z
  /\ (forall e, In e res ->
        In e (log_buffer self)
        /\ kept fromisoformat keyword level_filter start_time end_time e = true).
Proof. apply search_logs_positive. Qed.

Lemma search_logs_latest_matches_witness :
  (0 < 5)%Z
  /\ search_logs Samples.fromisoformat (Some "SECOND") (Some "info") None None 5
       Samples.two_entries
     = (Returned [Samples.second_entry], Samples.two_entries)
  /\ Samples.two_entries = Samples.two_entries
  /\ [Samples.second_entry]
     = PySlice.lastn (Z.to_nat 5)
         (filter (kept Samples.fromisoformat (Some "SECOND") (Some "info")
                    None None)
            (log_buffer Samples.two_entries))
  /\ (Z.of_nat (length [Samples.second_entry]) <= 5)%Z
  /\ (forall e, In e [Samples.second_entry] ->
        In e (log_buffer Samples.two_entries)
        /\ kept Samples.fromisoformat (Some "SECOND") (Some "info") None None e
           = true).
Proof.
  split; [ lia | ].
  split; [ vm_compute; reflexivity | ].
  apply (search_logs_latest_matches Samples.fromisoformat (Some "SECOND")
           (Some "info") None None 5 Samples.two_entries
           [Samples.second_entry] Samples.two_entries).
  - lia.
  - vm_compute. reflexivity.
Defined.

End MonitorSummary.
